(** * annotations_line2d: interactive annotations for 2D line plots

    A shallow embedding of [annotations_line2d.py].  The module is an adapter
    over a plotting toolkit: toolkit objects (lines, axes, figures, canvases,
    annotation artists) live in a store, Python attributes that the module
    reads and writes are explicit fields or side tables, and every function
    of the module is a computation in a state-and-exception monad in which
    a raised exception keeps the side effects made before it. *)

From Stdlib Require Import ZArith QArith Lia Lqa.
From stdpp Require Import base option list gmap strings.

Close Scope Q_scope.
Open Scope Z_scope.

(** ** Python values *)

(** References into the stores. *)
Abbreviation oid := nat (only parsing).   (* toolkit objects *)
Abbreviation pid := nat (only parsing).   (* AnnotationPicker instances *)
Abbreviation did := nat (only parsing).   (* DraggableAnnotationLine2D instances *)

(** Coordinates.  Pixel, point and data coordinates are floats, Python's
    and NumPy's binary64.  A finite float is modelled as the rational it
    denotes, so a comparison of two floats is the comparison of two
    rationals.  The code also adds and multiplies them, and those results
    are rounded: see [float_add] and [float_mul] below. *)
Abbreviation point := (Q * Q)%type (only parsing).

Definition Qltb (a b : Q) : bool :=
  match (a ?= b)%Q with Lt => true | _ => false end.

(** ** Float arithmetic *)

(** [n / d] rounded to the nearest integer, a tie going to the even one;
    [n] is not negative and [d] is positive. *)
Definition round_half_even (n d : Z) : Z :=
  let q := n / d in
  match 2 * (n mod d) ?= d with
  | Lt => q
  | Gt => q + 1
  | Eq => if Z.even q then q else q + 1
  end.

(** The exponent of the unit in the last place of [n / d]: 52 below the
    exponent [e] with [2^e <= n / d < 2^(e+1)], and never below that of the
    subnormal numbers. *)
Definition ulp_exponent (n d : Z) : Z :=
  let k := Z.log2 n - Z.log2 d in
  let above := if 0 <=? k then d * 2 ^ k <=? n else d <=? n * 2 ^ (- k) in
  Z.max ((if above then k else k - 1) - 52) (-1074).

(** The binary64 number nearest to [x], a tie going to the one with the
    even significand (the rounding of IEEE 754 that Python and NumPy use),
    as a fraction in lowest terms.  There is no largest exponent here: a
    number beyond the largest finite float, which the hardware rounds to an
    infinity, is rounded like any other. *)
Definition binary64 (x : Q) : Q :=
  let x := Qred x in
  let n := Z.abs (Qnum x) in
  let d := Zpos (Qden x) in
  if n =? 0 then 0%Q
  else
    let e := ulp_exponent n d in
    if 0 <=? e
    then inject_Z (Z.sgn (Qnum x) * round_half_even n (d * 2 ^ e) * 2 ^ e)
    else Qred (Qmake (Z.sgn (Qnum x) * round_half_even (n * 2 ^ (- e)) d)
                     (Z.to_pos (2 ^ (- e)))).

(** [a + b] and [a * b] on floats.  An operand that is a Python int, as the
    pixel offsets of a mouse event can be, is converted to a float first,
    which rounds it as well. *)
Definition float_add (a b : Q) : Q := binary64 (binary64 a + binary64 b)%Q.
Definition float_mul (a b : Q) : Q := binary64 (binary64 a * binary64 b)%Q.

Arguments float_add : simpl never.
Arguments float_mul : simpl never.

(** The largest finite float, [(2 - 2^-52) * 2^1023]. *)
Definition max_float : Q := inject_Z (2 ^ 1024 - 2 ^ 971).

(** Every number of the list is within the range of the finite floats.
    Where this holds of the operands and of the result of a sum or of a
    product, the hardware's result is finite and is the one given here;
    where it does not, the code gets an infinity, a NaN or an
    [OverflowError], which have no counterpart here. *)
Definition finite_floats (xs : list Q) : bool :=
  forallb (λ x, Qle_bool (- max_float)%Q x && Qle_bool x max_float) xs.

(** A rational that is a float: rounding gives it back. *)
Definition is_float (x : Q) : Prop := (binary64 x == x)%Q.

Inductive exn :=
| RuntimeError | AttributeError | IndexError | TypeError | UnboundLocalError
| DanglingReference.   (* a reference the store does not hold; never raised on a store built by the module *)

#[global] Instance exn_eq_dec : EqDecision exn.
Proof. solve_decision. Defined.

(** What [event.button] can be: 1, 2, 3, the scroll directions, or None. *)
Inductive Button := BInt (n : Z) | BStr (s : string) | BNone.

#[global] Instance Button_eq_dec : EqDecision Button.
Proof. solve_decision. Defined.

(** A value that is None, a toolkit object, or a list of toolkit objects. *)
Inductive PyVal := PyNone | PyObj (o : oid) | PyList (l : list oid).

#[global] Instance PyVal_eq_dec : EqDecision PyVal.
Proof. solve_decision. Defined.

Inductive Kind := Line2D | Axes | Figure | Annotation | FigureCanvas | OtherObject.

#[global] Instance Kind_eq_dec : EqDecision Kind.
Proof. solve_decision. Defined.

(** The part of a toolkit object that this module only reads.  A method or
    attribute the object does not have is [None]. *)
Module Artist.
Record t := mk {
    kind : Kind;                       (* what isinstance tests *)
    get_axes : option PyVal;           (* result of .get_axes() *)
    get_figure : option PyVal;         (* result of .get_figure() *)
    figure : option PyVal;             (* attribute .figure *)
    canvas : option PyVal;             (* attribute .canvas *)
    get_xydata : list point;           (* Line2D.get_xydata() *)
    get_label : string;                (* Line2D.get_label() *)
    get_lines : list oid;              (* Axes.get_lines() *)
    transData : point → point;         (* Axes.transData.transform *)
    transData_inverted : point → point;(* Axes.transData.inverted().transform *)
    points_per_pixel : point           (* diagonal of the inverted text transform *)
  }.
End Artist.

(** Annotation text: a literal, or what a formatter returned for a line and
    an index.  Formatter calls are kept symbolic. *)
Inductive Formatter :=
| _annotate_line_str                   (* AnnotationPicker._annotate_line_str *)
| user_formatter (name : string).

Inductive Text :=
| TNone
| TStr (s : string)
| TFmt (f : Formatter) (line : option oid) (index : option Z).

Inductive KwVal := KwPoint (p : point) | KwRepr (s : string).

(** The mutable state of an annotation artist. *)
Module Annot.
Record t := mk {
    xy : point;              (* the annotated data point *)
    position : point;        (* text offset, in points *)
    text : Text;
    kwargs : list (string * KwVal);
    in_figure : bool         (* false once .remove() was called *)
  }.
Definition set_xy (p : point) (a : t) : t :=
    mk p (position a) (text a) (kwargs a) (in_figure a).
Definition set_position (p : point) (a : t) : t :=
    mk (xy a) p (text a) (kwargs a) (in_figure a).
Definition set_text (s : Text) (a : t) : t :=
    mk (xy a) (position a) s (kwargs a) (in_figure a).
Definition remove (a : t) : t :=
    mk (xy a) (position a) (text a) (kwargs a) false.
End Annot.

(** Mouse and pick events. [hits] lists the annotation artists whose box
    contains the cursor (what [get_bbox_patch().contains(event)] answers). *)
Module MouseEvent.
Record t := mk { button : Button; key : option string; hits : list oid }.
End MouseEvent.

Module PickEvent.
Record t := mk { mouseevent : MouseEvent.t; artist : oid; ind : list Z }.
End PickEvent.

(** Callbacks that get connected to canvas signals. *)
Inductive Handler :=
| H_on_pick_event | H_on_figure_enter_event
| H_on_pick (self : did) | H_on_release (self : did).

#[global] Instance Handler_eq_dec : EqDecision Handler.
Proof. solve_decision. Defined.

Module Registry.
Record t := mk { next_cid : nat; callbacks : list (nat * (string * Handler)) }.
End Registry.

(** The value of the [annotations_line2d] attribute: a controller on an
    artist, the list of callback ids on a canvas. *)
Inductive AttrVal := Controller (p : pid) | Callbacks (cids : list nat).

Inductive PickerVal := PTolerance (tol : Q) | PMethod (self : did).

(** [AnnotationPicker] instances. *)
Module Picker.
Record t := mk {
    tolerance : Q;
    use_blit : bool;
    button : Button;
    key : option string;
    formatter : Formatter;
    annotation_kwargs : list (string * KwVal)
  }.
End Picker.

(** [DraggableAnnotationLine2D] instances.  Attributes that are only
    assigned after construction are [None] until then. *)
Module Drag.
Record t := mk {
    ref_artist : oid;
    canvas : PyVal;
    got_artist : bool;
    cids : list nat;
    line : option oid;
    index : option Z;
    formatter : option Formatter;
    id : Z;
    button : option Button;
    drag_start_text_points : option point;
    drag_trans_mat : option point;
    xydata : option (list point);
    drag_start_pixels : option point;
    drag_trans_pix2dat : option (point → point)
  }.
Definition set_got_artist (b : bool) (d : t) : t :=
  mk (ref_artist d) (canvas d) b (cids d) (line d) (index d) (formatter d) (id d) (button d)
     (drag_start_text_points d) (drag_trans_mat d) (xydata d) (drag_start_pixels d)
     (drag_trans_pix2dat d).
Definition set_cids (l : list nat) (d : t) : t :=
  mk (ref_artist d) (canvas d) (got_artist d) l (line d) (index d) (formatter d) (id d)
     (button d) (drag_start_text_points d) (drag_trans_mat d) (xydata d) (drag_start_pixels
     d) (drag_trans_pix2dat d).
Definition set_line (v : option oid) (d : t) : t :=
  mk (ref_artist d) (canvas d) (got_artist d) (cids d) v (index d) (formatter d) (id d)
     (button d) (drag_start_text_points d) (drag_trans_mat d) (xydata d) (drag_start_pixels
     d) (drag_trans_pix2dat d).
Definition set_index (v : option Z) (d : t) : t :=
  mk (ref_artist d) (canvas d) (got_artist d) (cids d) (line d) v (formatter d) (id d)
     (button d) (drag_start_text_points d) (drag_trans_mat d) (xydata d) (drag_start_pixels
     d) (drag_trans_pix2dat d).
Definition set_formatter (v : option Formatter) (d : t) : t :=
  mk (ref_artist d) (canvas d) (got_artist d) (cids d) (line d) (index d) v (id d) (button
     d) (drag_start_text_points d) (drag_trans_mat d) (xydata d) (drag_start_pixels d)
     (drag_trans_pix2dat d).
Definition set_id (v : Z) (d : t) : t :=
  mk (ref_artist d) (canvas d) (got_artist d) (cids d) (line d) (index d) (formatter d) v
     (button d) (drag_start_text_points d) (drag_trans_mat d) (xydata d) (drag_start_pixels
     d) (drag_trans_pix2dat d).
Definition set_button (b : Button) (d : t) : t :=
  mk (ref_artist d) (canvas d) (got_artist d) (cids d) (line d) (index d) (formatter d) (id
     d) (Some b) (drag_start_text_points d) (drag_trans_mat d) (xydata d) (drag_start_pixels
     d) (drag_trans_pix2dat d).
Definition set_drag_start_text_points (p : point) (d : t) : t :=
  mk (ref_artist d) (canvas d) (got_artist d) (cids d) (line d) (index d) (formatter d) (id
     d) (button d) (Some p) (drag_trans_mat d) (xydata d) (drag_start_pixels d)
     (drag_trans_pix2dat d).
Definition set_drag_trans_mat (p : point) (d : t) : t :=
  mk (ref_artist d) (canvas d) (got_artist d) (cids d) (line d) (index d) (formatter d) (id
     d) (button d) (drag_start_text_points d) (Some p) (xydata d) (drag_start_pixels d)
     (drag_trans_pix2dat d).
Definition set_xydata (xs : list point) (d : t) : t :=
  mk (ref_artist d) (canvas d) (got_artist d) (cids d) (line d) (index d) (formatter d) (id
     d) (button d) (drag_start_text_points d) (drag_trans_mat d) (Some xs)
     (drag_start_pixels d) (drag_trans_pix2dat d).
Definition set_drag_start_pixels (p : point) (d : t) : t :=
  mk (ref_artist d) (canvas d) (got_artist d) (cids d) (line d) (index d) (formatter d) (id
     d) (button d) (drag_start_text_points d) (drag_trans_mat d) (xydata d) (Some p)
     (drag_trans_pix2dat d).
Definition set_drag_trans_pix2dat (f : point → point) (d : t) : t :=
  mk (ref_artist d) (canvas d) (got_artist d) (cids d) (line d) (index d) (formatter d) (id
     d) (button d) (drag_start_text_points d) (drag_trans_mat d) (xydata d)
     (drag_start_pixels d) (Some f).
End Drag.

(** What the module asks the toolkit or the interpreter to do with no
    result that the module reads back. *)
Inductive Call :=
| canvas_draw (canvas : oid)
| print_annotation_text (label : string) (index : option Z) (text : Text)
| print_str (s : string).

(** ** The store *)

Record World := mkWorld {
  objs : list Artist.t;                 (* toolkit objects, by reference *)
  attrs : gmap oid AttrVal;             (* the annotations_line2d attribute *)
  pickers : gmap oid PickerVal;         (* what set_picker stored *)
  annots : gmap oid Annot.t;            (* state of annotation artists *)
  registries : gmap oid Registry.t;     (* callback registry of each canvas *)
  controllers : list Picker.t;          (* AnnotationPicker instances *)
  draggables : list Drag.t;             (* DraggableAnnotationLine2D instances *)
  _drag_lock : bool;                    (* DraggableAnnotationLine2D._drag_lock: true = locked *)
  _counter : Z;                         (* DraggableAnnotationLine2D._counter *)
  _event : option PickEvent.t;          (* module global _event *)
  calls : list Call
}.

Definition with_objs (f : list Artist.t → list Artist.t) (w : World) : World :=
  mkWorld (f (objs w)) (attrs w) (pickers w) (annots w) (registries w) (controllers w)
          (draggables w) (_drag_lock w) (_counter w) (_event w) (calls w).
Definition with_attrs (f : gmap oid AttrVal → gmap oid AttrVal) (w : World) : World :=
  mkWorld (objs w) (f (attrs w)) (pickers w) (annots w) (registries w) (controllers w)
          (draggables w) (_drag_lock w) (_counter w) (_event w) (calls w).
Definition with_pickers (f : gmap oid PickerVal → gmap oid PickerVal) (w : World) : World :=
  mkWorld (objs w) (attrs w) (f (pickers w)) (annots w) (registries w) (controllers w)
          (draggables w) (_drag_lock w) (_counter w) (_event w) (calls w).
Definition with_annots (f : gmap oid Annot.t → gmap oid Annot.t) (w : World) : World :=
  mkWorld (objs w) (attrs w) (pickers w) (f (annots w)) (registries w) (controllers w)
          (draggables w) (_drag_lock w) (_counter w) (_event w) (calls w).
Definition with_registries (f : gmap oid Registry.t → gmap oid Registry.t) (w : World) : World :=
  mkWorld (objs w) (attrs w) (pickers w) (annots w) (f (registries w)) (controllers w)
          (draggables w) (_drag_lock w) (_counter w) (_event w) (calls w).
Definition with_controllers (f : list Picker.t → list Picker.t) (w : World) : World :=
  mkWorld (objs w) (attrs w) (pickers w) (annots w) (registries w) (f (controllers w))
          (draggables w) (_drag_lock w) (_counter w) (_event w) (calls w).
Definition with_draggables (f : list Drag.t → list Drag.t) (w : World) : World :=
  mkWorld (objs w) (attrs w) (pickers w) (annots w) (registries w) (controllers w)
          (f (draggables w)) (_drag_lock w) (_counter w) (_event w) (calls w).
Definition with_drag_lock (b : bool) (w : World) : World :=
  mkWorld (objs w) (attrs w) (pickers w) (annots w) (registries w) (controllers w)
          (draggables w) b (_counter w) (_event w) (calls w).
Definition with_counter (c : Z) (w : World) : World :=
  mkWorld (objs w) (attrs w) (pickers w) (annots w) (registries w) (controllers w)
          (draggables w) (_drag_lock w) c (_event w) (calls w).
Definition with_event (e : option PickEvent.t) (w : World) : World :=
  mkWorld (objs w) (attrs w) (pickers w) (annots w) (registries w) (controllers w)
          (draggables w) (_drag_lock w) (_counter w) e (calls w).
Definition with_call (c : Call) (w : World) : World :=
  mkWorld (objs w) (attrs w) (pickers w) (annots w) (registries w) (controllers w)
          (draggables w) (_drag_lock w) (_counter w) (_event w) (calls w ++ [c]).

(** ** The monad *)

Inductive outcome (A : Type) :=
| Ret (a : A) (w : World)     (* normal return *)
| Exc (e : exn) (w : World)   (* an exception left the function *)
| Diverge.                    (* a loop ran out of fuel *)
Arguments Ret {A} a w.
Arguments Exc {A} e w.
Arguments Diverge {A}.

Definition M (A : Type) : Type := World → outcome A.

#[global] Instance M_ret : MRet M := λ A a w, Ret a w.
#[global] Instance M_bind : MBind M := λ A B k m w,
  match m w with
  | Ret a w' => k a w'
  | Exc e w' => Exc e w'
  | Diverge => Diverge
  end.

Definition raise {A} (e : exn) : M A := λ w, Exc e w.
Definition diverge {A} : M A := λ _, Diverge.
Definition gets {A} (f : World → A) : M A := λ w, Ret (f w) w.
Definition modify (f : World → World) : M unit := λ w, Ret tt (f w).

(** [try: m except e: h] *)
Definition try_except {A} (m : M A) (e : exn) (h : M A) : M A := λ w,
  match m w with
  | Exc e' w' => if decide (e' = e) then h w' else Exc e' w'
  | r => r
  end.

Definition unwrap {A} (e : exn) (o : option A) : M A :=
  match o with Some a => mret a | None => raise e end.

Fixpoint for_each {A} (l : list A) (body : A → M unit) : M unit :=
  match l with
  | [] => mret tt
  | x :: l' => body x;; for_each l' body
  end.

(** The world an outcome leaves behind (the starting one if it diverged). *)
Definition world_after {A} (w : World) (r : outcome A) : World :=
  match r with Ret _ w' => w' | Exc _ w' => w' | Diverge => w end.

(** Indexing a sequence with a Python integer: negative indices count from
    the end, anything else out of range raises IndexError. *)
Definition py_index {A} (l : list A) (i : Z) : M A :=
  let n := Z.of_nat (length l) in
  if (0 <=? i) && (i <? n) then unwrap IndexError (l !! Z.to_nat i)
  else if (- n <=? i) && (i <? 0) then unwrap IndexError (l !! Z.to_nat (n + i))
  else raise IndexError.

(** ** Toolkit and interpreter primitives *)

Definition obj_of (w : World) (v : PyVal) : option Artist.t :=
  match v with PyObj o => objs w !! o | _ => None end.

(** A toolkit member of a value, if the value is an object that has it. *)
Definition member {A} (w : World) (m : Artist.t → option A) (v : PyVal) : option A :=
  obj_of w v ≫= m.

(** [hasattr(v, name)] and [v.name] (or [v.name()]) for a toolkit member. *)
Definition hasattr {A} (m : Artist.t → option A) (v : PyVal) : M bool :=
  gets (λ w, bool_decide (is_Some (member w m v))).

Definition getattr {A} (m : Artist.t → option A) (v : PyVal) : M A :=
  o ← gets (λ w, member w m v); unwrap AttributeError o.

Definition kind_of (w : World) (v : PyVal) : option Kind :=
  Artist.kind <$> obj_of w v.

Definition isinstance (v : PyVal) (k : Kind) : M bool :=
  gets (λ w, bool_decide (kind_of w v = Some k)).

(** The attribute named [attr_name = 'annotations_line2d']. *)
Definition attr_lookup (w : World) (v : PyVal) : option AttrVal :=
  match v with PyObj o => attrs w !! o | _ => None end.

Definition hasattr_attr_name (v : PyVal) : M bool :=
  gets (λ w, bool_decide (is_Some (attr_lookup w v))).

Definition getattr_attr_name (v : PyVal) : M AttrVal :=
  a ← gets (λ w, attr_lookup w v); unwrap AttributeError a.

Definition setattr_attr_name (v : PyVal) (x : AttrVal) : M unit :=
  match v with
  | PyObj o => modify (with_attrs <[o := x]>)
  | _ => raise AttributeError
  end.

Definition delattr_attr_name (v : PyVal) : M unit :=
  has ← hasattr_attr_name v;
  match v with
  | PyObj o => if has : bool then modify (with_attrs (delete o)) else raise AttributeError
  | _ => raise AttributeError
  end.

(** [threading.Lock]: [acquire(False)] and [release()]. *)
Definition lock_acquire_nowait : M bool :=
  locked ← gets _drag_lock;
  if locked : bool then mret false else modify (with_drag_lock true);; mret true.

Definition lock_release : M unit :=
  locked ← gets _drag_lock;
  if locked : bool then modify (with_drag_lock false) else raise RuntimeError.

(** Canvas signals. *)
Definition registry_of (canvas : PyVal) : M (oid * Registry.t) :=
  match canvas with
  | PyObj c => r ← gets (λ w, registries w !! c); r ← unwrap AttributeError r; mret (c, r)
  | _ => raise AttributeError
  end.

Definition mpl_connect (canvas : PyVal) (s : string) (func : Handler) : M nat :=
  '(c, r) ← registry_of canvas;
  let cid := Registry.next_cid r in
  modify (with_registries
            <[c := Registry.mk (S cid) (Registry.callbacks r ++ [(cid, (s, func))])]>);;
  mret cid.

Definition mpl_disconnect (canvas : PyVal) (cid : nat) : M unit :=
  '(c, r) ← registry_of canvas;
  modify (with_registries
            <[c := Registry.mk (Registry.next_cid r)
                     (filter (λ cb, cb.1 ≠ cid) (Registry.callbacks r))]>).

Definition connected (w : World) (canvas : PyVal) (s : string) (func : Handler) : bool :=
  match canvas with
  | PyObj c =>
      match registries w !! c with
      | Some r => bool_decide ((s, func) ∈ (Registry.callbacks r).*2)
      | None => false
      end
  | _ => false
  end.

Definition draw (canvas : PyVal) : M unit :=
  '(c, _) ← registry_of canvas; modify (with_call (canvas_draw c)).

Definition print (c : Call) : M unit := modify (with_call c).

(** Annotation artists. *)
Definition annot_get {A} (member : Annot.t → A) (a : oid) : M A :=
  s ← gets (λ w, annots w !! a); s ← unwrap AttributeError s; mret (member s).

Definition annot_update (f : Annot.t → Annot.t) (a : oid) : M unit :=
  annot_get Annot.xy a;; modify (with_annots (alter f a)).

Definition pickable (w : World) (a : oid) : bool :=
  match objs w !! a with
  | Some o => match Artist.figure o with
              | Some (PyObj _) => bool_decide (is_Some (pickers w !! a))
              | _ => false
              end
  | None => false
  end.

Definition set_picker (a : oid) (p : PickerVal) : M unit :=
  modify (with_pickers <[a := p]>).

(** Instances. *)
Definition self_drag (self : did) : M Drag.t :=
  d ← gets (λ w, draggables w !! self); unwrap DanglingReference d.

Definition update_drag (self : did) (f : Drag.t → Drag.t) : M unit :=
  modify (with_draggables (alter f self)).

Definition self_picker (self : pid) : M Picker.t :=
  p ← gets (λ w, controllers w !! self); unwrap DanglingReference p.

(** ** class DraggableAnnotationLine2D(matplotlib.offsetbox.DraggableBase) *)

(** Modelled from the spec: the toolkit's draggable base class
    ([matplotlib.offsetbox.DraggableBase]) is not among the sources.  It is
    "the toolkit's base class providing drag-lifecycle hooks
    (pick/save/update/finalize)"; the subclass reads its [ref_artist],
    [canvas] and [got_artist] and calls its [disconnect].  Its constructor
    records the artist and the canvas of the artist's figure, connects
    [on_pick] and [on_release] to the canvas and keeps the two ids, and
    makes [artist_picker] the artist's picker.  Blitting is not modelled. *)
Definition DraggableBase_init (ref_artist : oid) (use_blit : bool) : M did :=
  fig ← getattr Artist.figure (PyObj ref_artist);
  canvas ← getattr Artist.canvas fig;
  self ← gets (λ w, length (draggables w));
  modify (with_draggables
            (λ l, l ++ [Drag.mk ref_artist canvas false [] None None None 0 None
                                None None None None None]));;
  c2 ← mpl_connect canvas "pick_event" (H_on_pick self);
  c3 ← mpl_connect canvas "button_release_event" (H_on_release self);
  set_picker ref_artist (PMethod self);;
  update_drag self (Drag.set_cids [c2; c3]);;
  mret self.

Definition DraggableAnnotationLine2D_init (ref_artist : oid) (line : option oid)
    (index : option Z) (formatter : option Formatter) (use_blit : bool) : M did :=
  self ← DraggableBase_init ref_artist use_blit;
  update_drag self (Drag.set_line line);;
  update_drag self (Drag.set_index index);;
  update_drag self (Drag.set_formatter formatter);;
  c ← gets _counter;
  modify (with_counter (c + 1));;
  c ← gets _counter;
  modify (with_counter (c `mod` 2 ^ 31));;
  c ← gets _counter;
  update_drag self (Drag.set_id c);;
  match formatter with
  | Some f => annot_update (Annot.set_text (TFmt f line index)) ref_artist
  | None => mret tt
  end;;
  d ← self_drag self;
  draw (Drag.canvas d);;
  mret self.

Definition bbox_contains (a : oid) (event : MouseEvent.t)
  : bool * option (list (string * string)) :=
  (bool_decide (a ∈ MouseEvent.hits event), Some []).

Definition artist_picker (self : did) (artist : oid) (event : MouseEvent.t)
  : M (bool * option (list (string * string))) :=
  d ← self_drag self;
  if bool_decide (MouseEvent.button event ∈ [BInt 1; BInt 3])
     || (bool_decide (MouseEvent.button event = BInt 2)
         && bool_decide (Drag.line d ≠ None) && bool_decide (Drag.index d ≠ None))
  then
    let drag := bbox_contains (Drag.ref_artist d) event in
    if drag.1 then
      acquired ← lock_acquire_nowait;
      if acquired : bool then
        update_drag self (Drag.set_button (MouseEvent.button event));;
        mret drag
      else mret (false, None)
    else mret (false, None)
  else mret (false, None).

Definition save_offset (self : did) : M unit :=
  d ← self_drag self;
  b ← unwrap AttributeError (Drag.button d);
  if decide (b = BInt 1) then
    p ← annot_get Annot.position (Drag.ref_artist d);
    update_drag self (Drag.set_drag_start_text_points p);;
    m ← getattr (λ a, Some (Artist.points_per_pixel a)) (PyObj (Drag.ref_artist d));
    update_drag self (Drag.set_drag_trans_mat m)
  else if decide (b = BInt 2) then
    line ← unwrap AttributeError (Drag.line d);
    xs ← getattr (λ a, Some (Artist.get_xydata a)) (PyObj line);
    update_drag self (Drag.set_xydata xs);;
    ax ← getattr Artist.get_axes (PyObj (Drag.ref_artist d));
    t ← getattr (λ a, Some (Artist.transData a)) ax;
    xy ← annot_get Annot.xy (Drag.ref_artist d);
    update_drag self (Drag.set_drag_start_pixels (t xy));;
    ax ← getattr Artist.get_axes (PyObj (Drag.ref_artist d));
    t' ← getattr (λ a, Some (Artist.transData_inverted a)) ax;
    update_drag self (Drag.set_drag_trans_pix2dat t')
  else mret tt.

(** The two [while] loops of [update_offset].  Fuel bounds the number of
    iterations; [slide_index] supplies more than any run can use. *)
Fixpoint move_left (fuel : nat) (xydata : list point) (new_x : Q) (index : Z) : M Z :=
  match fuel with
  | O => diverge
  | S fuel' =>
      if 0 <? index then
        p ← py_index xydata (index - 1);
        if Qltb new_x p.1 then move_left fuel' xydata new_x (index - 1)
        else mret index
      else mret index
  end.

Fixpoint move_right (fuel : nat) (xydata : list point) (new_x : Q) (index : Z) : M Z :=
  match fuel with
  | O => diverge
  | S fuel' =>
      if index <? Z.of_nat (length xydata) - 1 then
        p ← py_index xydata (index + 1);
        if Qltb p.1 new_x then move_right fuel' xydata new_x (index + 1)
        else mret index
      else mret index
  end.

Definition slide_index (xydata : list point) (new_x : Q) (index : Z) : M Z :=
  index ← move_left (S (Z.to_nat index)) xydata new_x index;
  move_right (S (Z.to_nat (Z.of_nat (length xydata) - index))) xydata new_x index.

Definition update_offset (self : did) (dx dy : Q) : M unit :=
  d ← self_drag self;
  b ← unwrap AttributeError (Drag.button d);
  if decide (b = BInt 1) then
    p ← unwrap AttributeError (Drag.drag_start_text_points d);
    m ← unwrap AttributeError (Drag.drag_trans_mat d);
    let new_position := (float_add p.1 (float_mul dx m.1),
                         float_add p.2 (float_mul dy m.2)) in
    annot_update (Annot.set_position new_position) (Drag.ref_artist d)
  else if decide (b = BInt 2) then
    pix2dat ← unwrap AttributeError (Drag.drag_trans_pix2dat d);
    start ← unwrap AttributeError (Drag.drag_start_pixels d);
    let new_data_xy := pix2dat (float_add start.1 dx, float_add start.2 dy) in
    index0 ← unwrap TypeError (Drag.index d);
    xydata ← unwrap AttributeError (Drag.xydata d);
    index ← slide_index xydata new_data_xy.1 index0;
    if decide (index ≠ index0) then
      row ← py_index xydata index;
      annot_update (Annot.set_xy row) (Drag.ref_artist d);;
      update_drag self (Drag.set_index (Some index));;
      match Drag.formatter d with
      | Some f =>
          annot_update (Annot.set_text (TFmt f (Drag.line d) (Some index)))
                       (Drag.ref_artist d)
      | None => mret tt
      end
    else mret tt
  else mret tt.

Definition print_annotation (self : did) : M unit :=
  d ← self_drag self;
  line ← unwrap AttributeError (Drag.line d);
  label ← getattr (λ a, Some (Artist.get_label a)) (PyObj line);
  text ← annot_get Annot.text (Drag.ref_artist d);
  print (print_annotation_text label (Drag.index d) text).

(** Modelled from the spec: the base class's [disconnect], which
    disconnects the callbacks connected by the constructor. *)
Definition DraggableBase_disconnect (self : did) : M unit :=
  d ← self_drag self;
  for_each (Drag.cids d) (mpl_disconnect (Drag.canvas d)).

Definition remove (self : did) : M unit :=
  DraggableBase_disconnect self;;
  d ← self_drag self;
  annot_update Annot.remove (Drag.ref_artist d);;
  update_drag self (Drag.set_got_artist false);;
  draw (Drag.canvas d).

Definition finalize_offset (self : did) : M unit :=
  d ← self_drag self;
  b ← unwrap AttributeError (Drag.button d);
  if bool_decide (b = BInt 2) && bool_decide (Drag.formatter d ≠ None) then
    print_annotation self
  else if decide (b = BInt 3) then
    remove self
  else mret tt.

(** Modelled from the spec: the base class's pick and release hooks.
    [on_pick] runs when the artist's picker reported a hit: it marks the
    instance as holding its artist and calls [save_offset] ("On button-down,
    this saves the current location of the annotation").  [on_release] runs
    "when the mouse button is released, whether or not this was picked",
    and calls [finalize_offset] only "if this was picked in the first
    place", after which the instance no longer holds its artist. *)
Definition DraggableBase_on_pick (self : did) (evt : PickEvent.t) : M unit :=
  d ← self_drag self;
  if decide (PickEvent.artist evt = Drag.ref_artist d) then
    update_drag self (Drag.set_got_artist true);;
    save_offset self
  else mret tt.

Definition DraggableBase_on_release (self : did) (event : MouseEvent.t) : M unit :=
  d ← self_drag self;
  if Drag.got_artist d then
    finalize_offset self;;
    update_drag self (Drag.set_got_artist false)
  else mret tt.

Definition on_release (self : did) (event : MouseEvent.t) : M unit :=
  DraggableBase_on_release self event;;
  try_except lock_release RuntimeError (mret tt).

(** ** class AnnotationPicker *)

Definition default_annotation_kwargs : list (string * KwVal) :=
  [("xycoords", KwRepr "'data'"); ("textcoords", KwRepr "'offset points'");
   ("fontsize", KwRepr "11"); ("picker", KwRepr "True"); ("xytext", KwPoint (20, 20)%Q);
   ("bbox", KwRepr "dict(boxstyle='round,pad=0.5', fc='yellow', alpha=0.5)");
   ("arrowprops", KwRepr "dict(shrink=0.05, headwidth=5, width=1)")].

(** [dict.update]: later entries replace earlier ones with the same key. *)
Definition dict_set (d : list (string * KwVal)) (kv : string * KwVal) : list (string * KwVal) :=
  if bool_decide (kv.1 ∈ d.*1)
  then (λ e : string * KwVal, if decide (e.1 = kv.1) then kv else e) <$> d
  else d ++ [kv].

Definition dict_update (d kwargs : list (string * KwVal)) : list (string * KwVal) :=
  foldl dict_set d kwargs.

Definition dict_get (d : list (string * KwVal)) (k : string) : option KwVal :=
  (λ r, r.2.2) <$> list_find (λ e, e.1 = k) d.

(** An argument that is either one value or a Python list of values. *)
Inductive ArtistsArg := Single (a : PyVal) | Several (l : list PyVal).

Definition _make_iterable (obj : ArtistsArg) : list PyVal :=
  match obj with
  | Single (PyList l) => PyObj <$> l
  | Single a => [a]
  | Several l => l
  end.

Definition and_then (a b : M bool) : M bool :=
  x ← a; if x : bool then b else mret false.

(** The [if/elif/else] that opens [enable_callbacks]: the canvas an
    artist, a figure or a canvas stands for. *)
Definition canvas_of (artist : PyVal) : M PyVal :=
  is_fig ← isinstance artist Figure;
  if is_fig : bool then getattr Artist.canvas artist
  else
    has ← hasattr Artist.get_figure artist;
    if has : bool then
      fig ← getattr Artist.get_figure artist;
      getattr Artist.canvas fig
    else mret artist.

Definition enable_callbacks (artist : PyVal) : M unit :=
  canvas ← canvas_of artist;
  has ← hasattr_attr_name canvas;
  if negb has then
    c1 ← mpl_connect canvas "pick_event" H_on_pick_event;
    c2 ← mpl_connect canvas "figure_enter_event" H_on_figure_enter_event;
    setattr_attr_name canvas (Callbacks [c1; c2])
  else mret tt.

Definition unpickable_lines (ax : oid) : M (list oid) :=
  lines ← getattr (λ a, Some (Artist.get_lines a)) (PyObj ax);
  gets (λ w, filter (λ line, pickable w line = false) lines).

Definition AnnotationPicker_apply (self : pid) (artists : ArtistsArg) : M unit :=
  let artists := _make_iterable artists in
  for_each artists (λ artist,
    match artist with
    | PyNone => mret tt
    | _ =>
        setattr_attr_name artist (Controller self);;
        is_line ← and_then (isinstance artist Line2D)
                    (gets (λ w, match artist with
                                | PyObj a => negb (pickable w a)
                                | _ => false
                                end));
        is_axes ← isinstance artist Axes;
        is_fig ← isinstance artist Figure;
        lines ← (if is_line : bool then
                   mret (match artist with PyObj a => [a] | _ => [] end)
                 else if is_axes : bool then
                   match artist with PyObj a => unpickable_lines a | _ => mret [] end
                 else if is_fig : bool then
                   axs ← getattr Artist.get_axes artist;
                   match axs with
                   | PyList axs =>
                       ls ← foldr (λ ax acc, l ← unpickable_lines ax; r ← acc; mret (l ++ r))
                                  (mret []) axs;
                       mret ls
                   | _ => raise TypeError
                   end
                 else mret []);
        p ← self_picker self;
        for_each lines (λ line, set_picker line (PTolerance (Picker.tolerance p)))
    end);;
  match last artists with
  | Some artist => enable_callbacks artist
  | None => raise UnboundLocalError
  end.

Definition AnnotationPicker_init (artists : ArtistsArg) (tolerance : Q)
    (formatter : option Formatter) (button : Button) (key : option string)
    (use_blit : bool) (kwargs : list (string * KwVal)) : M pid :=
  self ← gets (λ w, length (controllers w));
  modify (with_controllers
            (λ l, l ++ [Picker.mk tolerance use_blit button key
                          (default _annotate_line_str formatter)
                          (dict_update default_annotation_kwargs kwargs)]));;
  match artists with
  | Single PyNone => mret tt
  | _ => AnnotationPicker_apply self artists
  end;;
  mret self.

(** The toolkit's [Axes.annotate]: a new annotation artist in [ax]. *)
Definition Axes_annotate (ax : PyVal) (text : option string) (xy : point)
    (kwargs : list (string * KwVal)) : M oid :=
  a ← gets (λ w, obj_of w ax);
  a ← unwrap AttributeError a;
  new ← gets (λ w, length (objs w));
  modify (with_objs
            (λ l, l ++ [Artist.mk Annotation (Some ax) (Artist.figure a) (Artist.figure a)
                          None [] "" [] (Artist.transData a) (Artist.transData_inverted a)
                          (Artist.points_per_pixel a)]));;
  modify (with_annots
            <[new := Annot.mk xy
                       (match dict_get kwargs "xytext" with
                        | Some (KwPoint p) => p
                        | _ => xy
                        end)
                       (from_option TStr TNone text) kwargs true]>);;
  mret new.

Definition AnnotationPicker_annotate (self : pid) (line : oid) (index : Z)
    (text : option string) : M did :=
  p ← self_picker self;
  let formatter := match text with None => Some (Picker.formatter p) | Some _ => None end in
  ax ← getattr Artist.get_axes (PyObj line);
  is_ax ← isinstance ax Axes;
  (if is_ax : bool then mret tt else raise AttributeError);;
  xydata ← getattr (λ a, Some (Artist.get_xydata a)) (PyObj line);
  xy ← py_index xydata index;
  annot ← Axes_annotate ax text xy (Picker.annotation_kwargs p);
  DraggableAnnotationLine2D_init annot (Some line) (Some index) formatter (Picker.use_blit p).

Definition AnnotationPicker__onpick (self : pid) (event : PickEvent.t) : M unit :=
  p ← self_picker self;
  is_line ← isinstance (PyObj (PickEvent.artist event)) Line2D;
  if bool_decide (MouseEvent.button (PickEvent.mouseevent event) = Picker.button p)
     && bool_decide (MouseEvent.key (PickEvent.mouseevent event) = Picker.key p)
     && is_line
  then
    ind ← py_index (PickEvent.ind event) (Z.of_nat (length (PickEvent.ind event)) `div` 2);
    modify (with_event (Some event));;
    AnnotationPicker_annotate self (PickEvent.artist event) ind None;;
    mret tt
  else mret tt.

(** ** Module functions *)

Definition disable_callbacks (canvas : PyVal) : M unit :=
  is_fig ← isinstance canvas Figure;
  canvas ← (if is_fig : bool then getattr Artist.canvas canvas else mret canvas);
  callbacks ← gets (λ w, default (Callbacks []) (attr_lookup w canvas));
  match callbacks with
  | Callbacks l => for_each l (mpl_disconnect canvas)
  | Controller _ => raise TypeError
  end;;
  delattr_attr_name canvas;;
  print (print_str "AnnotationPicker callback removed from canvas.").

Definition _find_annotations_instance (artist : PyVal) : M (option AttrVal) :=
  on_artist ← hasattr_attr_name artist;
  if on_artist : bool then
    v ← getattr_attr_name artist; mret (Some v)
  else
    on_axes ← and_then (hasattr Artist.get_axes artist)
                 (ax ← getattr Artist.get_axes artist; hasattr_attr_name ax);
    if on_axes : bool then
      ax ← getattr Artist.get_axes artist;
      v ← getattr_attr_name ax; mret (Some v)
    else
      on_figure ← and_then (hasattr Artist.get_figure artist)
                     (fig ← getattr Artist.get_figure artist; hasattr_attr_name fig);
      if on_figure : bool then
        fig ← getattr Artist.get_figure artist;
        v ← getattr_attr_name fig; mret (Some v)
      else mret None.

(** [instance.annotate(...)] and [instance._onpick(...)] on whatever the
    attribute holds: a list has neither method. *)
Definition call_annotate (instance : AttrVal) (line : oid) (index : Z)
    (text : option string) : M did :=
  match instance with
  | Controller p => AnnotationPicker_annotate p line index text
  | Callbacks _ => raise AttributeError
  end.

Definition call__onpick (instance : AttrVal) (event : PickEvent.t) : M unit :=
  match instance with
  | Controller p => AnnotationPicker__onpick p event
  | Callbacks _ => raise AttributeError
  end.

Definition annotate (line : oid) (index : Z) (text : option string) : M unit :=
  annotations_instance ← _find_annotations_instance (PyObj line);
  annotations_instance ←
    match annotations_instance with
    | None =>
        p ← AnnotationPicker_init (Single (PyObj line)) 5%Q None (BInt 1)
              (Some "control") true [];
        setattr_attr_name (PyObj line) (Controller p);;
        mret (Controller p)
    | Some v => mret v
    end;
  call_annotate annotations_instance line index text;;
  mret tt.

Definition _on_pick_event (event : PickEvent.t) : M unit :=
  annotations_instance ← _find_annotations_instance (PyObj (PickEvent.artist event));
  match annotations_instance with
  | Some v => call__onpick v event
  | None => mret tt
  end.

(** ** Keeping lines pickable, clearing controllers, making figures *)

(** The event of the mouse entering a figure: it carries its canvas. *)
Module LocationEvent.
Record t := mk { canvas : oid }.
End LocationEvent.

(** [annotations_instance.tolerance] on whatever the attribute holds: a
    list has no such attribute. *)
Definition tolerance_of (instance : AttrVal) : M Q :=
  match instance with
  | Controller p => P ← self_picker p; mret (Picker.tolerance P)
  | Callbacks _ => raise AttributeError
  end.

(** [fig.axes] and [ax.lines] are the lists that the toolkit's
    [get_axes()] and [get_lines()] return. *)
Definition _on_figure_enter_event (event : LocationEvent.t) : M unit :=
  fig ← getattr Artist.figure (PyObj (LocationEvent.canvas event));
  axs ← getattr Artist.get_axes fig;
  lines ← match axs with
          | PyList axs =>
              foldr (λ ax acc, l ← unpickable_lines ax; r ← acc; mret (l ++ r))
                    (mret []) axs
          | _ => raise TypeError
          end;
  for_each lines (λ line,
    annotations_instance ← _find_annotations_instance (PyObj line);
    match annotations_instance with
    | Some v => tol ← tolerance_of v; set_picker line (PTolerance tol)
    | None => mret tt
    end).

Section clear_annotations.

(** What the toolkit answers to [hasattr(artist, name)] for a member name
    given as text, and to [artist.get_children()]. *)
Variable has_member : Artist.t → string → bool.
Variable get_children : Artist.t → PyVal.

Definition hasattr_text (v : PyVal) (name : string) : M bool :=
  gets (λ w, match obj_of w v with Some a => has_member a name | None => false end).

(** The recursion descends into the children; fuel bounds its depth. *)
Fixpoint _clear_annotations (fuel : nat) (artist : ArtistsArg) : M unit :=
  match fuel with
  | O => diverge
  | S fuel' =>
      for_each (_make_iterable artist) (λ artist,
        has ← hasattr_attr_name artist;
        if has : bool then
          delattr_attr_name artist;;
          has_children ← hasattr_text artist "get chlldren";
          if has_children : bool then
            a ← gets (λ w, obj_of w artist);
            a ← unwrap AttributeError a;
            _clear_annotations fuel' (Single (get_children a))
          else mret tt
        else mret tt);;
      print (print_str "All annotations in artist and children deleted.")
  end.

End clear_annotations.

(** [subplots] with its positional and keyword arguments passed on:
    [plt_subplots] stands for the toolkit's [plt.subplots] applied to them,
    which makes the figure and returns it with its axes. *)
Definition subplots (plt_subplots : M (PyVal * PyVal)) (anno : option pid)
  : M (PyVal * PyVal) :=
  '(fig, ax_list) ← plt_subplots;
  match anno with
  | None =>
      AnnotationPicker_init (Single fig) 5%Q None (BInt 1) (Some "control") true [];;
      mret tt
  | Some anno => AnnotationPicker_apply anno (Single fig)
  end;;
  mret (fig, ax_list).

(** ** Example stores *)

Definition identity_transform (p : point) : point := p.

Definition a_figure (canvas : oid) (axes : list oid) : Artist.t :=
  Artist.mk Figure (Some (PyList axes)) (Some PyNone) (Some PyNone) (Some (PyObj canvas))
            [] "" [] identity_transform identity_transform (1, 1)%Q.
Definition a_canvas (fig : oid) : Artist.t :=
  Artist.mk FigureCanvas None None (Some (PyObj fig)) None
            [] "" [] identity_transform identity_transform (1, 1)%Q.
Definition an_axes (self fig : oid) (lines : list oid) : Artist.t :=
  Artist.mk Axes (Some (PyObj self)) (Some (PyObj fig)) (Some (PyObj fig)) None
            [] "" lines identity_transform identity_transform (1, 1)%Q.
Definition a_line (ax fig : oid) (xydata : list point) (label : string) : Artist.t :=
  Artist.mk Line2D (Some (PyObj ax)) (Some (PyObj fig)) (Some (PyObj fig)) None
            xydata label [] identity_transform identity_transform (1, 1)%Q.

(** A figure (0) with its canvas (1), one axes (2) and one line (3) with
    three data points; nothing carries a controller yet. *)
Definition ex_figure : Artist.t := a_figure 1 [2%nat].
Definition ex_canvas : Artist.t := a_canvas 0.
Definition ex_axes : Artist.t := an_axes 2 0 [3%nat].
Definition ex_line : Artist.t := a_line 2 0 [(0, 0)%Q; (1, 1)%Q; (2, 4)%Q] "My Line".

Definition ex_world : World :=
  mkWorld [ex_figure; ex_canvas; ex_axes; ex_line] ∅ ∅ ∅ {[1%nat := Registry.mk 0 []]}
          [] [] false 0 None [].

(** The same with a second figure (4), its canvas (5), axes (6) and line (7). *)
Definition ex_two_figures : World :=
  mkWorld [ex_figure; ex_canvas; ex_axes; ex_line;
           a_figure 5 [6%nat]; a_canvas 4; an_axes 6 4 [7%nat];
           a_line 6 4 [(0, 0)%Q; (1, 2)%Q] "Line2"]
          ∅ ∅ ∅ {[1%nat := Registry.mk 0 []; 5%nat := Registry.mk 0 []]}
          [] [] false 0 None [].

(** ** Reference notions used in the statements *)

(** The canvas [enable_callbacks] works on: a figure's canvas, the canvas
    of an artist's figure, or the argument itself. *)
Definition canvas_target (w : World) (artist : PyVal) : option PyVal :=
  if bool_decide (kind_of w artist = Some Figure) then member w Artist.canvas artist
  else match member w Artist.get_figure artist with
       | Some fig => member w Artist.canvas fig
       | None => Some artist
       end.

(** The canvas [disable_callbacks] works on: the argument, or its canvas
    when a figure was given instead. *)
Definition disable_target (w : World) (canvas : PyVal) : option PyVal :=
  if bool_decide (kind_of w canvas = Some Figure) then member w Artist.canvas canvas
  else Some canvas.

(** The ownership chain of an artist: the artist, then its axes, then its
    figure (each only where the toolkit offers the accessor). *)
Definition ownership_chain (w : World) (artist : PyVal) : list PyVal :=
  artist :: omap (λ accessor, member w accessor artist) [Artist.get_axes; Artist.get_figure].

(** The first [annotations_line2d] attribute met along the chain. *)
Definition nearest_controller (w : World) (artist : PyVal) : option AttrVal :=
  head (omap (attr_lookup w) (ownership_chain w artist)).

(** What [remove] leaves behind: the instance's callbacks disconnected, its
    artist out of the figure, the instance no longer holding it, and one
    more canvas redraw. *)
Definition world_after_remove (w : World) (self : did) (D : Drag.t) (c : oid)
    (r : Registry.t) : World :=
  with_call (canvas_draw c)
    (with_draggables (alter (Drag.set_got_artist false) self)
       (with_annots (alter Annot.remove (Drag.ref_artist D))
          (with_registries
             <[c := Registry.mk (Registry.next_cid r)
                      (filter (λ cb, cb.1 ∉ Drag.cids D) (Registry.callbacks r))]> w))).

(** The toolkit objects an instance refers to exist in the store, and the
    attributes its hooks read were assigned: [button] before the instance
    holds its artist, [line] for a middle-button drag. *)
Definition drag_ok (w : World) (D : Drag.t) : bool :=
  bool_decide (is_Some (annots w !! Drag.ref_artist D))
  && match Drag.canvas D with
     | PyObj c => bool_decide (is_Some (registries w !! c))
     | _ => false
     end
  && implb (Drag.got_artist D) (bool_decide (is_Some (Drag.button D)))
  && implb (bool_decide (Drag.button D = Some (BInt 2))) (bool_decide (Drag.line D ≠ None))
  && match Drag.line D with
     | Some l => bool_decide (is_Some (objs w !! l))
     | None => true
     end.

(** A list of abscissas in strictly increasing order. *)
Fixpoint strictly_increasing (xs : list Q) : bool :=
  match xs with
  | a :: (b :: _) as rest => Qltb a b && strictly_increasing rest
  | _ => true
  end.

(** The world after a middle-button drag update that moved the annotation
    from its index to [i], whose data row is [row]. *)
Definition world_after_slide (w : World) (self : did) (D : Drag.t) (i : Z) (row : point)
  : World :=
  let w1 := with_draggables (alter (Drag.set_index (Some i)) self)
              (with_annots (alter (Annot.set_xy row) (Drag.ref_artist D)) w) in
  match Drag.formatter D with
  | Some f =>
      with_annots
        (alter (Annot.set_text (TFmt f (Drag.line D) (Some i))) (Drag.ref_artist D)) w1
  | None => w1
  end.

(** A line that lives in a figure: its axes [ax], and the canvas [c] of
    the figure of that axes, which is also the line's figure. *)
Definition plotted (w : World) (line : oid) : option (oid * oid) :=
  match objs w !! line with
  | Some L =>
      match Artist.get_axes L, Artist.get_figure L with
      | Some (PyObj ax), Some (PyObj fig) =>
          match objs w !! ax, objs w !! fig with
          | Some AX, Some FIG =>
              match Artist.canvas FIG with
              | Some (PyObj c) =>
                  if bool_decide (is_Some (registries w !! c))
                     && bool_decide (Artist.kind L = Line2D)
                     && bool_decide (Artist.kind AX = Axes)
                     && bool_decide (Artist.kind FIG = Figure)
                     && bool_decide (Artist.figure AX = Some (PyObj fig))
                  then Some (ax, c) else None
              | _ => None
              end
          | _, _ => None
          end
      | _, _ => None
      end
  | None => None
  end.

(** The world after [AnnotationPicker.annotate] made an annotation on
    [line] at [index]: a new annotation artist in the line's axes, anchored
    at the data point [xy], and a new instance bound to the line and the
    index, connected to the canvas. *)
Definition annotated (w : World) (P : Picker.t) (line : oid) (index : Z)
    (text : option string) (ax : oid) (AX : Artist.t) (c : oid) (r : Registry.t)
    (xy : point) : World :=
  let new := length (objs w) in
  let self := length (draggables w) in
  let formatter := match text with None => Some (Picker.formatter P) | Some _ => None end in
  let n := Registry.next_cid r in
  let id := (_counter w + 1) `mod` 2 ^ 31 in
  mkWorld
    (objs w ++ [Artist.mk Annotation (Some (PyObj ax)) (Artist.figure AX) (Artist.figure AX)
                  None [] "" [] (Artist.transData AX) (Artist.transData_inverted AX)
                  (Artist.points_per_pixel AX)])
    (attrs w)
    (<[new := PMethod self]> (pickers w))
    (<[new := Annot.mk xy
                (match dict_get (Picker.annotation_kwargs P) "xytext" with
                 | Some (KwPoint p) => p
                 | _ => xy
                 end)
                (match formatter with
                 | Some f => TFmt f (Some line) (Some index)
                 | None => from_option TStr TNone text
                 end)
                (Picker.annotation_kwargs P) true]> (annots w))
    (<[c := Registry.mk (S (S n))
              (Registry.callbacks r ++
                 [(n, ("pick_event", H_on_pick self));
                  (S n, ("button_release_event", H_on_release self))])]> (registries w))
    (controllers w)
    (draggables w ++
       [Drag.mk new (PyObj c) false [n; S n] (Some line) (Some index) formatter id
                None None None None None None])
    (_drag_lock w) id (_event w) (calls w ++ [canvas_draw c]).

(** The controller that the module-level [annotate] makes for a line that
    has none: [AnnotationPicker(line)] with every default. *)
Definition default_picker : Picker.t :=
  Picker.mk 5%Q true (BInt 1) (Some "control") _annotate_line_str default_annotation_kwargs.

(** Whether a pick event is one a controller answers: its button, its key,
    and a Line2D under the cursor. *)
Definition answers (w : World) (P : Picker.t) (event : PickEvent.t) : bool :=
  bool_decide (MouseEvent.button (PickEvent.mouseevent event) = Picker.button P)
  && bool_decide (MouseEvent.key (PickEvent.mouseevent event) = Picker.key P)
  && bool_decide (kind_of w (PyObj (PickEvent.artist event)) = Some Line2D).

(** ** Mouse events reaching the annotations *)

(** An instance listens to its canvas while the callbacks its constructor
    connected are connected. *)
Definition listening (w : World) (d : did) : bool :=
  match draggables w !! d with
  | Some D =>
      connected w (Drag.canvas D) "pick_event" (H_on_pick d)
      && connected w (Drag.canvas D) "button_release_event" (H_on_release d)
  | None => false
  end.

(** Modelled from the spec: how the toolkit delivers a mouse press over an
    annotation.  "Pick event: a toolkit-dispatched event signaling the user
    clicked near an artist with picking enabled": the toolkit asks the
    artist's picker, here [artist_picker], and on a hit runs the pick hook
    of the listening instance. *)
Definition pick (d : did) (event : MouseEvent.t) : M unit :=
  D ← self_drag d;
  hit ← artist_picker d (Drag.ref_artist D) event;
  l ← gets (λ w, listening w d);
  if hit.1 && l
  then DraggableBase_on_pick d (PickEvent.mk event (Drag.ref_artist D) [])
  else mret tt.

(** The instances whose [on_release] is connected to the
    button-release signal of canvas [c]. *)
Definition release_handlers (w : World) (c : oid) : list did :=
  match registries w !! c with
  | Some r =>
      omap (λ cb : nat * (string * Handler),
              match cb.2 with
              | (s, H_on_release d) =>
                  if decide (s = "button_release_event" ∧ d < length (draggables w))%nat
                  then Some d else None
              | _ => None
              end)
           (Registry.callbacks r)
  | None => []
  end.

(** Modelled from the spec: a canvas's button-release signal runs the
    [on_release] connected to it, of every instance "whether or not this
    was picked". *)
Definition button_release_event (c : oid) (event : MouseEvent.t) : M unit :=
  ds ← gets (λ w, release_handlers w c);
  for_each ds (λ d, on_release d event).

Inductive DragEvent :=
| Pick (d : did) (event : MouseEvent.t)            (* a press over instance d's annotation *)
| ButtonRelease (c : oid) (event : MouseEvent.t).  (* a release on canvas c *)

(** The event loop outlives a handler's exception: the next event finds
    the world the handler left. *)
Definition deliver (w : World) (e : DragEvent) : World :=
  world_after w
    match e with
    | Pick d event => pick d event w
    | ButtonRelease c event => button_release_event c event w
    end.

Definition run (es : list DragEvent) (w : World) : World := foldl deliver w es.

(** A release comes from the canvas of the annotation being dragged, if
    one is. *)
Definition on_dragged_canvas (w : World) (e : DragEvent) : bool :=
  match e with
  | Pick _ _ => true
  | ButtonRelease c _ =>
      forallb (λ D, implb (Drag.got_artist D) (bool_decide (Drag.canvas D = PyObj c)))
              (draggables w)
  end.

Fixpoint releases_on_dragged_canvas (es : list DragEvent) (w : World) : bool :=
  match es with
  | [] => true
  | e :: es' => on_dragged_canvas w e && releases_on_dragged_canvas es' (deliver w e)
  end.

(** An instance holds the drag while the base class's [got_artist] is set. *)
Definition dragging (w : World) (d : did) : Prop :=
  Drag.got_artist <$> draggables w !! d = Some true.

Definition at_most_one_dragging (w : World) : Prop :=
  ∀ d1 d2, dragging w d1 → dragging w d2 → d1 = d2.

(** No drag in progress, every instance well formed. *)
Definition quiescent (w : World) : bool :=
  forallb (λ D, negb (Drag.got_artist D) && drag_ok w D) (draggables w).

(** What the drag invariant reads of an instance. *)
Definition core (D : Drag.t) : oid * PyVal * bool * option oid * option Button :=
  (Drag.ref_artist D, Drag.canvas D, Drag.got_artist D, Drag.line D, Drag.button D).

(** Three annotations on the example line. *)
Definition three_annotations : World :=
  world_after ex_world
    ((annotate 3%nat 0 None;; annotate 3%nat 1 None;; annotate 3%nat 2 None) ex_world).

Definition left_press (artist : oid) : MouseEvent.t :=
  MouseEvent.mk (BInt 1) None [artist].

(** Annotations 0 and 2 in the first figure (artists 8 and 10), annotation
    1 in the second (artist 9); a press on the first, a release on the
    canvas of the other figure, and a press on the third. *)
Definition across_figures : World :=
  world_after ex_two_figures
    ((annotate 3%nat 0 None;; annotate 7%nat 0 None;; annotate 3%nat 2 None) ex_two_figures).

Definition stray_release : list DragEvent :=
  [Pick 0%nat (left_press 8%nat); ButtonRelease 5%nat (left_press 8%nat);
   Pick 2%nat (left_press 10%nat)].

Definition own_release : list DragEvent :=
  [Pick 0%nat (left_press 8%nat); ButtonRelease 1%nat (left_press 8%nat);
   Pick 2%nat (left_press 10%nat)].

(** [m] keeps [P]: from a world where [P] holds, [m] leaves one where it
    holds, whether it returns or raises. *)
Definition preserves {A} (P : World → Prop) (m : M A) : Prop :=
  ∀ w, P w → match m w with Ret _ w' | Exc _ w' => P w' | Diverge => True end.

(** [w] differs from [w0] at most in attributes of instances that the drag
    invariant does not read, and in what was drawn or printed. *)
Definition frame (w0 w : World) : Prop :=
  _drag_lock w = _drag_lock w0 ∧ registries w = registries w0 ∧ annots w = annots w0
  ∧ objs w = objs w0 ∧ core <$> draggables w = core <$> draggables w0.

(** The invariant of the event loop. *)
Definition drag_invariant (w : World) : Prop :=
  (∀ d D, draggables w !! d = Some D → drag_ok w D = true)
  ∧ (_drag_lock w = false → ∀ d, ¬ dragging w d)
  ∧ at_most_one_dragging w
  ∧ (∀ d, dragging w d → listening w d = true).

(** Reading an instance or an annotation artist out of an example store. *)
Definition instance (w : World) (d : did) : Drag.t :=
  default (Drag.mk 0 PyNone false [] None None None 0 None None None None None None)
          (draggables w !! d).

Definition annotation (w : World) (a : oid) : Annot.t :=
  default (Annot.mk (0, 0)%Q (0, 0)%Q TNone [] false) (annots w !! a).

(** The second of the three annotations picked with the middle button, the
    first picked with the right button. *)
Definition middle_drag : World :=
  deliver three_annotations (Pick 1%nat (MouseEvent.mk (BInt 2) None [5%nat])).

Definition right_drag : World :=
  deliver three_annotations (Pick 0%nat (MouseEvent.mk (BInt 3) None [4%nat])).

(** An annotation made with [annotate(line, -1)], picked with the middle
    button. *)
Definition negative_index_drag : World :=
  deliver (world_after ex_world (annotate 3%nat (-1) None ex_world))
          (Pick 0%nat (MouseEvent.mk (BInt 2) None [4%nat])).

(** A pick event over the example line that hit its three points. *)
Definition line_pick : PickEvent.t :=
  PickEvent.mk (MouseEvent.mk (BInt 1) (Some "control") []) 3%nat [0; 1; 2].

(** The example store with a controller attached to the figure. *)
Definition ex_controlled : World :=
  with_attrs <[0%nat := Controller 0%nat]> (with_controllers (λ _, [default_picker]) ex_world).

(** ** Further reference notions *)

(** The lines of the given axes that are not pickable yet, in the order in
    which the comprehensions of [apply] and [_on_figure_enter_event] list
    them. *)
Definition lines_to_enable (w : World) (axs : list oid) : list oid :=
  ax ← axs;
  filter (λ line, pickable w line = false)
         (from_option Artist.get_lines [] (objs w !! ax)).

(** What [apply] may do to the store [w] it starts from, [w'] being the
    store it leaves: nothing but pickers and the [annotations_line2d]
    attributes changes in its loop, a pickable line keeps its picker, a
    picker that is set is the tolerance of the controller, and an attribute
    that is set belongs to one of the artists and holds the controller. *)
Definition apply_loop_frame (self : pid) (artists : list PyVal) (w w' : World) : Prop :=
  objs w' = objs w ∧ annots w' = annots w ∧ draggables w' = draggables w
  ∧ controllers w' = controllers w ∧ registries w' = registries w
  ∧ _drag_lock w' = _drag_lock w ∧ _counter w' = _counter w ∧ _event w' = _event w
  ∧ calls w' = calls w
  ∧ (∀ l, pickable w l = true → pickers w' !! l = pickers w !! l)
  ∧ (∀ l v, pickers w' !! l = Some v →
            pickers w !! l = Some v
            ∨ ∃ P, controllers w !! self = Some P ∧ v = PTolerance (Picker.tolerance P))
  ∧ (∀ o, attrs w' !! o = attrs w !! o
          ∨ (PyObj o ∈ artists ∧ attrs w' !! o = Some (Controller self))).

(** The picker [_on_figure_enter_event] gives a line: the tolerance of the
    controller nearest to it, if there is one. *)
Definition enter_picker (w : World) (line : oid) : option PickerVal :=
  match nearest_controller w (PyObj line) with
  | Some (Controller p) => (λ P, PTolerance (Picker.tolerance P)) <$> controllers w !! p
  | _ => None
  end.

(** ** More example stores *)

(** Reading a toolkit object or a canvas registry out of an example store. *)
Definition toolkit_object (w : World) (o : oid) : Artist.t :=
  default ex_canvas (objs w !! o).

Definition registry (w : World) (c : oid) : Registry.t :=
  default (Registry.mk 0 []) (registries w !! c).

(** The first of the three annotations picked with the left button. *)
Definition left_drag : World :=
  deliver three_annotations (Pick 0%nat (left_press 4%nat)).

(** The example store with a controller that is attached to nothing. *)
Definition ex_with_picker : World :=
  with_controllers (λ _, [default_picker]) ex_world.

(** The same for the store with two figures. *)
Definition two_figures_with_picker : World :=
  with_controllers (λ _, [default_picker]) ex_two_figures.

(** An annotation with manual text on the example line, picked with the
    middle button. *)
Definition manual_note : World :=
  world_after ex_controlled (AnnotationPicker_annotate 0%nat 3%nat 1 (Some "note") ex_controlled).

Definition manual_note_drag : World :=
  deliver manual_note (Pick 0%nat (MouseEvent.mk (BInt 2) None [4%nat])).

(** A line that was plotted on axes not yet added to a figure. *)
Definition loose_line : Artist.t :=
  Artist.mk Line2D (Some PyNone) (Some PyNone) (Some PyNone) None
            [(0, 0)%Q] "loose" [] identity_transform identity_transform (1, 1)%Q.

(** The example store with a line (4) that is in no figure. *)
Definition ex_loose : World :=
  with_objs (λ l, l ++ [loose_line]) ex_with_picker.

(** The three annotations after the canvas callbacks were disabled. *)
Definition annotations_only : World :=
  world_after three_annotations (disable_callbacks (PyObj 1%nat) three_annotations).

(** The example store with the controller attached to the figure and to
    the line. *)
Definition both_controlled : World :=
  with_attrs <[3%nat := Controller 0%nat]> ex_controlled.

(** A toolkit whose objects have these members, the children of an object
    being the lines it holds. *)
Definition toolkit_members (a : Artist.t) (name : string) : bool :=
  bool_decide (name ∈ ["get_children"; "get_axes"; "get_figure"; "get_lines";
                       "get_xydata"; "get_label"; "pickable"; "set_picker"]).

Definition toolkit_children (a : Artist.t) : PyVal := PyList (Artist.get_lines a).

(** A stand-in for [plt.subplots()]: a new figure with its canvas and one
    empty axes, returned as the figure and the axes. *)
Definition new_figure : M (PyVal * PyVal) :=
  n ← gets (λ w, length (objs w));
  modify (with_objs (λ l, l ++ [a_figure (S n) [S (S n)]; a_canvas n;
                                an_axes (S (S n)) n []]));;
  modify (with_registries <[S n := Registry.mk 0 []]>);;
  mret (PyObj n, PyObj (S (S n))).

(** The floats 0.6, 0.7, -0.1 and 0.72, as the fractions they denote. *)
Definition float_0_6 : Q := Qmake 5404319552844595 9007199254740992.
Definition float_0_7 : Q := Qmake 3152519739159347 4503599627370496.
Definition float_minus_0_1 : Q := Qmake (-3602879701896397) 36028797018963968.
Definition float_0_72 : Q := Qmake 3242591731706757 4503599627370496.

(** A figure at 100 dots per inch, where a pixel is 0.72 points, with a
    line through (0.6, 0) and (0.7, 1); one annotation (artist 4) at the
    second point, picked with the left or with the middle button. *)
Definition ex_floats : World :=
  mkWorld [ex_figure; ex_canvas;
           Artist.mk Axes (Some (PyObj 2%nat)) (Some (PyObj 0%nat)) (Some (PyObj 0%nat)) None
                     [] "" [3%nat] identity_transform identity_transform
                     (float_0_72, float_0_72);
           a_line 2 0 [(float_0_6, 0%Q); (float_0_7, 1%Q)] "Floats"]
          ∅ ∅ ∅ {[1%nat := Registry.mk 0 []]} [] [] false 0 None [].

Definition float_note : World :=
  world_after ex_floats (annotate 3%nat 1 None ex_floats).

Definition float_left_drag : World :=
  deliver float_note (Pick 0%nat (left_press 4%nat)).

Definition float_middle_drag : World :=
  deliver float_note (Pick 0%nat (MouseEvent.mk (BInt 2) None [4%nat])).

(** * Properties *)

(** ** Running the monad *)

Ltac munfold :=
  unfold mbind, M_bind, mret, M_ret, gets, modify, raise, unwrap, diverge in *.

Lemma bind_run {A B} (m : M A) (k : A → M B) (w : World) :
  (m ≫= k) w =
  match m w with Ret a w' => k a w' | Exc e w' => Exc e w' | Diverge => Diverge end.
Proof. reflexivity. Qed.

Lemma bind_Ret {A B} (m : M A) (k : A → M B) (w w' : World) (a : A) :
  m w = Ret a w' → (m ≫= k) w = k a w'.
Proof. intros H. by rewrite bind_run, H. Qed.

Lemma mret_run {A} (a : A) (w : World) : (mret a : M A) w = Ret a w.
Proof. reflexivity. Qed.

Lemma raise_run {A} (e : exn) (w : World) : raise (A:=A) e w = Exc e w.
Proof. reflexivity. Qed.

Lemma gets_run {A} (f : World → A) (w : World) : gets f w = Ret (f w) w.
Proof. reflexivity. Qed.

Lemma modify_run (f : World → World) (w : World) : modify f w = Ret tt (f w).
Proof. reflexivity. Qed.

Lemma is_Some_None_false {A} : bool_decide (is_Some (@None A)) = false.
Proof. reflexivity. Qed.

Lemma is_Some_Some_true {A} (x : A) : bool_decide (is_Some (Some x)) = true.
Proof. reflexivity. Qed.

Lemma hasattr_run {A} (f : Artist.t → option A) (v : PyVal) (w : World) :
  hasattr f v w = Ret (bool_decide (is_Some (member w f v))) w.
Proof. reflexivity. Qed.

Lemma hasattr_attr_name_run (v : PyVal) (w : World) :
  hasattr_attr_name v w = Ret (bool_decide (is_Some (attr_lookup w v))) w.
Proof. reflexivity. Qed.

Lemma getattr_attr_name_run (v : PyVal) (w : World) :
  getattr_attr_name v w =
  match attr_lookup w v with Some x => Ret x w | None => Exc AttributeError w end.
Proof. unfold getattr_attr_name. munfold. by destruct (attr_lookup w v). Qed.

Lemma isinstance_run (v : PyVal) (k : Kind) (w : World) :
  isinstance v k w = Ret (bool_decide (kind_of w v = Some k)) w.
Proof. reflexivity. Qed.

Lemma getattr_run {A} (f : Artist.t → option A) (v : PyVal) (w : World) :
  getattr f v w =
  match member w f v with Some x => Ret x w | None => Exc AttributeError w end.
Proof. unfold getattr. munfold. by destruct (member w f v). Qed.

Lemma canvas_of_run (artist : PyVal) (w : World) :
  canvas_of artist w =
  match canvas_target w artist with Some c => Ret c w | None => Exc AttributeError w end.
Proof.
  unfold canvas_of, canvas_target, isinstance, hasattr.
  rewrite bind_run. unfold gets at 1. case_bool_decide.
  - apply getattr_run.
  - rewrite bind_run. unfold gets at 1.
    destruct (member w Artist.get_figure artist) as [fig|] eqn:Hf.
    + rewrite bool_decide_true by eauto. rewrite bind_run, getattr_run, Hf.
      apply getattr_run.
    + rewrite bool_decide_false; [done|]. by intros [? ?].
Qed.

(** One step of symbolic execution. *)
Ltac mstep :=
  first [ rewrite bind_run | rewrite mret_run | rewrite raise_run
        | rewrite gets_run | rewrite modify_run
        | rewrite hasattr_run | rewrite hasattr_attr_name_run
        | rewrite getattr_run | rewrite getattr_attr_name_run
        | rewrite isinstance_run
        | rewrite is_Some_Some_true | rewrite is_Some_None_false
        | progress cbn [unwrap] ].

(** ** Canvas callbacks *)

Lemma enable_callbacks_fresh (w : World) (artist : PyVal) (c : oid) (r : Registry.t) :
  canvas_target w artist = Some (PyObj c) →
  registries w !! c = Some r →
  attrs w !! c = None →
  enable_callbacks artist w =
  Ret tt (with_attrs <[c := Callbacks [Registry.next_cid r; S (Registry.next_cid r)]]>
           (with_registries
              <[c := Registry.mk (S (S (Registry.next_cid r)))
                       (Registry.callbacks r ++
                          [(Registry.next_cid r, ("pick_event", H_on_pick_event));
                           (S (Registry.next_cid r),
                            ("figure_enter_event", H_on_figure_enter_event))])]> w)).
Proof.
  intros Hc Hr Hnone. unfold enable_callbacks. rewrite bind_run, canvas_of_run, Hc.
  unfold hasattr_attr_name, mpl_connect, registry_of, setattr_attr_name. munfold. simpl.
  rewrite Hnone. simpl. rewrite Hr. simpl. rewrite lookup_insert_eq. simpl.
  unfold with_attrs, with_registries. simpl. rewrite insert_insert_eq.
  by rewrite <- app_assoc.
Qed.

Lemma enable_callbacks_again (w : World) (artist : PyVal) (c : oid) :
  canvas_target w artist = Some (PyObj c) →
  is_Some (attrs w !! c) →
  enable_callbacks artist w = Ret tt w.
Proof.
  intros Hc [v Hv]. unfold enable_callbacks. rewrite bind_run, canvas_of_run, Hc.
  unfold hasattr_attr_name. munfold. simpl. by rewrite Hv.
Qed.

(** C8: [enable_callbacks] connects exactly ['pick_event'] to
    [_on_pick_event] and ['figure_enter_event'] to [_on_figure_enter_event],
    stores the two callback ids in the canvas's [annotations_line2d]
    attribute, and a call on a canvas that already carries the attribute
    connects nothing and leaves the world, hence the stored list, as it was. *)
Theorem enable_callbacks_connects_once (w : World) (artist : PyVal) (c : oid)
    (r : Registry.t) :
  canvas_target w artist = Some (PyObj c) →
  registries w !! c = Some r →
  let n := Registry.next_cid r in
  (attrs w !! c = None →
   enable_callbacks artist w =
     Ret tt (with_attrs <[c := Callbacks [n; S n]]>
              (with_registries
                 <[c := Registry.mk (S (S n))
                          (Registry.callbacks r ++
                             [(n, ("pick_event", H_on_pick_event));
                              (S n, ("figure_enter_event", H_on_figure_enter_event))])]> w)))
  ∧ (is_Some (attrs w !! c) → enable_callbacks artist w = Ret tt w)
  ∧ (∀ w1, enable_callbacks artist w = Ret tt w1 → enable_callbacks artist w1 = Ret tt w1).
Proof.
  intros Hc Hr n.
  split; [by apply enable_callbacks_fresh|]. split; [by apply enable_callbacks_again|].
  intros w1 H1.
  destruct (attrs w !! c) as [v|] eqn:Hv.
  - rewrite (enable_callbacks_again w artist c) in H1 by (rewrite ?Hv; eauto).
    simplify_eq. apply (enable_callbacks_again _ _ c); rewrite ?Hv; eauto.
  - rewrite (enable_callbacks_fresh w artist c r) in H1 by done. simplify_eq.
    apply (enable_callbacks_again _ _ c).
    + exact Hc.
    + simpl. rewrite lookup_insert_eq. eauto.
Qed.

(** C10: [disable_callbacks] on a canvas that never had callbacks enabled
    (no [annotations_line2d] attribute) raises AttributeError: the loop over
    the default empty list disconnects nothing, the [delattr] fails, and
    nothing was changed or printed. *)
Theorem disable_callbacks_never_enabled (w : World) (canvas target : PyVal) :
  disable_target w canvas = Some target →
  attr_lookup w target = None →
  disable_callbacks canvas w = Exc AttributeError w.
Proof.
  intros Ht Hattr. unfold disable_callbacks, disable_target in *.
  unfold isinstance. munfold. simpl.
  case_bool_decide as Hk.
  - rewrite getattr_run, Ht. simpl. rewrite Hattr. simpl.
    unfold delattr_attr_name, hasattr_attr_name. munfold. simpl. rewrite Hattr. simpl.
    destruct target; done.
  - simplify_eq. simpl. rewrite Hattr. simpl.
    unfold delattr_attr_name, hasattr_attr_name. munfold. simpl. rewrite Hattr.
    destruct target; done.
Qed.

(** ** Finding the controlling instance *)

Lemma _find_annotations_instance_run (artist : PyVal) (w : World) :
  _find_annotations_instance artist w = Ret (nearest_controller w artist) w.
Proof.
  unfold _find_annotations_instance, nearest_controller, ownership_chain, and_then.
  cbn [omap list_omap head].
  destruct (attr_lookup w artist) as [v|] eqn:Ha;
    [by repeat (mstep || rewrite Ha)|].
  destruct (member w Artist.get_axes artist) as [ax|] eqn:Hax;
    [destruct (attr_lookup w ax) as [v|] eqn:Hv|];
    (destruct (member w Artist.get_figure artist) as [fig|] eqn:Hfig;
      [destruct (attr_lookup w fig) as [v'|] eqn:Hv'|]);
    repeat (mstep || rewrite Ha || rewrite Hax || rewrite Hfig || rewrite Hv || rewrite Hv');
    cbn; rewrite ?Hv, ?Hv'; done.
Qed.

Example find_on_figure :
  _find_annotations_instance (PyObj 3%nat) ex_controlled = Ret (Some (Controller 0%nat)) ex_controlled.
Proof. reflexivity. Qed.

(** C4: the lookup walks artist, axes, figure in that order and returns the
    first [annotations_line2d] attribute it meets, None if there is none;
    the canvas pick dispatcher calls [_onpick] of exactly that instance. *)
Theorem nearest_instance_wins (w : World) (artist : PyVal) (event : PickEvent.t) :
  _find_annotations_instance artist w = Ret (nearest_controller w artist) w
  ∧ nearest_controller w artist =
      match attr_lookup w artist with
      | Some v => Some v
      | None =>
          match member w Artist.get_axes artist ≫= attr_lookup w with
          | Some v => Some v
          | None => member w Artist.get_figure artist ≫= attr_lookup w
          end
      end
  ∧ _on_pick_event event w =
      match nearest_controller w (PyObj (PickEvent.artist event)) with
      | Some (Controller p) => AnnotationPicker__onpick p event w
      | Some (Callbacks _) => Exc AttributeError w
      | None => Ret tt w
      end.
Proof.
  split; [apply _find_annotations_instance_run|]. split.
  - unfold nearest_controller, ownership_chain. simpl.
    destruct (attr_lookup w artist); [done|].
    destruct (member w Artist.get_axes artist) as [ax|]; simpl.
    + destruct (attr_lookup w ax); [done|].
      destruct (member w Artist.get_figure artist) as [fig|]; simpl; [|done].
      by destruct (attr_lookup w fig).
    + destruct (member w Artist.get_figure artist) as [fig|]; simpl; [|done].
      by destruct (attr_lookup w fig).
  - unfold _on_pick_event. rewrite bind_run, _find_annotations_instance_run.
    destruct (nearest_controller w (PyObj (PickEvent.artist event))) as [[p|l]|]; done.
Qed.

(** ** Dragging: release, finalize, remove *)

Lemma self_drag_run (w : World) (self : did) (D : Drag.t) :
  draggables w !! self = Some D → self_drag self w = Ret D w.
Proof. intros H. unfold self_drag. by rewrite bind_run, gets_run, H. Qed.

Lemma annot_get_run {A} (f : Annot.t → A) (a : oid) (w : World) (s : Annot.t) :
  annots w !! a = Some s → annot_get f a w = Ret (f s) w.
Proof. intros H. unfold annot_get. by rewrite bind_run, gets_run, H. Qed.

Lemma annot_update_run (f : Annot.t → Annot.t) (a : oid) (w : World) (s : Annot.t) :
  annots w !! a = Some s → annot_update f a w = Ret tt (with_annots (alter f a) w).
Proof. intros H. unfold annot_update. by rewrite bind_run, (annot_get_run _ _ _ s). Qed.

Lemma registry_of_run (c : oid) (w : World) (r : Registry.t) :
  registries w !! c = Some r → registry_of (PyObj c) w = Ret (c, r) w.
Proof. intros H. unfold registry_of. by rewrite bind_run, gets_run, H. Qed.

Lemma draw_run (c : oid) (w : World) (r : Registry.t) :
  registries w !! c = Some r → draw (PyObj c) w = Ret tt (with_call (canvas_draw c) w).
Proof. intros H. unfold draw. by rewrite bind_run, (registry_of_run _ _ r). Qed.

Lemma mpl_disconnect_run (c : oid) (cid : nat) (w : World) (r : Registry.t) :
  registries w !! c = Some r →
  mpl_disconnect (PyObj c) cid w =
  Ret tt (with_registries
            <[c := Registry.mk (Registry.next_cid r)
                     (filter (λ cb, cb.1 ≠ cid) (Registry.callbacks r))]> w).
Proof. intros H. unfold mpl_disconnect. by rewrite bind_run, (registry_of_run _ _ r). Qed.

Lemma with_registries_id (w : World) (c : oid) (r : Registry.t) :
  registries w !! c = Some r → with_registries <[c := r]> w = w.
Proof. intros H. destruct w. unfold with_registries. simpl in *. by rewrite insert_id. Qed.

Lemma filter_all {A} (P : A → Prop) `{∀ x, Decision (P x)} (l : list A) :
  (∀ x, P x) → filter P l = l.
Proof.
  intros HP. induction l as [|x l IH]; [done|].
  rewrite filter_cons_True by done. by rewrite IH.
Qed.

Lemma disconnect_all_run (cids : list nat) (c : oid) (w : World) (r : Registry.t) :
  registries w !! c = Some r →
  for_each cids (mpl_disconnect (PyObj c)) w =
  Ret tt (with_registries
            <[c := Registry.mk (Registry.next_cid r)
                     (filter (λ cb, cb.1 ∉ cids) (Registry.callbacks r))]> w).
Proof.
  revert w r. induction cids as [|cid cids IH]; intros w r Hr.
  - simpl. rewrite mret_run. f_equal. symmetry.
    destruct r as [n cbs]. simpl.
    rewrite filter_all by (intros x; apply not_elem_of_nil).
    by apply with_registries_id.
  - simpl. rewrite bind_run, (mpl_disconnect_run _ _ _ r Hr).
    erewrite IH by (simpl; apply lookup_insert_eq). simpl.
    unfold with_registries. simpl. rewrite insert_insert_eq. f_equal. f_equal. f_equal.
    rewrite list_filter_filter. f_equal. apply list_filter_iff. intros x.
    rewrite not_elem_of_cons. tauto.
Qed.

Lemma member_obj {A} (w : World) (f : Artist.t → option A) (o : oid) (a : Artist.t) :
  objs w !! o = Some a → member w f (PyObj o) = f a.
Proof. intros H. unfold member. simpl. by rewrite H. Qed.

Lemma print_annotation_run (w : World) (self : did) (D : Drag.t) (l : oid) (L : Artist.t)
    (A : Annot.t) :
  draggables w !! self = Some D →
  Drag.line D = Some l →
  objs w !! l = Some L →
  annots w !! Drag.ref_artist D = Some A →
  print_annotation self w =
  Ret tt (with_call (print_annotation_text (Artist.get_label L) (Drag.index D)
                       (Annot.text A)) w).
Proof.
  intros HD Hl HL HA. unfold print_annotation.
  rewrite bind_run, (self_drag_run _ _ D HD), Hl.
  cbn [unwrap]. rewrite bind_run, mret_run, bind_run, getattr_run.
  rewrite (member_obj _ _ _ L) by done.
  by rewrite bind_run, (annot_get_run _ _ _ A HA).
Qed.

(** Side conditions of the run lemmas: lookups in the current store. *)
Ltac lk :=
  first [ eassumption
        | simpl; first [ eassumption | apply lookup_insert_eq
                       | rewrite lookup_insert_ne by done; eassumption ] ].

Ltac mrun :=
  repeat first
    [ mstep
    | erewrite self_drag_run by lk
    | erewrite annot_get_run by lk
    | erewrite annot_update_run by lk
    | erewrite registry_of_run by lk
    | erewrite draw_run by lk
    | erewrite disconnect_all_run by lk
    | erewrite member_obj by lk ].

Lemma remove_run (w : World) (self : did) (D : Drag.t) (c : oid) (r : Registry.t)
    (A : Annot.t) :
  draggables w !! self = Some D →
  Drag.canvas D = PyObj c →
  registries w !! c = Some r →
  annots w !! Drag.ref_artist D = Some A →
  remove self w = Ret tt (world_after_remove w self D c r).
Proof.
  intros HD Hc Hr HA. unfold remove, DraggableBase_disconnect, update_drag.
  rewrite bind_run. erewrite bind_Ret by (apply self_drag_run; lk). rewrite Hc.
  mrun. rewrite Hc. mrun. done.
Qed.

Lemma drag_ok_spec (w : World) (D : Drag.t) :
  drag_ok w D = true ↔
  is_Some (annots w !! Drag.ref_artist D)
  ∧ (∃ c, Drag.canvas D = PyObj c ∧ is_Some (registries w !! c))
  ∧ (Drag.got_artist D = true → is_Some (Drag.button D))
  ∧ (Drag.button D = Some (BInt 2) → Drag.line D ≠ None)
  ∧ (∀ l, Drag.line D = Some l → is_Some (objs w !! l)).
Proof.
  unfold drag_ok. rewrite !andb_true_iff, !bool_decide_eq_true.
  split.
  - intros ((((Ha & Hc) & Hb) & H2) & Hl). split; [done|]. split; [|split; [|split]].
    + destruct (Drag.canvas D) as [|c|]; try done. exists c. split; [done|].
      by apply bool_decide_eq_true in Hc.
    + intros Hg. rewrite Hg in Hb. by apply bool_decide_eq_true in Hb.
    + intros Hb2. rewrite bool_decide_true in H2 by done. by apply bool_decide_eq_true in H2.
    + intros l Hl'. rewrite Hl' in Hl. by apply bool_decide_eq_true in Hl.
  - intros (Ha & (c & Hc & Hr) & Hb & H2 & Hl). repeat split; [done|..].
    + rewrite Hc. by apply bool_decide_eq_true.
    + destruct (Drag.got_artist D); [|done]. simpl. apply bool_decide_eq_true. by apply Hb.
    + case_bool_decide; [|done]. simpl. apply bool_decide_eq_true. by apply H2.
    + destruct (Drag.line D) as [l|]; [|done]. apply bool_decide_eq_true. by apply Hl.
Qed.

Lemma with_drag_lock_id (w : World) (b : bool) :
  _drag_lock w = b → with_drag_lock b w = w.
Proof. intros <-. by destruct w. Qed.

Lemma finalize_offset_run (w : World) (self : did) (D : Drag.t) (b : Button) :
  draggables w !! self = Some D →
  Drag.button D = Some b →
  finalize_offset self w =
  if bool_decide (b = BInt 2) && bool_decide (Drag.formatter D ≠ None)
  then print_annotation self w
  else if decide (b = BInt 3) then remove self w
  else Ret tt w.
Proof.
  intros HD Hb. unfold finalize_offset.
  rewrite bind_run, (self_drag_run _ _ D HD), Hb. cbn [unwrap].
  rewrite bind_run, mret_run.
  destruct (bool_decide (b = BInt 2) && bool_decide (Drag.formatter D ≠ None)); [done|].
  by destruct (decide (b = BInt 3)).
Qed.

Lemma print_annotation_frame (w : World) (self : did) :
  let w' := world_after w (print_annotation self w) in
  registries w' = registries w ∧ annots w' = annots w ∧ draggables w' = draggables w
  ∧ objs w' = objs w ∧ _drag_lock w' = _drag_lock w.
Proof.
  unfold print_annotation, self_drag, annot_get, print. repeat mstep.
  destruct (draggables w !! self) as [D|]; repeat mstep; [|done].
  destruct (Drag.line D) as [l|]; repeat mstep; [|done].
  destruct (member w _ (PyObj l)) as [lbl|]; repeat mstep; [|done].
  destruct (annots w !! Drag.ref_artist D) as [A|]; repeat mstep; done.
Qed.

(** C6: releasing after a right-button pick deletes the annotation:
    [finalize_offset] with button 3 is [remove], which disconnects the
    instance's callbacks, takes the annotation artist out of the figure,
    clears [got_artist] and redraws the canvas; with any other button
    [finalize_offset] disconnects nothing, removes nothing and leaves the
    instances as they were. *)
Theorem right_click_release_deletes (w : World) (self : did) (D : Drag.t) (b : Button)
    (c : oid) (r : Registry.t) (A : Annot.t) :
  draggables w !! self = Some D →
  Drag.button D = Some b →
  Drag.canvas D = PyObj c →
  registries w !! c = Some r →
  annots w !! Drag.ref_artist D = Some A →
  (b = BInt 3 →
   finalize_offset self w = remove self w
   ∧ ∃ w', remove self w = Ret tt w'
       ∧ (∃ r', registries w' !! c = Some r'
                ∧ ∀ cb, cb ∈ Registry.callbacks r' → cb.1 ∉ Drag.cids D)
       ∧ Annot.in_figure <$> annots w' !! Drag.ref_artist D = Some false
       ∧ Drag.got_artist <$> draggables w' !! self = Some false
       ∧ calls w' = calls w ++ [canvas_draw c])
  ∧ (b ≠ BInt 3 →
     let w' := world_after w (finalize_offset self w) in
     registries w' = registries w ∧ annots w' = annots w ∧ draggables w' = draggables w).
Proof.
  intros HD Hb Hc Hr HA. rewrite (finalize_offset_run w self D b HD Hb). split.
  - intros ->. split; [done|].
    exists (world_after_remove w self D c r). split; [by eapply remove_run|].
    unfold world_after_remove. simpl. repeat split.
    + eexists. split; [apply lookup_insert_eq|]. simpl.
      intros cb Hin. by apply list_elem_of_filter in Hin as [? _].
    + by rewrite lookup_alter_eq, HA.
    + by rewrite list_lookup_alter_eq, HD.
  - intros Hne. simpl.
    destruct (bool_decide (b = BInt 2) && bool_decide (Drag.formatter D ≠ None)).
    + pose proof (print_annotation_frame w self) as H. simpl in H. tauto.
    + by rewrite decide_False.
Qed.

Lemma release_quietly_run (w : World) :
  try_except lock_release RuntimeError (mret tt) w = Ret tt (with_drag_lock false w).
Proof.
  unfold try_except, lock_release. rewrite bind_run, gets_run.
  destruct (_drag_lock w) eqn:Hl.
  - by rewrite modify_run.
  - rewrite raise_run. rewrite decide_True by done. rewrite mret_run.
    by rewrite with_drag_lock_id.
Qed.

Lemma alter_lookup_id {A} (f : A → A) (l : list A) (i : nat) (x : A) :
  l !! i = Some x → f x = x → alter f i l = l.
Proof.
  intros Hl Hf. apply list_eq. intros j. destruct (decide (i = j)) as [->|Hne].
  - by rewrite list_lookup_alter_eq, Hl; simpl; rewrite Hf.
  - by rewrite list_lookup_alter_ne.
Qed.

Lemma set_got_artist_id (D : Drag.t) (b : bool) :
  Drag.got_artist D = b → Drag.set_got_artist b D = D.
Proof. intros <-. by destruct D. Qed.

Lemma on_release_run (w : World) (self : did) (D : Drag.t) (event : MouseEvent.t) :
  draggables w !! self = Some D →
  drag_ok w D = true →
  ∃ w', on_release self event w = Ret tt w'
        ∧ _drag_lock w' = false
        ∧ draggables w' = alter (Drag.set_got_artist false) self (draggables w)
        ∧ objs w' = objs w
        ∧ (∀ a, is_Some (annots w !! a) → is_Some (annots w' !! a))
        ∧ (∀ c, is_Some (registries w !! c) → is_Some (registries w' !! c)).
Proof.
  intros HD Hok. apply drag_ok_spec in Hok as ([A HA] & (c & Hc & [r Hr]) & Hb & H2 & Hl).
  unfold on_release, DraggableBase_on_release.
  rewrite !bind_run, (self_drag_run _ _ D HD).
  destruct (Drag.got_artist D) eqn:Hg.
  - destruct (Hb eq_refl) as [b Hbt].
    rewrite bind_run, (finalize_offset_run w self D b HD Hbt).
    destruct (bool_decide (b = BInt 2) && bool_decide (Drag.formatter D ≠ None)) eqn:Hcond.
    + apply andb_true_iff in Hcond as [Hb2%bool_decide_eq_true _]. subst b.
      destruct (Drag.line D) as [l|] eqn:Hline; [|by destruct (H2 Hbt)].
      destruct (Hl l eq_refl) as [L HL].
      rewrite (print_annotation_run w self D l L A) by done.
      unfold update_drag. rewrite modify_run, release_quietly_run.
      eexists. split; [done|]. simpl. done.
    + destruct (decide (b = BInt 3)) as [->|Hne].
      * rewrite (remove_run w self D c r A) by done.
        unfold update_drag. rewrite modify_run, release_quietly_run.
        eexists. split; [done|]. simpl. repeat split.
        -- rewrite list_alter_alter_eq. apply list_alter_ext; [|done].
           intros x _. by destruct x.
        -- intros a [x Hx]. destruct (decide (a = Drag.ref_artist D)) as [->|?].
           ++ rewrite lookup_alter_eq, Hx. by eexists.
           ++ rewrite lookup_alter_ne by done. by eexists.
        -- intros c' [x Hx]. destruct (decide (c = c')) as [->|?].
           ++ rewrite lookup_insert_eq. by eexists.
           ++ rewrite lookup_insert_ne by done. by eexists.
      * unfold update_drag. rewrite modify_run, release_quietly_run.
        eexists. split; [done|]. simpl. done.
  - rewrite mret_run, release_quietly_run. eexists. split; [done|]. simpl.
    repeat split; try done. symmetry. apply (alter_lookup_id _ _ _ D HD).
    by apply set_got_artist_id.
Qed.

(** C2: [on_release] always ends with the drag lock unlocked and never
    raises because the lock was already released: whenever the inherited
    hook returns, [on_release] returns with the lock unlocked and nothing
    else changed, and on every well-formed instance it does return, from a
    locked and from an unlocked lock alike. *)
Theorem on_release_unlocks (w : World) (self : did) (D : Drag.t) (event : MouseEvent.t) :
  draggables w !! self = Some D →
  drag_ok w D = true →
  (∃ w', on_release self event w = Ret tt w' ∧ _drag_lock w' = false)
  ∧ (∀ w1, DraggableBase_on_release self event w = Ret tt w1 →
           on_release self event w = Ret tt (with_drag_lock false w1)).
Proof.
  intros HD Hok. split.
  - destruct (on_release_run w self D event HD Hok) as (w' & H1 & H2 & _). eauto.
  - intros w1 H1. unfold on_release. rewrite bind_run, H1. apply release_quietly_run.
Qed.

(** ** Dragging: the middle-button slide *)

Lemma Qltb_true (a b : Q) : Qltb a b = true ↔ (a < b)%Q.
Proof.
  unfold Qltb. rewrite Qlt_alt. destruct (a ?= b)%Q; split; congruence.
Qed.

Lemma Qltb_false (a b : Q) : Qltb a b = false ↔ (b <= a)%Q.
Proof.
  rewrite <- not_true_iff_false, Qltb_true. split.
  - apply Qnot_lt_le.
  - apply Qle_not_lt.
Qed.

Lemma strictly_increasing_adjacent (xs : list Q) (i : nat) (a b : Q) :
  strictly_increasing xs = true →
  xs !! i = Some a → xs !! S i = Some b → (a < b)%Q.
Proof.
  revert i. induction xs as [|x xs IH]; intros i Hs Ha Hb; [done|].
  destruct xs as [|y xs]; [done|].
  simpl in Hs. apply andb_true_iff in Hs as [Hxy Hs].
  destruct i as [|i].
  - simpl in Ha, Hb. simplify_eq. by apply Qltb_true.
  - by apply (IH i).
Qed.

Lemma py_index_run {A} (l : list A) (i : nat) (x : A) (w : World) :
  l !! i = Some x → py_index l (Z.of_nat i) w = Ret x w.
Proof.
  intros H. pose proof (lookup_lt_Some _ _ _ H) as Hlt. unfold py_index.
  rewrite (proj2 (Z.leb_le 0 (Z.of_nat i))) by lia.
  rewrite (proj2 (Z.ltb_lt (Z.of_nat i) _)) by lia.
  simpl. by rewrite Nat2Z.id, H.
Qed.

Lemma move_left_run (xs : list point) (new_x : Q) (fuel i : nat) (w : World) :
  (i < length xs)%nat → (i < fuel)%nat →
  ∃ j : nat,
    move_left fuel xs new_x (Z.of_nat i) w = Ret (Z.of_nat j) w
    ∧ (j ≤ i)%nat
    ∧ (j = 0%nat ∨ ∃ p, xs !! (j - 1)%nat = Some p ∧ (p.1 <= new_x)%Q).
Proof.
  revert i. induction fuel as [|fuel IH]; intros i Hi Hf; [lia|].
  simpl. destruct i as [|i].
  - exists 0%nat. simpl. rewrite mret_run. split; [done|]. split; [lia|]. by left.
  - rewrite (proj2 (Z.ltb_lt 0 (Z.of_nat (S i)))) by lia.
    destruct (lookup_lt_is_Some_2 xs i) as [p Hp]; [lia|].
    replace (Z.of_nat (S i) - 1) with (Z.of_nat i) by lia.
    rewrite bind_run, (py_index_run _ _ _ _ Hp).
    destruct (Qltb new_x p.1) eqn:Hcmp.
    + destruct (IH i) as (j & Hj & Hle & Hcond); [lia|lia|].
      exists j. split; [done|]. split; [lia|done].
    + exists (S i). rewrite mret_run. split; [done|]. split; [lia|].
      right. exists p. replace (S i - 1)%nat with i by lia. split; [done|].
      by apply Qltb_false.
Qed.

Lemma move_right_run (xs : list point) (new_x : Q) (fuel j : nat) (w : World) :
  (j < length xs)%nat → (length xs - j ≤ fuel)%nat →
  ∃ k : nat,
    move_right fuel xs new_x (Z.of_nat j) w = Ret (Z.of_nat k) w
    ∧ (j ≤ k < length xs)%nat
    ∧ (k = (length xs - 1)%nat ∨ ∃ p, xs !! S k = Some p ∧ (new_x <= p.1)%Q)
    ∧ (j < k → ∃ p, xs !! k = Some p ∧ (p.1 < new_x)%Q)%nat.
Proof.
  revert j. induction fuel as [|fuel IH]; intros j Hj Hf; [lia|].
  simpl. destruct (decide (j = length xs - 1)%nat) as [Hlast|Hlast].
  - rewrite (proj2 (Z.ltb_ge _ _)) by lia. rewrite mret_run.
    exists j. split; [done|]. split; [lia|]. split; [by left|lia].
  - rewrite (proj2 (Z.ltb_lt _ _)) by lia.
    destruct (lookup_lt_is_Some_2 xs (S j)) as [p Hp]; [lia|].
    replace (Z.of_nat j + 1) with (Z.of_nat (S j)) by lia.
    rewrite bind_run, (py_index_run _ _ _ _ Hp).
    destruct (Qltb p.1 new_x) eqn:Hcmp.
    + destruct (IH (S j)) as (k & Hk & Hle & Hcond & Hmoved); [lia|lia|].
      exists k. split; [done|]. split; [lia|]. split; [done|].
      intros _. destruct (decide (S j = k)) as [<-|Hne].
      * exists p. split; [done|]. by apply Qltb_true.
      * apply Hmoved. lia.
    + exists j. rewrite mret_run. split; [done|]. split; [lia|]. split; [|lia].
      right. exists p. split; [done|]. by apply Qltb_false.
Qed.

Lemma slide_index_run (xs : list point) (new_x : Q) (i0 : nat) (w : World) :
  (i0 < length xs)%nat →
  ∃ k : nat,
    slide_index xs new_x (Z.of_nat i0) w = Ret (Z.of_nat k) w
    ∧ (k < length xs)%nat
    ∧ (strictly_increasing xs.*1 = true →
       (k = 0%nat ∨ ∃ p, xs !! (k - 1)%nat = Some p ∧ (p.1 <= new_x)%Q)
       ∧ (k = (length xs - 1)%nat ∨ ∃ p, xs !! S k = Some p ∧ (new_x <= p.1)%Q)).
Proof.
  intros Hi. unfold slide_index.
  destruct (move_left_run xs new_x (S (Z.to_nat (Z.of_nat i0))) i0 w) as (j & Hj & Hji & Hleft);
    [lia|lia|].
  rewrite bind_run, Hj.
  destruct (move_right_run xs new_x
              (S (Z.to_nat (Z.of_nat (length xs) - Z.of_nat j))) j w)
    as (k & Hk & Hjk & Hright & Hmoved); [lia|lia|].
  exists k. split; [done|]. split; [lia|]. intros Hinc. split; [|done].
  destruct (decide (j = k)) as [<-|Hne]; [done|].
  destruct Hmoved as (p & Hp & Hlt); [lia|].
  right. destruct (lookup_lt_is_Some_2 xs (k - 1)%nat) as [q Hq]; [lia|].
  exists q. split; [done|].
  apply Qlt_le_weak. apply Qlt_trans with p.1; [|done].
  apply (strictly_increasing_adjacent xs.*1 (k - 1)%nat); [done|..].
  - by rewrite list_lookup_fmap, Hq.
  - replace (S (k - 1)) with k by lia. by rewrite list_lookup_fmap, Hp.
Qed.

(** The fuel that [slide_index] gives the two loops is never used up, from
    any starting index. *)
Lemma py_index_no_diverge {A} (l : list A) (i : Z) (w : World) :
  py_index l i w ≠ Diverge.
Proof.
  unfold py_index. repeat case_match; try done;
    match goal with |- unwrap _ ?o _ ≠ _ => by destruct o end.
Qed.

Lemma move_left_terminates (xs : list (Q * Q)) (new_x : Q) (fuel : nat) (index : Z)
    (w : World) :
  (Z.to_nat index < fuel)%nat → move_left fuel xs new_x index w ≠ Diverge.
Proof.
  revert index. induction fuel as [|fuel IH]; intros index Hf; [lia|].
  simpl. destruct (0 <? index) eqn:Hpos; [|done].
  apply Z.ltb_lt in Hpos. rewrite bind_run.
  pose proof (py_index_no_diverge xs (index - 1) w) as Hp.
  destruct (py_index xs (index - 1) w) as [p w'|e w'|] eqn:Hrow; [|done..].
  assert (w' = w) as ->.
  { unfold py_index in Hrow. repeat case_match; try done;
      match goal with H : unwrap _ ?o _ = _ |- _ => destruct o; by inversion H end. }
  destruct (Qltb new_x p.1); [|done]. apply IH. lia.
Qed.

Lemma move_right_terminates (xs : list (Q * Q)) (new_x : Q) (fuel : nat) (index : Z)
    (w : World) :
  (Z.to_nat (Z.of_nat (length xs) - index) < fuel)%nat →
  move_right fuel xs new_x index w ≠ Diverge.
Proof.
  revert index. induction fuel as [|fuel IH]; intros index Hf; [lia|].
  simpl. destruct (index <? Z.of_nat (length xs) - 1) eqn:Hlt; [|done].
  apply Z.ltb_lt in Hlt. rewrite bind_run.
  pose proof (py_index_no_diverge xs (index + 1) w) as Hp.
  destruct (py_index xs (index + 1) w) as [p w'|e w'|] eqn:Hrow; [|done..].
  assert (w' = w) as ->.
  { unfold py_index in Hrow. repeat case_match; try done;
      match goal with H : unwrap _ ?o _ = _ |- _ => destruct o; by inversion H end. }
  destruct (Qltb p.1 new_x); [|done]. apply IH. lia.
Qed.

Lemma slide_index_terminates (xs : list (Q * Q)) (new_x : Q) (index : Z) (w : World) :
  slide_index xs new_x index w ≠ Diverge.
Proof.
  unfold slide_index. rewrite bind_run.
  pose proof (move_left_terminates xs new_x (S (Z.to_nat index)) index w) as Hl.
  destruct (move_left _ xs new_x index w) as [j w'|e w'|]; [|done|by apply Hl; lia].
  apply move_right_terminates. lia.
Qed.

Example py_index_last : py_index [10; 20; 30] (-1) ex_world = Ret 30 ex_world.
Proof. reflexivity. Qed.

Example py_index_out_of_range : py_index [10; 20; 30] 3 ex_world = Exc IndexError ex_world.
Proof. reflexivity. Qed.

Example slide_right_example :
  slide_index (Artist.get_xydata ex_line) 3%Q 0 ex_world = Ret 2 ex_world.
Proof. reflexivity. Qed.

Example slide_left_example :
  slide_index (Artist.get_xydata ex_line) (1 # 2)%Q 2 ex_world = Ret 1 ex_world.
Proof. reflexivity. Qed.

(** C9: from a starting index within [0, len(xydata)-1] of non-empty line
    data, the two [while] loops of [update_offset] terminate with an index
    within [0, len(xydata)-1], and the row access [xydata[index]] that
    follows is in range. *)
Theorem slide_stays_in_bounds (xs : list point) (new_x : Q) (index : Z) (w : World) :
  xs ≠ [] →
  0 ≤ index ≤ Z.of_nat (length xs) - 1 →
  ∃ (index' : Z) (row : point),
    slide_index xs new_x index w = Ret index' w
    ∧ 0 ≤ index' ≤ Z.of_nat (length xs) - 1
    ∧ py_index xs index' w = Ret row w.
Proof.
  intros _ Hrange.
  destruct (slide_index_run xs new_x (Z.to_nat index) w) as (k & Hk & Hlt & _); [lia|].
  rewrite Z2Nat.id in Hk by lia.
  destruct (lookup_lt_is_Some_2 xs k Hlt) as [row Hrow].
  exists (Z.of_nat k), row. split; [done|]. split; [lia|].
  by apply py_index_run.
Qed.

(** C5: on a line with strictly increasing x-data and from a stored index
    within [0, len-1], [update_offset] with button 2 leaves an index [i]
    with ([i = 0] or [xydata[i-1].x <= new_x]) and ([i = len-1] or
    [new_x <= xydata[i+1].x]), where [new_x] is the dragged position in
    data coordinates: the transform of the start pixel plus [(dx, dy)],
    a float sum that is rounded and is taken to be finite.  Exactly when
    [i] differs from the index before, the anchor becomes [xydata[i]], the
    index is stored and, with a formatter, the text is regenerated from the
    line and [i]; otherwise nothing changes. *)
Theorem middle_click_slides (w : World) (self : did) (D : Drag.t) (xs : list point)
    (start : point) (pix2dat : point → point) (i0 : Z) (dx dy : Q) (A : Annot.t) :
  draggables w !! self = Some D →
  Drag.button D = Some (BInt 2) →
  Drag.xydata D = Some xs →
  Drag.drag_start_pixels D = Some start →
  Drag.drag_trans_pix2dat D = Some pix2dat →
  Drag.index D = Some i0 →
  annots w !! Drag.ref_artist D = Some A →
  strictly_increasing xs.*1 = true →
  0 ≤ i0 < Z.of_nat (length xs) →
  let pixels := (float_add start.1 dx, float_add start.2 dy) in
  finite_floats [start.1; start.2; dx; dy; pixels.1; pixels.2] = true →
  let new_x := (pix2dat pixels).1 in
  ∃ (i : nat) (row : point),
    xs !! i = Some row
    ∧ (i = 0%nat ∨ ∃ p, xs !! (i - 1)%nat = Some p ∧ (p.1 <= new_x)%Q)
    ∧ (i = (length xs - 1)%nat ∨ ∃ p, xs !! S i = Some p ∧ (new_x <= p.1)%Q)
    ∧ update_offset self dx dy w =
        Ret tt (if decide (Z.of_nat i = i0) then w
                else world_after_slide w self D (Z.of_nat i) row).
Proof.
  intros HD Hb Hxs Hstart Hpix Hidx HA Hinc Hrange pixels _ new_x.
  destruct (slide_index_run xs new_x (Z.to_nat i0) w) as (k & Hk & Hlt & Hcond); [lia|].
  rewrite Z2Nat.id in Hk by lia.
  destruct (lookup_lt_is_Some_2 xs k Hlt) as [row Hrow].
  destruct (Hcond Hinc) as [Hl Hr].
  exists k, row. split; [done|]. split; [done|]. split; [done|].
  unfold update_offset.
  rewrite bind_run, (self_drag_run _ _ D HD), Hb, Hpix, Hstart, Hidx, Hxs.
  repeat mstep. rewrite decide_False by done. rewrite decide_True by done.
  repeat mstep. fold pixels. fold new_x. rewrite Hk.
  destruct (decide (Z.of_nat k = i0)) as [Heq|Hne].
  - rewrite decide_False by (intros ?; done). done.
  - rewrite decide_True by done.
    rewrite bind_run, (py_index_run _ _ _ _ Hrow).
    rewrite bind_run, (annot_update_run _ _ _ A HA).
    unfold update_drag, world_after_slide. rewrite bind_run, modify_run.
    destruct (Drag.formatter D) as [f|].
    + erewrite annot_update_run; [done|]. simpl. by rewrite lookup_alter_eq, HA.
    + done.
Qed.

(** ** Creating annotations *)

Lemma plotted_spec (w : World) (line ax c : oid) :
  plotted w line = Some (ax, c) →
  ∃ L AX fig FIG r,
    objs w !! line = Some L ∧ Artist.kind L = Line2D
    ∧ Artist.get_axes L = Some (PyObj ax) ∧ Artist.get_figure L = Some (PyObj fig)
    ∧ objs w !! ax = Some AX ∧ Artist.kind AX = Axes ∧ Artist.figure AX = Some (PyObj fig)
    ∧ objs w !! fig = Some FIG ∧ Artist.kind FIG = Figure
    ∧ Artist.canvas FIG = Some (PyObj c)
    ∧ registries w !! c = Some r.
Proof.
  unfold plotted. intros H.
  destruct (objs w !! line) as [L|] eqn:HL; [|done].
  destruct (Artist.get_axes L) as [[|ax'|]|] eqn:Hax; try done.
  destruct (Artist.get_figure L) as [[|fig|]|] eqn:Hfig; try done.
  destruct (objs w !! ax') as [AX|] eqn:HAX; [|done].
  destruct (objs w !! fig) as [FIG|] eqn:HFIG; [|done].
  destruct (Artist.canvas FIG) as [[|c'|]|] eqn:Hc; try done.
  case_match eqn:Hk; [|done]. simplify_eq.
  repeat (apply andb_true_iff in Hk as [Hk ?%bool_decide_eq_true]).
  apply bool_decide_eq_true in Hk as [r Hr].
  exists L, AX, fig, FIG, r. done.
Qed.

Lemma self_picker_run (w : World) (self : pid) (P : Picker.t) :
  controllers w !! self = Some P → self_picker self w = Ret P w.
Proof. intros H. unfold self_picker. by rewrite bind_run, gets_run, H. Qed.

Lemma mpl_connect_run (c : oid) (s : string) (f : Handler) (w : World) (r : Registry.t) :
  registries w !! c = Some r →
  mpl_connect (PyObj c) s f w =
  Ret (Registry.next_cid r)
      (with_registries
         <[c := Registry.mk (S (Registry.next_cid r))
                  (Registry.callbacks r ++ [(Registry.next_cid r, (s, f))])]> w).
Proof. intros H. unfold mpl_connect. by rewrite bind_run, (registry_of_run _ _ r). Qed.

Lemma alter_snoc {A} (f : A → A) (l : list A) (x : A) :
  alter f (length l) (l ++ [x]) = l ++ [f x].
Proof.
  replace (length l) with (length l + 0)%nat by lia. by rewrite alter_app_r.
Qed.

Lemma lookup_snoc {A} (l : list A) (x : A) : (l ++ [x]) !! length l = Some x.
Proof. by rewrite lookup_app_r, Nat.sub_diag. Qed.

Lemma world_ext (w1 w2 : World) :
  objs w1 = objs w2 → attrs w1 = attrs w2 → pickers w1 = pickers w2 →
  annots w1 = annots w2 → registries w1 = registries w2 →
  controllers w1 = controllers w2 → draggables w1 = draggables w2 →
  _drag_lock w1 = _drag_lock w2 → _counter w1 = _counter w2 →
  _event w1 = _event w2 → calls w1 = calls w2 → w1 = w2.
Proof. destruct w1, w2. simpl. by intros -> -> -> -> -> -> -> -> -> -> ->. Qed.

(** Read a field of a world built from setters. *)
Ltac wsimpl :=
  cbn [objs attrs pickers annots registries controllers draggables _drag_lock _counter
       _event calls with_objs with_attrs with_pickers with_annots with_registries
       with_controllers with_draggables with_drag_lock with_counter with_event with_call].

Lemma AnnotationPicker_annotate_run (w : World) (p : pid) (P : Picker.t) (line : oid)
    (index : Z) (text : option string) (ax c : oid) (L AX : Artist.t) (r : Registry.t)
    (xy : point) :
  controllers w !! p = Some P →
  plotted w line = Some (ax, c) →
  objs w !! line = Some L →
  objs w !! ax = Some AX →
  registries w !! c = Some r →
  0 ≤ index →
  Artist.get_xydata L !! Z.to_nat index = Some xy →
  AnnotationPicker_annotate p line index text w =
  Ret (length (draggables w)) (annotated w P line index text ax AX c r xy).
Proof.
  intros HP Hpl HL HAX Hr Hidx Hxy.
  destruct (plotted_spec _ _ _ _ Hpl)
    as (L' & AX' & fig & FIG & r' & HL' & HkL & Hax & Hgf & HAX' & HkAX & Hfig & HFIG & HkF & Hc & Hr').
  simplify_eq.
  unfold AnnotationPicker_annotate.
  rewrite bind_run, (self_picker_run _ _ _ HP).
  rewrite bind_run, getattr_run, (member_obj _ _ _ L HL), Hax.
  rewrite bind_run, isinstance_run. unfold kind_of, obj_of. rewrite HAX. simpl.
  rewrite HkAX, bool_decide_true by done.
  rewrite bind_run, mret_run.
  rewrite bind_run, getattr_run, (member_obj _ _ _ L HL).
  replace index with (Z.of_nat (Z.to_nat index)) at 1 by lia.
  rewrite bind_run, (py_index_run _ _ _ _ Hxy).
  unfold Axes_annotate, DraggableAnnotationLine2D_init, DraggableBase_init, set_picker,
    update_drag.
  repeat mstep. unfold obj_of. rewrite HAX. repeat mstep.
  erewrite member_obj by (simpl; apply lookup_snoc). simpl Artist.figure. rewrite Hfig.
  repeat mstep.
  erewrite member_obj by (simpl; apply lookup_app_l_Some; eassumption). rewrite Hc.
  repeat mstep.
  erewrite mpl_connect_run by lk. repeat mstep.
  erewrite mpl_connect_run by lk. repeat mstep.
  destruct text as [s|].
  - repeat mstep.
    erewrite self_drag_run by (simpl; rewrite !alter_snoc; apply lookup_snoc).
    simpl (Drag.canvas _). rewrite bind_run. erewrite draw_run by lk. repeat mstep.
    f_equal. unfold annotated.
    apply world_ext; wsimpl;
      rewrite ?Hfig, ?insert_insert_eq, ?alter_snoc, ?alter_insert_eq; simpl;
      rewrite <- ?app_assoc; done.
  - repeat mstep.
    erewrite annot_update_run by lk. repeat mstep.
    erewrite self_drag_run by (simpl; rewrite !alter_snoc; apply lookup_snoc).
    simpl (Drag.canvas _). rewrite bind_run. erewrite draw_run by lk. repeat mstep.
    f_equal. unfold annotated.
    apply world_ext; wsimpl;
      rewrite ?Hfig, ?insert_insert_eq, ?alter_snoc, ?alter_insert_eq; simpl;
      rewrite <- ?app_assoc; done.
Qed.

(** C7: a pick event makes a controller create an annotation exactly when
    the event's button is the controller's button, its key is the
    controller's key and the picked artist is a Line2D; the annotation is
    then bound to the picked line at the middle element of [event.ind],
    [event.ind[len(event.ind)//2]], and anchored at that data point; for
    any other button, key or artist nothing is created or changed. *)
Theorem pick_creates_annotation (w : World) (self : pid) (P : Picker.t)
    (event : PickEvent.t) :
  controllers w !! self = Some P →
  (answers w P event = false → AnnotationPicker__onpick self event w = Ret tt w)
  ∧ (answers w P event = true →
     ∀ (i : Z) (ax c : oid) (L AX : Artist.t) (r : Registry.t) (xy : point),
       PickEvent.ind event !! (length (PickEvent.ind event) / 2)%nat = Some i →
       0 ≤ i →
       plotted w (PickEvent.artist event) = Some (ax, c) →
       objs w !! PickEvent.artist event = Some L →
       objs w !! ax = Some AX →
       registries w !! c = Some r →
       Artist.get_xydata L !! Z.to_nat i = Some xy →
       AnnotationPicker__onpick self event w =
       Ret tt (annotated (with_event (Some event) w) P (PickEvent.artist event) i None
                 ax AX c r xy)).
Proof.
  intros HP. unfold AnnotationPicker__onpick, answers.
  rewrite bind_run, (self_picker_run _ _ _ HP), bind_run, isinstance_run.
  split.
  - by intros ->.
  - intros -> i ax c L AX r xy Hi Hpos Hpl HL HAX Hr Hxy.
    rewrite <- (Nat2Z.inj_div _ 2).
    rewrite bind_run, (py_index_run _ _ _ _ Hi), bind_run, modify_run, bind_run.
    erewrite (AnnotationPicker_annotate_run (with_event (Some event) w)); try eassumption.
    by rewrite mret_run.
Qed.

Lemma canvas_target_line (w : World) (line ax c : oid) :
  plotted w line = Some (ax, c) → canvas_target w (PyObj line) = Some (PyObj c).
Proof.
  intros Hpl.
  destruct (plotted_spec _ _ _ _ Hpl)
    as (L & AX & fig & FIG & r & HL & HkL & Hax & Hgf & HAX & HkAX & Hfig & HFIG & HkF & Hc & Hr).
  unfold canvas_target, kind_of, obj_of. rewrite HL. simpl. rewrite HkL.
  rewrite bool_decide_false by done.
  rewrite (member_obj _ _ _ L HL), Hgf. by rewrite (member_obj _ _ _ FIG HFIG).
Qed.

Lemma enable_callbacks_frame (w : World) (artist : PyVal) (c : oid) :
  canvas_target w artist = Some (PyObj c) →
  is_Some (registries w !! c) →
  ∃ w', enable_callbacks artist w = Ret tt w'
        ∧ objs w' = objs w ∧ controllers w' = controllers w
        ∧ draggables w' = draggables w
        ∧ is_Some (registries w' !! c)
        ∧ ∀ o, o ≠ c → attrs w' !! o = attrs w !! o.
Proof.
  intros Hc [r Hr].
  destruct (attrs w !! c) as [v|] eqn:Hv.
  - exists w. rewrite (enable_callbacks_again w artist c) by (rewrite ?Hv; eauto).
    by eauto 10.
  - eexists. split; [by apply enable_callbacks_fresh|]. simpl. repeat split.
    + rewrite lookup_insert_eq. eauto.
    + intros o Ho. by rewrite lookup_insert_ne.
Qed.

Lemma default_picker_run (w : World) (line ax c : oid) :
  plotted w line = Some (ax, c) →
  ∃ w1,
    AnnotationPicker_init (Single (PyObj line)) 5%Q None (BInt 1) (Some "control") true [] w
    = Ret (length (controllers w)) w1
    ∧ objs w1 = objs w
    ∧ controllers w1 = controllers w ++ [default_picker]
    ∧ draggables w1 = draggables w
    ∧ is_Some (registries w1 !! c).
Proof.
  intros Hpl.
  destruct (plotted_spec _ _ _ _ Hpl)
    as (L & AX & fig & FIG & r & HL & HkL & Hax & Hgf & HAX & HkAX & Hfig & HFIG & HkF & Hc & Hr).
  unfold AnnotationPicker_init, AnnotationPicker_apply, and_then, setattr_attr_name, set_picker.
  cbn [_make_iterable for_each last].
  repeat mstep.
  assert (Hkind : ∀ w0, objs w0 = objs w → kind_of w0 (PyObj line) = Some Line2D).
  { intros w0 Hw0. unfold kind_of, obj_of. by rewrite Hw0, HL; simpl; rewrite HkL. }
  assert (HP : ∀ w0, controllers w0 = controllers w ++ [default_picker] →
                     self_picker (length (controllers w)) w0 = Ret default_picker w0).
  { intros w0 Hw0. apply self_picker_run. rewrite Hw0. apply lookup_snoc. }
  assert (Hen : ∀ w0, objs w0 = objs w → controllers w0 = controllers w ++ [default_picker] →
                      draggables w0 = draggables w → registries w0 = registries w →
    ∃ w1, enable_callbacks (PyObj line) w0 = Ret tt w1
          ∧ objs w1 = objs w ∧ controllers w1 = controllers w ++ [default_picker]
          ∧ draggables w1 = draggables w ∧ is_Some (registries w1 !! c)).
  { intros w0 Ho Hctl Hd Hreg.
    destruct (enable_callbacks_frame w0 (PyObj line) c)
      as (w' & Hrun & Ho' & Hctl' & Hd' & Hreg' & _).
    - apply (canvas_target_line _ _ ax). unfold plotted. rewrite Ho, Hreg. exact Hpl.
    - rewrite Hreg, Hr. eauto.
    - exists w'. rewrite Ho', Hctl', Hd'. eauto. }
  repeat first [ mstep | rewrite Hkind by done | rewrite bool_decide_true by done
               | rewrite bool_decide_false by done ].
  match goal with |- context [pickable ?W line] => destruct (pickable W line) end;
    cbn [negb];
    repeat first [ mstep | rewrite Hkind by done | rewrite bool_decide_true by done
                 | rewrite bool_decide_false by done | rewrite HP by done
                 | progress cbn [for_each] ].
  - match goal with |- context [enable_callbacks _ ?W] =>
      destruct (Hen W) as (w1 & Hrun & ?); [done..|] end.
    rewrite Hrun. repeat mstep. eauto.
  - match goal with |- context [enable_callbacks _ ?W] =>
      destruct (Hen W) as (w1 & Hrun & ?); [done..|] end.
    rewrite Hrun. repeat mstep. eauto.
Qed.

Lemma plotted_frame (w w' : World) (line ax c : oid) :
  objs w' = objs w → is_Some (registries w' !! c) →
  plotted w line = Some (ax, c) → plotted w' line = Some (ax, c).
Proof.
  intros Ho Hr H. unfold plotted in *. rewrite Ho.
  destruct (objs w !! line) as [L|]; [|done].
  destruct (Artist.get_axes L) as [[|ax'|]|]; try done.
  destruct (Artist.get_figure L) as [[|fig|]|]; try done.
  destruct (objs w !! ax') as [AX|]; [|done].
  destruct (objs w !! fig) as [FIG|]; [|done].
  destruct (Artist.canvas FIG) as [[|c'|]|]; try done.
  case_match eqn:Hk; [|done]. simplify_eq.
  rewrite !andb_true_iff in Hk. destruct Hk as ((((_ & ->) & ->) & ->) & ->).
  by rewrite bool_decide_true.
Qed.

(** C3: when no controlling instance is found on the artist, its axes or
    its figure, the canvas pick dispatcher [_on_pick_event] does nothing;
    the module-level [annotate] instead creates a default [AnnotationPicker]
    for the line, attaches it to the line and creates the annotation
    through it. *)
Theorem no_controller_found (w : World) (event : PickEvent.t) (line : oid) (index : Z)
    (text : option string) (ax c : oid) (L : Artist.t) (xy : point) :
  (nearest_controller w (PyObj (PickEvent.artist event)) = None →
   _on_pick_event event w = Ret tt w)
  ∧ (nearest_controller w (PyObj line) = None →
     plotted w line = Some (ax, c) →
     objs w !! line = Some L →
     0 ≤ index →
     Artist.get_xydata L !! Z.to_nat index = Some xy →
     ∃ w' D,
       annotate line index text w = Ret tt w'
       ∧ controllers w' = controllers w ++ [default_picker]
       ∧ attrs w' !! line = Some (Controller (length (controllers w)))
       ∧ draggables w' = draggables w ++ [D]
       ∧ Drag.line D = Some line ∧ Drag.index D = Some index
       ∧ Drag.ref_artist D = length (objs w)
       ∧ Annot.xy <$> annots w' !! length (objs w) = Some xy).
Proof.
  split.
  - intros Hnone. unfold _on_pick_event.
    by rewrite bind_run, _find_annotations_instance_run, Hnone.
  - intros Hnone Hpl HL Hidx Hxy.
    destruct (default_picker_run w line ax c Hpl) as (w1 & Hinit & Ho & Hctl & Hd & Hreg).
    destruct (plotted_spec _ _ _ _ Hpl)
      as (L' & AX & fig & FIG & r & HL' & _ & _ & _ & HAX & _).
    simplify_eq. destruct Hreg as [r1 Hr1].
    unfold annotate, setattr_attr_name, call_annotate.
    rewrite bind_run, _find_annotations_instance_run, Hnone.
    rewrite !bind_run, Hinit. repeat mstep.
    set (w2 := with_attrs _ w1).
    rewrite (AnnotationPicker_annotate_run w2 _ default_picker line index text ax c L AX r1 xy);
      try done.
    + rewrite mret_run. eexists _, _. split; [done|]. unfold annotated. simpl.
      rewrite Hctl, Hd, Ho. repeat split; try done.
      * apply lookup_insert_eq.
      * by rewrite lookup_insert_eq.
    + simpl. rewrite Hctl. apply lookup_snoc.
    + by apply (plotted_frame w); [|eexists|].
    + simpl. by rewrite Ho.
    + simpl. by rewrite Ho.
Qed.

(** C3, as stated, fails for the module-level [annotate]: on a line with
    no controller anywhere on its chain it creates a controller and an
    annotation. *)
Lemma module_annotate_not_silent :
  nearest_controller ex_world (PyObj 3%nat) = None
  ∧ ∃ w', annotate 3%nat 1 None ex_world = Ret tt w'
          ∧ length (controllers w') = S (length (controllers ex_world))
          ∧ length (draggables w') = S (length (draggables ex_world))
          ∧ w' ≠ ex_world.
Proof.
  split; [reflexivity|]. eexists. split; [vm_compute; reflexivity|].
  split; [reflexivity|]. split; [reflexivity|]. intros H.
  apply (f_equal (λ w, length (controllers w))) in H. discriminate H.
Qed.

(** ** One drag at a time *)

Lemma artist_picker_locked (w : World) (d : did) (D : Drag.t) (a : oid)
    (event : MouseEvent.t) :
  _drag_lock w = true → draggables w !! d = Some D →
  artist_picker d a event w = Ret (false, None) w.
Proof.
  intros Hl HD. unfold artist_picker, lock_acquire_nowait, bbox_contains.
  rewrite bind_run, (self_drag_run _ _ D HD).
  repeat case_match; try done; repeat mstep; by rewrite Hl.
Qed.

Lemma artist_picker_cases (w : World) (d : did) (D : Drag.t) (a : oid)
    (event : MouseEvent.t) :
  draggables w !! d = Some D →
  artist_picker d a event w = Ret (false, None) w
  ∨ (_drag_lock w = false
     ∧ (MouseEvent.button event = BInt 2 → Drag.line D ≠ None)
     ∧ artist_picker d a event w =
       Ret (true, Some [])
           (with_draggables (alter (Drag.set_button (MouseEvent.button event)) d)
              (with_drag_lock true w))).
Proof.
  intros HD. unfold artist_picker, lock_acquire_nowait, bbox_contains, update_drag.
  rewrite bind_run, (self_drag_run _ _ D HD).
  destruct (bool_decide (MouseEvent.button event ∈ [BInt 1; BInt 3])
            || bool_decide (MouseEvent.button event = BInt 2)
               && bool_decide (Drag.line D ≠ None) && bool_decide (Drag.index D ≠ None))
    eqn:Hel; [|by left].
  cbn [fst].
  destruct (bool_decide (Drag.ref_artist D ∈ MouseEvent.hits event)) eqn:Hhit; [|by left].
  repeat mstep. destruct (_drag_lock w) eqn:Hl; repeat mstep; [by left|].
  right. split; [done|]. split; [|done].
  intros Hb2. apply orb_true_iff in Hel as [Hel|Hel].
  - apply bool_decide_eq_true in Hel. rewrite Hb2 in Hel.
    repeat (apply elem_of_cons in Hel as [Hel|Hel]; [done|]).
    by apply elem_of_nil in Hel.
  - rewrite !andb_true_iff in Hel. destruct Hel as ((_ & Hline) & _).
    by apply bool_decide_eq_true in Hline.
Qed.

Lemma preserves_ret {A} (P : World → Prop) (a : A) : preserves P (mret a).
Proof. by intros w Hw. Qed.

Lemma preserves_raise {A} (P : World → Prop) (e : exn) : preserves P (raise (A:=A) e).
Proof. by intros w Hw. Qed.

Lemma preserves_gets {A} (P : World → Prop) (f : World → A) : preserves P (gets f).
Proof. by intros w Hw. Qed.

Lemma preserves_unwrap {A} (P : World → Prop) (e : exn) (o : option A) :
  preserves P (unwrap e o).
Proof. by destruct o; intros w Hw. Qed.

Lemma preserves_modify (P : World → Prop) (f : World → World) :
  (∀ w, P w → P (f w)) → preserves P (modify f).
Proof. intros Hf w Hw. by apply Hf. Qed.

Lemma preserves_bind {A B} (P : World → Prop) (m : M A) (k : A → M B) :
  preserves P m → (∀ a, preserves P (k a)) → preserves P (m ≫= k).
Proof.
  intros Hm Hk w Hw. rewrite bind_run. specialize (Hm w Hw).
  destruct (m w) as [a w'|e w'|]; [|done..]. by apply Hk.
Qed.

Lemma fmap_alter_same {A B} (g : A → B) (f : A → A) (i : nat) (l : list A) :
  (∀ x, g (f x) = g x) → g <$> alter f i l = g <$> l.
Proof.
  intros Hg. apply list_eq. intros j. rewrite !list_lookup_fmap.
  destruct (decide (i = j)) as [->|Hne].
  - rewrite list_lookup_alter_eq. destruct (l !! j); simpl; [|done]. by rewrite Hg.
  - by rewrite list_lookup_alter_ne.
Qed.

Lemma preserves_update_drag (w0 : World) (self : did) (f : Drag.t → Drag.t) :
  (∀ D, core (f D) = core D) → preserves (frame w0) (update_drag self f).
Proof.
  intros Hf. apply preserves_modify. intros w (Hl & Hr & Ha & Ho & Hd).
  repeat split; try done. simpl. by rewrite fmap_alter_same.
Qed.

Ltac pres :=
  repeat first
    [ apply preserves_ret | apply preserves_raise | apply preserves_gets
    | apply preserves_unwrap
    | apply preserves_update_drag; intros []; reflexivity
    | apply preserves_bind; [|intros ?]
    | match goal with |- preserves _ (if ?b then _ else _) => destruct b end
    | match goal with |- preserves _ (match ?x with _ => _ end) => destruct x end ].

Lemma save_offset_frame (w0 : World) (self : did) :
  preserves (frame w0) (save_offset self).
Proof. unfold save_offset, self_drag, getattr, annot_get. pres. Qed.

Lemma drag_ok_ext (w w' : World) (D D' : Drag.t) :
  registries w' = registries w → annots w' = annots w → objs w' = objs w →
  core D' = core D → drag_ok w' D' = drag_ok w D.
Proof.
  intros Hr Ha Ho Hc. unfold core in Hc. simplify_eq. unfold drag_ok.
  by repeat match goal with H : _ = _ |- _ => rewrite H end.
Qed.

Lemma listening_ext (w w' : World) (d : did) :
  registries w' = registries w →
  Drag.canvas <$> draggables w' !! d = Drag.canvas <$> draggables w !! d →
  listening w' d = listening w d.
Proof.
  intros Hr Hc. unfold listening, connected.
  destruct (draggables w' !! d) as [D'|], (draggables w !! d) as [D|]; try done.
  simpl in Hc. injection Hc as Hc. by rewrite Hc, Hr.
Qed.

Lemma dragging_ext (w w' : World) (d : did) :
  core <$> draggables w' = core <$> draggables w → dragging w' d ↔ dragging w d.
Proof.
  intros Hc. unfold dragging.
  assert (H : core <$> draggables w' !! d = core <$> draggables w !! d)
    by (by rewrite <- !list_lookup_fmap, Hc).
  destruct (draggables w' !! d) as [D'|], (draggables w !! d) as [D|]; try done.
  simpl in *. unfold core in H. injection H as _ _ Hg _ _. by rewrite Hg.
Qed.

Lemma drag_invariant_frame (w w' : World) :
  frame w w' → drag_invariant w → drag_invariant w'.
Proof.
  intros (Hl & Hr & Ha & Ho & Hc) (Hok & Hfree & Hone & Hlisten).
  assert (Hlk : ∀ d, core <$> draggables w' !! d = core <$> draggables w !! d)
    by (intros d; by rewrite <- !list_lookup_fmap, Hc).
  split; [|split; [|split]].
  - intros d D' HD'. specialize (Hlk d). rewrite HD' in Hlk.
    destruct (draggables w !! d) as [D|] eqn:HD; [|done]. simpl in Hlk.
    rewrite (drag_ok_ext w w' D D'); [by eapply Hok|done..|congruence].
  - intros Hl' d Hd. apply (Hfree (eq_trans (eq_sym Hl) Hl') d). by apply (dragging_ext w w').
  - intros d1 d2 H1 H2. apply Hone; by apply (dragging_ext w w').
  - intros d Hd. rewrite (listening_ext w w'); [apply Hlisten; by apply (dragging_ext w w')|done|].
    specialize (Hlk d).
    destruct (draggables w' !! d) as [D'|], (draggables w !! d) as [D|]; try done.
    simpl in *. unfold core in Hlk. injection Hlk as _ Hcv _ _ _. by rewrite Hcv.
Qed.

Lemma dragging_alter (w : World) (f : Drag.t → Drag.t) (d d' : did) :
  dragging (with_draggables (alter f d) w) d' ↔
  if decide (d = d') then Drag.got_artist <$> (f <$> draggables w !! d) = Some true
  else dragging w d'.
Proof.
  unfold dragging. simpl. destruct (decide (d = d')) as [->|Hne].
  - by rewrite list_lookup_alter_eq.
  - by rewrite list_lookup_alter_ne.
Qed.

Lemma claim_keeps_invariant (w : World) (d : did) (D : Drag.t) (b : Button) :
  drag_invariant w → _drag_lock w = false → draggables w !! d = Some D →
  (b = BInt 2 → Drag.line D ≠ None) →
  let w1 := with_draggables (alter (Drag.set_button b) d) (with_drag_lock true w) in
  drag_invariant w1 ∧ ∀ d', ¬ dragging w1 d'.
Proof.
  intros (Hok & Hfree & Hone & Hlisten) Hl HD Hb w1.
  assert (Hnone : ∀ d', ¬ dragging w1 d').
  { intros d'. unfold w1. rewrite dragging_alter. case_decide as Hd.
    - subst d'. simpl. rewrite HD. simpl. intros Hg. apply (Hfree Hl d). unfold dragging.
      rewrite HD. simpl. by destruct D.
    - apply (Hfree Hl d'). }
  split; [|done]. split; [|split; [|split]].
  - intros d' D' HD'. unfold w1 in HD'. simpl in HD'.
    destruct (decide (d = d')) as [<-|Hne].
    + rewrite list_lookup_alter_eq, HD in HD'. simpl in HD'. simplify_eq.
      specialize (Hok d D HD). apply drag_ok_spec in Hok as (Ha & Hc & Hg & H2 & Hline).
      apply drag_ok_spec. destruct D; simpl in *. repeat split; try done.
      intros [= ->]. by apply Hb.
    + rewrite list_lookup_alter_ne in HD' by done.
      rewrite (drag_ok_ext w w1 D' D'); [by eapply Hok|done..].
  - done.
  - intros d1 d2 H1. by destruct (Hnone d1).
  - intros d1 H1. by destruct (Hnone d1).
Qed.

Lemma hold_keeps_invariant (w : World) (d : did) (D : Drag.t) :
  drag_invariant w → (∀ d', ¬ dragging w d') → _drag_lock w = true →
  draggables w !! d = Some D → is_Some (Drag.button D) → listening w d = true →
  drag_invariant (with_draggables (alter (Drag.set_got_artist true) d) w).
Proof.
  intros (Hok & Hfree & Hone & Hlisten) Hnone Hl HD Hb Hlis.
  set (w2 := with_draggables _ w).
  assert (Hd2 : ∀ d', dragging w2 d' → d' = d).
  { intros d'. unfold w2. rewrite dragging_alter. case_decide; [done|].
    intros Hd'. by destruct (Hnone d'). }
  split; [|split; [|split]].
  - intros d' D' HD'. unfold w2 in HD'. simpl in HD'.
    destruct (decide (d = d')) as [<-|Hne].
    + rewrite list_lookup_alter_eq, HD in HD'. simpl in HD'. simplify_eq.
      specialize (Hok d D HD). apply drag_ok_spec in Hok as (Ha & Hc & Hg & H2 & Hline).
      apply drag_ok_spec. destruct D; simpl in *. repeat split; try done.
    + rewrite list_lookup_alter_ne in HD' by done.
      rewrite (drag_ok_ext w w2 D' D'); [by eapply Hok|done..].
  - simpl. by rewrite Hl.
  - intros d1 d2 H1 H2. by rewrite (Hd2 d1 H1), (Hd2 d2 H2).
  - intros d1 H1. rewrite (Hd2 d1 H1). rewrite <- Hlis. apply listening_ext; [done|].
    unfold w2. simpl. rewrite list_lookup_alter_eq, HD. by destruct D.
Qed.

Lemma frame_refl (w : World) : frame w w.
Proof. by repeat split. Qed.

Lemma pick_keeps_invariant (w : World) (d : did) (event : MouseEvent.t) :
  drag_invariant w → drag_invariant (deliver w (Pick d event)).
Proof.
  intros Hinv. unfold deliver, pick. rewrite bind_run. unfold self_drag at 1.
  rewrite bind_run, gets_run.
  destruct (draggables w !! d) as [D|] eqn:HD; [|done]. cbn [unwrap]. rewrite mret_run.
  rewrite bind_run.
  destruct (artist_picker_cases w d D (Drag.ref_artist D) event HD) as [->|(Hl & Hb & ->)].
  { by rewrite bind_run, gets_run. }
  set (w1 := with_draggables _ (with_drag_lock true w)).
  destruct (claim_keeps_invariant w d D (MouseEvent.button event) Hinv Hl HD Hb)
    as [Hinv1 Hnone1]. fold w1 in Hinv1, Hnone1.
  rewrite bind_run, gets_run. cbn [fst andb].
  destruct (listening w1 d) eqn:Hlis; [|done].
  assert (HD1 : draggables w1 !! d = Some (Drag.set_button (MouseEvent.button event) D)).
  { unfold w1. simpl. by rewrite list_lookup_alter_eq, HD. }
  unfold DraggableBase_on_pick. rewrite bind_run, (self_drag_run _ _ _ HD1).
  cbn [PickEvent.artist]. rewrite decide_True by (by destruct D).
  unfold update_drag at 1. rewrite bind_run, modify_run.
  set (w2 := with_draggables _ w1).
  assert (Hinv2 : drag_invariant w2).
  { apply (hold_keeps_invariant w1 d (Drag.set_button (MouseEvent.button event) D));
      done. }
  pose proof (save_offset_frame w2 d w2 (frame_refl w2)) as Hframe.
  destruct (save_offset d w2) as [[] w3|e w3|]; simpl; [| |done];
    by apply (drag_invariant_frame w2 w3).
Qed.

Lemma on_release_keeps_ok (w w' : World) (d : did) :
  (∀ d D, draggables w !! d = Some D → drag_ok w D = true) →
  draggables w' = alter (Drag.set_got_artist false) d (draggables w) →
  objs w' = objs w →
  (∀ a, is_Some (annots w !! a) → is_Some (annots w' !! a)) →
  (∀ c, is_Some (registries w !! c) → is_Some (registries w' !! c)) →
  ∀ d' D', draggables w' !! d' = Some D' → drag_ok w' D' = true.
Proof.
  intros Hok Hd Ho Ha Hr d' D' HD'. rewrite Hd in HD'.
  assert (∃ D, draggables w !! d' = Some D
               ∧ (D' = D ∨ D' = Drag.set_got_artist false D)) as (D & HD & HDD').
  { destruct (decide (d = d')) as [<-|Hne].
    - rewrite list_lookup_alter_eq in HD'.
      destruct (draggables w !! d) as [D|]; simplify_eq/=. eauto.
    - rewrite list_lookup_alter_ne in HD' by done. eauto. }
  specialize (Hok d' D HD). apply drag_ok_spec in Hok as (HA & (c & Hc & HR) & Hg & H2 & Hl).
  apply drag_ok_spec. rewrite Ho.
  destruct HDD' as [->| ->]; destruct D; simpl in *; repeat split; eauto.
  done.
Qed.

Lemma release_loop (event : MouseEvent.t) (ds : list did) (w : World) :
  (∀ d D, draggables w !! d = Some D → drag_ok w D = true) →
  (∀ d, d ∈ ds → is_Some (draggables w !! d)) →
  ∃ w', for_each ds (λ d, on_release d event) w = Ret tt w'
        ∧ (∀ d D, draggables w' !! d = Some D → drag_ok w' D = true)
        ∧ (∀ d, dragging w' d → dragging w d ∧ d ∉ ds).
Proof.
  revert w. induction ds as [|d ds IH]; intros w Hok Hin.
  - exists w. split; [done|]. split; [done|]. intros d Hd. split; [done|].
    apply not_elem_of_nil.
  - destruct (Hin d) as [D HD]; [by left|].
    destruct (on_release_run w d D event HD (Hok d D HD))
      as (w1 & Hrun & _ & Hd1 & Ho1 & Ha1 & Hr1).
    destruct (IH w1) as (w' & Hloop & Hok' & Hdrag).
    + by apply (on_release_keeps_ok w w1 d).
    + intros d' Hd'. rewrite Hd1. apply lookup_lt_is_Some. rewrite length_alter.
      apply lookup_lt_is_Some. apply Hin. by right.
    + exists w'. cbn [for_each]. rewrite bind_run, Hrun. split; [done|]. split; [done|].
      intros d0 Hd0. destruct (Hdrag d0 Hd0) as [H1 Hnin].
      unfold dragging in H1. rewrite Hd1 in H1.
      destruct (decide (d = d0)) as [<-|Hne].
      * rewrite list_lookup_alter_eq, HD in H1. by destruct D.
      * rewrite list_lookup_alter_ne in H1 by done. split; [done|].
        rewrite not_elem_of_cons. by split.
Qed.

Lemma listening_release_handler (w : World) (d c : oid) (D : Drag.t) :
  draggables w !! d = Some D → Drag.canvas D = PyObj c → listening w d = true →
  d ∈ release_handlers w c.
Proof.
  intros HD Hc Hlis. unfold listening in Hlis. rewrite HD, Hc in Hlis.
  apply andb_true_iff in Hlis as [_ Hrel]. unfold connected in Hrel.
  unfold release_handlers. destruct (registries w !! c) as [r|]; [|done].
  apply bool_decide_eq_true in Hrel. apply list_elem_of_fmap in Hrel as ([cid sh] & Hsh & Hin).
  simpl in Hsh. subst sh. apply list_elem_of_omap. eexists. split; [exact Hin|]. simpl.
  rewrite decide_True; [done|]. split; [done|]. by eapply lookup_lt_Some.
Qed.

Lemma release_handlers_valid (w : World) (c d : oid) :
  d ∈ release_handlers w c → is_Some (draggables w !! d).
Proof.
  unfold release_handlers. destruct (registries w !! c) as [r|]; [|by intros ?%elem_of_nil].
  intros ([cid [sg h]] & _ & Hd)%list_elem_of_omap. simpl in Hd.
  destruct h; try done. case_decide as Hv; [|done]. simplify_eq.
  apply lookup_lt_is_Some. tauto.
Qed.

Lemma button_release_keeps_invariant (w : World) (c : oid) (event : MouseEvent.t) :
  drag_invariant w → on_dragged_canvas w (ButtonRelease c event) = true →
  drag_invariant (deliver w (ButtonRelease c event)).
Proof.
  intros (Hok & Hfree & Hone & Hlisten) Hadm. unfold deliver, button_release_event.
  rewrite bind_run, gets_run.
  destruct (release_loop event (release_handlers w c) w Hok) as (w' & -> & Hok' & Hdrag).
  { intros d. apply release_handlers_valid. }
  simpl.
  assert (Hnone : ∀ d, ¬ dragging w' d).
  { intros d Hd. destruct (Hdrag d Hd) as [Hw Hnin]. apply Hnin.
    pose proof (Hlisten d Hw) as Hlis. unfold dragging in Hw.
    destruct (draggables w !! d) as [D|] eqn:HD; [|done]. simpl in Hw.
    apply (listening_release_handler w d c D); [done| |done].
    simpl in Hadm. rewrite forallb_forall in Hadm. specialize (Hadm D).
    injection Hw as Hw. rewrite Hw in Hadm. simpl in Hadm.
    eapply bool_decide_eq_true_1, Hadm.
    apply list_elem_of_In. by eapply list_elem_of_lookup_2. }
  split; [done|]. split; [by intros _|]. split.
  - intros d1 d2 H1. by destruct (Hnone d1).
  - intros d H1. by destruct (Hnone d).
Qed.

Lemma quiescent_invariant (w : World) : quiescent w = true → drag_invariant w.
Proof.
  unfold quiescent. rewrite forallb_forall. intros Hq.
  assert (Hall : ∀ d D, draggables w !! d = Some D →
                        Drag.got_artist D = false ∧ drag_ok w D = true).
  { intros d D HD. specialize (Hq D). rewrite andb_true_iff, negb_true_iff in Hq.
    apply Hq. apply list_elem_of_In. by eapply list_elem_of_lookup_2. }
  assert (Hnone : ∀ d, ¬ dragging w d).
  { intros d. unfold dragging. destruct (draggables w !! d) as [D|] eqn:HD; [|done].
    simpl. destruct (Hall d D HD) as [-> _]. done. }
  split; [intros d D HD; by apply (Hall d D)|]. split; [by intros _|]. split.
  - intros d1 d2 H1. by destruct (Hnone d1).
  - intros d H1. by destruct (Hnone d).
Qed.

Lemma run_keeps_invariant (es : list DragEvent) (w : World) :
  releases_on_dragged_canvas es w = true → drag_invariant w → drag_invariant (run es w).
Proof.
  revert w. induction es as [|e es IH]; intros w Hes Hinv; [done|].
  simpl in Hes. apply andb_true_iff in Hes as [He Hes].
  unfold run. simpl. apply IH; [done|].
  destruct e as [d event|c event].
  - by apply pick_keeps_invariant.
  - by apply button_release_keeps_invariant.
Qed.

(** X26: what the lock does guarantee.  Between events, each press and
    each button release being handled to its end, at most one annotation
    is dragged in every state reached from a state in which no instance
    holds a drag and every instance is well formed, by presses over
    annotations and by button releases, provided a release during a drag
    comes from the canvas of the annotation being dragged: the instance
    that holds the drag holds the lock, while the lock is held
    [artist_picker] of every instance returns (False, None) and changes
    nothing, and [artist_picker] reports a hit only when it found the lock
    free and took it. *)
Theorem one_drag_at_a_time (w0 : World) (es : list DragEvent) :
  quiescent w0 = true →
  releases_on_dragged_canvas es w0 = true →
  let w := run es w0 in
  at_most_one_dragging w
  ∧ (∀ d, dragging w d → _drag_lock w = true)
  ∧ (_drag_lock w = true →
     ∀ d D a event, draggables w !! d = Some D →
                    artist_picker d a event w = Ret (false, None) w)
  ∧ (∀ d D a event hit w',
       draggables w !! d = Some D →
       artist_picker d a event w = Ret hit w' → hit.1 = true →
       _drag_lock w = false ∧ _drag_lock w' = true).
Proof.
  intros Hq Hes w.
  destruct (run_keeps_invariant es w0 Hes (quiescent_invariant w0 Hq))
    as (_ & Hfree & Hone & _).
  fold w in Hfree, Hone. split; [done|]. split; [|split].
  - intros d Hd. destruct (_drag_lock w) eqn:Hl; [done|]. by destruct (Hfree eq_refl d).
  - intros Hl d D a event HD. by apply (artist_picker_locked w d D).
  - intros d D a event hit w' HD Hrun Hhit.
    destruct (artist_picker_cases w d D a event HD) as [Hmiss|(Hl & _ & Hclaim)].
    + rewrite Hmiss in Hrun. by simplify_eq.
    + rewrite Hclaim in Hrun. by simplify_eq.
Qed.

(** C1: the code does not keep what its comment on [_drag_lock] says, that
    only one annotation is moved at a time.  The lock is shared by the
    annotations of all figures and [on_release] of every instance releases
    it, whether or not that instance holds the drag.  With annotation 0
    held, a button release on the canvas of the other figure runs
    [on_release] of annotation 1 alone: the lock is free while annotation
    0 is still held, and the next press makes annotation 2 hold its artist
    too.  Two instances are then being dragged. *)
Lemma two_drags_after_stray_release :
  quiescent across_figures = true
  ∧ dragging (run stray_release across_figures) 0%nat
  ∧ dragging (run stray_release across_figures) 2%nat
  ∧ ¬ at_most_one_dragging (run stray_release across_figures).
Proof.
  split; [vm_compute; reflexivity|].
  assert (H0 : dragging (run stray_release across_figures) 0%nat)
    by (vm_compute; reflexivity).
  assert (H2 : dragging (run stray_release across_figures) 2%nat)
    by (vm_compute; reflexivity).
  split; [done|]. split; [done|].
  intros H. specialize (H _ _ H0 H2). discriminate H.
Qed.

(** ** The statements at work on the example stores *)

Lemma one_drag_at_a_time_witness :
  quiescent across_figures = true
  ∧ releases_on_dragged_canvas own_release across_figures = true
  ∧ at_most_one_dragging (run own_release across_figures)
  ∧ dragging (run own_release across_figures) 2%nat.
Proof.
  split; [vm_compute; reflexivity|]. split; [vm_compute; reflexivity|].
  split; [|vm_compute; reflexivity].
  apply (one_drag_at_a_time across_figures own_release); vm_compute; reflexivity.
Defined.

Lemma on_release_unlocks_witness :
  _drag_lock three_annotations = false
  ∧ ∃ w', on_release 1%nat (left_press 5%nat) three_annotations = Ret tt w'
          ∧ _drag_lock w' = false.
Proof.
  split; [reflexivity|].
  apply (on_release_unlocks three_annotations 1%nat (instance three_annotations 1%nat));
    vm_compute; reflexivity.
Defined.

Lemma no_controller_found_witness :
  ∃ w' D,
    annotate 3%nat 1 None ex_world = Ret tt w'
    ∧ controllers w' = controllers ex_world ++ [default_picker]
    ∧ attrs w' !! 3%nat = Some (Controller (length (controllers ex_world)))
    ∧ draggables w' = draggables ex_world ++ [D]
    ∧ Drag.line D = Some 3%nat ∧ Drag.index D = Some 1
    ∧ Drag.ref_artist D = length (objs ex_world)
    ∧ Annot.xy <$> annots w' !! length (objs ex_world) = Some (1, 1)%Q.
Proof.
  apply (proj2 (no_controller_found ex_world line_pick 3%nat 1 None 2%nat 1%nat ex_line
                  (1, 1)%Q)); try reflexivity. lia.
Defined.

Lemma slide_stays_in_bounds_witness :
  ∃ (index' : Z) (row : Q * Q),
    slide_index (Artist.get_xydata ex_line) 3%Q 1 ex_world = Ret index' ex_world
    ∧ 0 ≤ index' ≤ Z.of_nat (length (Artist.get_xydata ex_line)) - 1
    ∧ py_index (Artist.get_xydata ex_line) index' ex_world = Ret row ex_world.
Proof.
  apply (slide_stays_in_bounds (Artist.get_xydata ex_line) 3%Q 1 ex_world).
  - discriminate.
  - simpl. lia.
Defined.

Lemma middle_click_slides_witness :
  ∃ (i : nat) (row : Q * Q),
    Artist.get_xydata ex_line !! i = Some row
    ∧ (i = 0%nat
       ∨ ∃ p, Artist.get_xydata ex_line !! (i - 1)%nat = Some p
              ∧ (p.1 <= float_add 1 2)%Q)
    ∧ (i = (length (Artist.get_xydata ex_line) - 1)%nat
       ∨ ∃ p, Artist.get_xydata ex_line !! S i = Some p
              ∧ (float_add 1 2 <= p.1)%Q)
    ∧ update_offset 1%nat 2%Q 0%Q middle_drag =
        Ret tt (if decide (Z.of_nat i = 1) then middle_drag
                else world_after_slide middle_drag 1%nat (instance middle_drag 1%nat)
                       (Z.of_nat i) row).
Proof.
  apply (middle_click_slides middle_drag 1%nat (instance middle_drag 1%nat)
           (Artist.get_xydata ex_line) (1, 1)%Q identity_transform 1 2%Q 0%Q
           (annotation middle_drag 5%nat)); try (vm_compute; reflexivity).
  simpl. lia.
Defined.

Lemma right_click_release_deletes_witness :
  Drag.button (instance right_drag 0%nat) = Some (BInt 3)
  ∧ finalize_offset 0%nat right_drag = remove 0%nat right_drag
  ∧ ∃ w', remove 0%nat right_drag = Ret tt w'
       ∧ (∃ r', registries w' !! 1%nat = Some r'
                ∧ ∀ cb, cb ∈ Registry.callbacks r' →
                        cb.1 ∉ Drag.cids (instance right_drag 0%nat))
       ∧ Annot.in_figure <$> annots w' !! Drag.ref_artist (instance right_drag 0%nat)
         = Some false
       ∧ Drag.got_artist <$> draggables w' !! 0%nat = Some false
       ∧ calls w' = calls right_drag ++ [canvas_draw 1%nat].
Proof.
  split; [reflexivity|].
  apply (proj1 (right_click_release_deletes right_drag 0%nat (instance right_drag 0%nat)
                  (BInt 3) 1%nat
                  (default (Registry.mk 0 []) (registries right_drag !! 1%nat))
                  (annotation right_drag 4%nat)
                  ltac:(vm_compute; reflexivity) ltac:(vm_compute; reflexivity)
                  ltac:(vm_compute; reflexivity) ltac:(vm_compute; reflexivity)
                  ltac:(vm_compute; reflexivity))).
  reflexivity.
Defined.

Lemma pick_creates_annotation_witness :
  answers ex_controlled default_picker line_pick = true
  ∧ AnnotationPicker__onpick 0%nat line_pick ex_controlled =
    Ret tt (annotated (with_event (Some line_pick) ex_controlled) default_picker 3%nat 1 None
              2%nat ex_axes 1%nat (Registry.mk 0 []) (1, 1)%Q).
Proof.
  split; [vm_compute; reflexivity|].
  apply (proj2 (pick_creates_annotation ex_controlled 0%nat default_picker line_pick
                  ltac:(reflexivity))
               ltac:(vm_compute; reflexivity) 1 2%nat 1%nat ex_line ex_axes
               (Registry.mk 0 []) (1, 1)%Q);
    try (vm_compute; reflexivity). lia.
Defined.

Lemma enable_callbacks_connects_once_witness :
  canvas_target ex_world (PyObj 3%nat) = Some (PyObj 1%nat)
  ∧ attrs ex_world !! 1%nat = None
  ∧ enable_callbacks (PyObj 3%nat) ex_world =
    Ret tt (with_attrs <[1%nat := Callbacks [0%nat; 1%nat]]>
             (with_registries
                <[1%nat := Registry.mk 2
                             [(0%nat, ("pick_event", H_on_pick_event));
                              (1%nat, ("figure_enter_event", H_on_figure_enter_event))]]>
                ex_world)).
Proof.
  split; [reflexivity|]. split; [reflexivity|].
  apply (proj1 (enable_callbacks_connects_once ex_world (PyObj 3%nat) 1%nat
                  (Registry.mk 0 []) ltac:(reflexivity) ltac:(reflexivity))).
  reflexivity.
Defined.

Lemma disable_callbacks_never_enabled_witness :
  attr_lookup ex_world (PyObj 1%nat) = None
  ∧ disable_callbacks (PyObj 1%nat) ex_world = Exc AttributeError ex_world.
Proof.
  split; [reflexivity|].
  apply (disable_callbacks_never_enabled ex_world (PyObj 1%nat) (PyObj 1%nat)); reflexivity.
Defined.

(** C5, as stated for any stored index, fails: an annotation made at index
    -1 (the last point) and dragged left of the first point keeps index -1,
    which is not 0, although [xydata[-1-1].x = 1] is not [<= new_x = -5]. *)
Lemma slide_from_negative_index :
  let w := negative_index_drag in
  let D := instance w 0%nat in
  let xydata := Artist.get_xydata ex_line in
  let pixels := (float_add 2 (-7), float_add 4 0) in
  let new_x := (identity_transform pixels).1 in
  strictly_increasing xydata.*1 = true
  ∧ Drag.button D = Some (BInt 2) ∧ Drag.xydata D = Some xydata
  ∧ Drag.drag_start_pixels D = Some (2, 4)%Q
  ∧ Drag.drag_trans_pix2dat D = Some identity_transform
  ∧ finite_floats [2; 4; -7; 0; pixels.1; pixels.2]%Q = true
  ∧ update_offset 0%nat (-7)%Q 0%Q w = Ret tt w
  ∧ Drag.index D = Some (-1)
  ∧ -1 ≠ 0
  ∧ py_index xydata (-1 - 1) w = Ret (1, 1)%Q w
  ∧ ¬ (1 <= new_x)%Q.
Proof.
  repeat split; try (vm_compute; reflexivity); try done.
  intros H. vm_compute in H. by apply H.
Qed.

(** * Further properties of the code *)

(** ** Presses, drags and releases *)

(** X1: [artist_picker] reports a hit exactly when the event's button is 1 or
    3, or is 2 on an instance that has both a line and an index, the cursor
    is inside the annotation's box and the drag lock is free; it then holds
    the lock and has recorded the button.  In every other case (a scroll
    event, a middle click on an annotation without line or index, a press
    outside the box, a lock that is held) it returns (False, None) and
    changes nothing.  The [artist] argument plays no part. *)
Theorem artist_picker_hit_iff (w : World) (d : did) (D : Drag.t) (a : oid)
    (event : MouseEvent.t) :
  draggables w !! d = Some D →
  let b := MouseEvent.button event in
  let pressed :=
    b = BInt 1 ∨ b = BInt 3 ∨ (b = BInt 2 ∧ Drag.line D ≠ None ∧ Drag.index D ≠ None) in
  let free := Drag.ref_artist D ∈ MouseEvent.hits event ∧ _drag_lock w = false in
  (pressed ∧ free →
   artist_picker d a event w =
   Ret (true, Some [])
       (with_draggables (alter (Drag.set_button b) d) (with_drag_lock true w)))
  ∧ (¬ (pressed ∧ free) → artist_picker d a event w = Ret (false, None) w).
Proof.
  intros HD b pressed free.
  unfold artist_picker, lock_acquire_nowait, bbox_contains, update_drag.
  rewrite bind_run, (self_drag_run _ _ D HD). fold b.
  assert (Hp : bool_decide (b ∈ [BInt 1; BInt 3])
               || bool_decide (b = BInt 2) && bool_decide (Drag.line D ≠ None)
                  && bool_decide (Drag.index D ≠ None) = true ↔ pressed).
  { unfold pressed. rewrite orb_true_iff, !andb_true_iff, !bool_decide_eq_true.
    rewrite !elem_of_cons, elem_of_nil. tauto. }
  split.
  - intros [Hpr [Hhit Hl]]. rewrite (proj2 Hp Hpr). cbn [fst].
    rewrite bool_decide_true by done. repeat mstep. rewrite Hl. by repeat mstep.
  - intros Hno.
    destruct (bool_decide (b ∈ [BInt 1; BInt 3]) || _) eqn:Hel; [|done].
    cbn [fst].
    destruct (bool_decide (Drag.ref_artist D ∈ MouseEvent.hits event)) eqn:Hhit; [|done].
    apply bool_decide_eq_true in Hhit.
    repeat mstep. destruct (_drag_lock w) eqn:Hl; repeat mstep; [done|].
    destruct Hno. split; [by apply Hp|done].
Qed.

Lemma save_offset_left_run (w : World) (self : did) (D : Drag.t) (A : Annot.t)
    (O : Artist.t) :
  draggables w !! self = Some D →
  Drag.button D = Some (BInt 1) →
  annots w !! Drag.ref_artist D = Some A →
  objs w !! Drag.ref_artist D = Some O →
  save_offset self w =
  Ret tt (with_draggables
            (alter (λ D, Drag.set_drag_trans_mat (Artist.points_per_pixel O)
                           (Drag.set_drag_start_text_points (Annot.position A) D)) self) w).
Proof.
  intros HD Hb HA HO. unfold save_offset, update_drag.
  rewrite bind_run, (self_drag_run _ _ D HD), Hb. repeat mstep.
  rewrite decide_True by done.
  rewrite bind_run. erewrite annot_get_run by lk. repeat mstep.
  erewrite member_obj by lk. repeat mstep.
  f_equal. apply world_ext; wsimpl; try done.
  by rewrite list_alter_alter_eq.
Qed.

(** Sums and products are rounded: [0.7 + -0.1] is the float 0.6, which
    the sum of the two fractions is below, [20 + 1 * 0.72] is the float
    20.72, which is not the fraction 2072/100, and an integer beyond 2^53
    is rounded to an even neighbour. *)
Example float_arithmetic_rounds :
  float_add float_0_7 float_minus_0_1 = float_0_6
  ∧ (float_0_7 + float_minus_0_1 < float_0_6)%Q
  ∧ float_add 20 (float_mul 1 float_0_72) = Qmake 729020189680599 35184372088832
  ∧ ¬ (float_add 20 (float_mul 1 float_0_72) == Qmake 2072 100)%Q
  ∧ binary64 (inject_Z (2 ^ 53 + 1)) = inject_Z (2 ^ 53)
  ∧ binary64 (inject_Z (2 ^ 53 + 3)) = inject_Z (2 ^ 53 + 4).
Proof. repeat split; try (vm_compute; reflexivity). intros H. vm_compute in H. discriminate H. Qed.

(** Dragged by -0.1 pixels from the point at 0.7, the annotation stays at
    index 1: the target is the float 0.6, the abscissa of the first point,
    and not a number below it. *)
Example slide_to_rounded_target :
  Drag.drag_start_pixels (instance float_middle_drag 0%nat) = Some (float_0_7, 1%Q)
  ∧ Drag.index (instance float_middle_drag 0%nat) = Some 1
  ∧ update_offset 0%nat float_minus_0_1 0%Q float_middle_drag = Ret tt float_middle_drag.
Proof. repeat split; vm_compute; reflexivity. Qed.

(** One pixel to the right at 100 dots per inch. *)
Example left_drag_rounded_position :
  ∃ w', (save_offset 0%nat;; update_offset 0%nat 1%Q 0%Q) float_left_drag = Ret tt w'
        ∧ Annot.position <$> annots w' !! 4%nat
          = Some (Qmake 729020189680599 35184372088832, 20%Q).
Proof. eexists. split; vm_compute; reflexivity. Qed.

(** Rounding reads its argument in lowest terms only. *)
Lemma binary64_Qeq (x y : Q) : (x == y)%Q → binary64 x = binary64 y.
Proof. intros H. unfold binary64. by rewrite (Qred_complete x y H). Qed.

Lemma float_mul_zero_l (a b : Q) : (a == 0)%Q → float_mul a b = 0%Q.
Proof.
  intros H. unfold float_mul. rewrite (binary64_Qeq a 0 H).
  apply (binary64_Qeq _ 0). change (binary64 0) with 0%Q. ring.
Qed.

Lemma float_add_zero_r (a : Q) : is_float a → (float_add a 0 == a)%Q.
Proof.
  intros H. unfold float_add. change (binary64 0) with 0%Q.
  rewrite (binary64_Qeq (binary64 a + 0)%Q a); [done|].
  rewrite Qplus_0_r. exact H.
Qed.

Lemma update_offset_left_run (w : World) (self : did) (D : Drag.t) (A : Annot.t)
    (p m : Q * Q) (dx dy : Q) :
  draggables w !! self = Some D →
  Drag.button D = Some (BInt 1) →
  Drag.drag_start_text_points D = Some p →
  Drag.drag_trans_mat D = Some m →
  annots w !! Drag.ref_artist D = Some A →
  update_offset self dx dy w =
  Ret tt (with_annots
            (alter (Annot.set_position (float_add p.1 (float_mul dx m.1),
                                        float_add p.2 (float_mul dy m.2)))
                   (Drag.ref_artist D)) w).
Proof.
  intros HD Hb Hp Hm HA. unfold update_offset.
  rewrite bind_run, (self_drag_run _ _ D HD), Hb, Hp, Hm. repeat mstep.
  rewrite decide_True by done. repeat mstep.
  by erewrite annot_update_run by lk.
Qed.

Lemma alter_as_insert {A} (f : A → A) (m : gmap nat A) (i : nat) (x : A) :
  m !! i = Some x → alter f i m = <[i := f x]> m.
Proof.
  intros H. apply map_eq. intros j. destruct (decide (i = j)) as [<-|Hne].
  - by rewrite lookup_alter_eq, lookup_insert_eq, H.
  - by rewrite lookup_alter_ne, lookup_insert_ne.
Qed.

(** X2: after [save_offset] on a left-button pick, [update_offset(dx, dy)]
    puts the text at the saved position plus [dx] and [dy] scaled by the
    diagonal of the inverted text transform, each product and each sum
    being the float that the code computes, rounded to binary64 and finite;
    it changes nothing else of the annotation: anchor and text stay.
    [save_offset] itself moves nothing, and an offset of zero gives back
    the saved position. *)
Theorem left_drag_moves_text (w : World) (self : did) (D : Drag.t) (A : Annot.t)
    (O : Artist.t) (dx dy : Q) :
  draggables w !! self = Some D →
  Drag.button D = Some (BInt 1) →
  annots w !! Drag.ref_artist D = Some A →
  objs w !! Drag.ref_artist D = Some O →
  let p := Annot.position A in
  let m := Artist.points_per_pixel O in
  let scaled := (float_mul dx m.1, float_mul dy m.2) in
  let p' := (float_add p.1 scaled.1, float_add p.2 scaled.2) in
  finite_floats [p.1; p.2; m.1; m.2; dx; dy; scaled.1; scaled.2; p'.1; p'.2] = true →
  ∃ w1 w2,
    save_offset self w = Ret tt w1
    ∧ annots w1 = annots w
    ∧ update_offset self dx dy w1 = Ret tt w2
    ∧ annots w2 = <[Drag.ref_artist D := Annot.set_position p' A]> (annots w)
    ∧ draggables w2 = draggables w1
    ∧ ((dx == 0)%Q → (dy == 0)%Q → is_float p.1 → is_float p.2 →
       (p'.1 == p.1)%Q ∧ (p'.2 == p.2)%Q).
Proof.
  intros HD Hb HA HO p m scaled p' _.
  eexists _, _. split; [by eapply save_offset_left_run|].
  split; [done|]. split.
  - eapply (update_offset_left_run _ self _ A p m).
    + simpl. by rewrite list_lookup_alter_eq, HD.
    + by destruct D.
    + by destruct D.
    + by destruct D.
    + simpl. by destruct D.
  - simpl. split; [|split; [done|]].
    + rewrite (alter_as_insert _ _ _ A) by (by destruct D). by destruct D.
    + intros Hx Hy Hp1 Hp2. unfold p', scaled. cbn [fst snd].
      rewrite (float_mul_zero_l dx) by done. rewrite (float_mul_zero_l dy) by done.
      split; by apply float_add_zero_r.
Qed.

(** X3: [dx] and [dy] are total offsets from where the drag started: an
    update after an earlier update of the same left-button drag leaves the
    store that the later update alone would leave. *)
Theorem left_drag_not_cumulative (w : World) (self : did) (D : Drag.t) (A : Annot.t)
    (O : Artist.t) (dx1 dy1 dx2 dy2 : Q) :
  draggables w !! self = Some D →
  Drag.button D = Some (BInt 1) →
  annots w !! Drag.ref_artist D = Some A →
  objs w !! Drag.ref_artist D = Some O →
  ∃ w',
    (save_offset self;; update_offset self dx1 dy1;; update_offset self dx2 dy2) w
    = Ret tt w'
    ∧ (save_offset self;; update_offset self dx2 dy2) w = Ret tt w'.
Proof.
  intros HD Hb HA HO.
  set (p := Annot.position A). set (m := Artist.points_per_pixel O).
  set (D1 := Drag.set_drag_trans_mat m (Drag.set_drag_start_text_points p D)).
  assert (Hupd : ∀ w1 A1 dx dy,
            draggables w1 !! self = Some D1 → annots w1 !! Drag.ref_artist D = Some A1 →
            update_offset self dx dy w1 =
            Ret tt (with_annots
                      (alter (Annot.set_position (float_add p.1 (float_mul dx m.1),
                                                  float_add p.2 (float_mul dy m.2)))
                             (Drag.ref_artist D)) w1)).
  { intros w1 A1 dx dy HD1 HA1.
    rewrite (update_offset_left_run w1 self D1 A1 p m); try done; by destruct D. }
  eexists. rewrite !(bind_run (save_offset self)).
  rewrite (save_offset_left_run w self D A O) by done. fold p m.
  set (w1 := with_draggables _ w).
  assert (HD1 : draggables w1 !! self = Some D1)
    by (unfold w1; simpl; by rewrite list_lookup_alter_eq, HD).
  rewrite bind_run, (Hupd w1 A dx1 dy1), (Hupd w1 A dx2 dy2) by done.
  erewrite (Hupd _ _ dx2 dy2); [|done|simpl; by rewrite lookup_alter_eq, HA].
  split; [|done]. f_equal. apply world_ext; wsimpl; try done.
  apply map_eq. intros j. destruct (decide (Drag.ref_artist D = j)) as [<-|Hne].
  - rewrite !lookup_alter_eq. unfold w1. wsimpl. by rewrite HA.
  - by rewrite !lookup_alter_ne.
Qed.

(** X4: with the right button [save_offset] and [update_offset] do nothing,
    so a right-button drag, however far the mouse moves, amounts to
    [remove]. *)
Theorem right_drag_only_deletes (w : World) (self : did) (D : Drag.t) (dx dy : Q) :
  draggables w !! self = Some D →
  Drag.button D = Some (BInt 3) →
  save_offset self w = Ret tt w
  ∧ update_offset self dx dy w = Ret tt w
  ∧ (save_offset self;; update_offset self dx dy;; finalize_offset self) w = remove self w.
Proof.
  intros HD Hb.
  assert (Hs : save_offset self w = Ret tt w).
  { unfold save_offset. rewrite bind_run, (self_drag_run _ _ D HD), Hb. by repeat mstep. }
  assert (Hu : update_offset self dx dy w = Ret tt w).
  { unfold update_offset. rewrite bind_run, (self_drag_run _ _ D HD), Hb. by repeat mstep. }
  split; [done|]. split; [done|].
  rewrite bind_run, Hs, bind_run, Hu.
  by rewrite (finalize_offset_run w self D (BInt 3)).
Qed.

(** X5: [finalize_offset] after a left-button drag, or after a drag with
    any button other than 2 and 3, changes nothing; after a middle-button
    drag it prints the line's label, the index and the annotation text, and
    does nothing else, when the instance has a formatter, and does nothing
    at all when it has none (the annotation was given its text by hand). *)
Theorem release_prints_with_formatter (w : World) (self : did) (D : Drag.t) (b : Button) :
  draggables w !! self = Some D →
  Drag.button D = Some b →
  (b ≠ BInt 2 → b ≠ BInt 3 → finalize_offset self w = Ret tt w)
  ∧ (b = BInt 2 → Drag.formatter D = None → finalize_offset self w = Ret tt w)
  ∧ (b = BInt 2 → Drag.formatter D ≠ None →
     ∀ l L A, Drag.line D = Some l → objs w !! l = Some L →
              annots w !! Drag.ref_artist D = Some A →
              finalize_offset self w =
              Ret tt (with_call (print_annotation_text (Artist.get_label L) (Drag.index D)
                                   (Annot.text A)) w)).
Proof.
  intros HD Hb. rewrite (finalize_offset_run w self D b HD Hb). split; [|split].
  - intros H2 H3. rewrite (bool_decide_false (b = BInt 2)) by done.
    by rewrite decide_False.
  - intros -> ->. rewrite (bool_decide_false (_ ≠ _)) by (intros H; by apply H).
    by rewrite andb_false_r.
  - intros -> Hf l L A Hl HL HA. rewrite !bool_decide_true by done. simpl.
    by apply (print_annotation_run w self D l L A).
Qed.

Lemma slide_index_fixed (xs : list (Q * Q)) (new_x : Q) (k : nat) (w : World) :
  (k < length xs)%nat →
  (k = 0%nat ∨ ∃ p, xs !! (k - 1)%nat = Some p ∧ (p.1 <= new_x)%Q) →
  (k = (length xs - 1)%nat ∨ ∃ p, xs !! S k = Some p ∧ (new_x <= p.1)%Q) →
  slide_index xs new_x (Z.of_nat k) w = Ret (Z.of_nat k) w.
Proof.
  intros Hk Hl Hr. unfold slide_index. rewrite bind_run.
  assert (Hleft : ∀ fuel, move_left (S fuel) xs new_x (Z.of_nat k) w = Ret (Z.of_nat k) w).
  { intros fuel. cbn [move_left]. destruct Hl as [->|(p & Hp & Hle)]; [done|].
    destruct k as [|k]; [done|].
    rewrite (proj2 (Z.ltb_lt 0 (Z.of_nat (S k)))) by lia.
    replace (Z.of_nat (S k) - 1) with (Z.of_nat k) by lia.
    replace (S k - 1)%nat with k in Hp by lia.
    rewrite bind_run, (py_index_run _ _ _ _ Hp).
    by rewrite (proj2 (Qltb_false _ _) Hle). }
  rewrite Hleft. cbn [move_right].
  destruct Hr as [->|(p & Hp & Hle)].
  - rewrite (proj2 (Z.ltb_ge _ _)) by lia. done.
  - pose proof (lookup_lt_Some _ _ _ Hp).
    rewrite (proj2 (Z.ltb_lt _ _)) by lia.
    replace (Z.of_nat k + 1) with (Z.of_nat (S k)) by lia.
    rewrite bind_run, (py_index_run _ _ _ _ Hp).
    by rewrite (proj2 (Qltb_false _ _) Hle).
Qed.

Lemma update_offset_middle_run (w : World) (self : did) (D : Drag.t) (xs : list (Q * Q))
    (start : Q * Q) (pix2dat : Q * Q → Q * Q) (i0 : Z) (dx dy : Q) :
  draggables w !! self = Some D →
  Drag.button D = Some (BInt 2) →
  Drag.xydata D = Some xs →
  Drag.drag_start_pixels D = Some start →
  Drag.drag_trans_pix2dat D = Some pix2dat →
  Drag.index D = Some i0 →
  update_offset self dx dy w =
  (index ← slide_index xs (pix2dat (float_add start.1 dx, float_add start.2 dy)).1 i0;
   if decide (index ≠ i0) then
     row ← py_index xs index;
     annot_update (Annot.set_xy row) (Drag.ref_artist D);;
     update_drag self (Drag.set_index (Some index));;
     match Drag.formatter D with
     | Some f =>
         annot_update (Annot.set_text (TFmt f (Drag.line D) (Some index)))
                      (Drag.ref_artist D)
     | None => mret tt
     end
   else mret tt) w.
Proof.
  intros HD Hb Hxs Hstart Hpix Hidx. unfold update_offset.
  rewrite bind_run, (self_drag_run _ _ D HD), Hb, Hpix, Hstart, Hidx, Hxs.
  repeat mstep. rewrite decide_False by done. rewrite decide_True by done.
  by repeat mstep.
Qed.

(** X6: a middle-button update whose target abscissa lies between the
    abscissas of the two neighbours of the current point (or beyond the
    first or the last point when the annotation sits there) moves nothing;
    the data need not be sorted for that. *)
Theorem slide_stays_between_neighbours (w : World) (self : did) (D : Drag.t)
    (xs : list (Q * Q)) (start : Q * Q) (pix2dat : Q * Q → Q * Q) (k : nat) (dx dy : Q) :
  draggables w !! self = Some D →
  Drag.button D = Some (BInt 2) →
  Drag.xydata D = Some xs →
  Drag.drag_start_pixels D = Some start →
  Drag.drag_trans_pix2dat D = Some pix2dat →
  Drag.index D = Some (Z.of_nat k) →
  (k < length xs)%nat →
  let new_x := (pix2dat (float_add start.1 dx, float_add start.2 dy)).1 in
  (k = 0%nat ∨ ∃ p, xs !! (k - 1)%nat = Some p ∧ (p.1 <= new_x)%Q) →
  (k = (length xs - 1)%nat ∨ ∃ p, xs !! S k = Some p ∧ (new_x <= p.1)%Q) →
  update_offset self dx dy w = Ret tt w.
Proof.
  intros HD Hb Hxs Hstart Hpix Hidx Hk new_x Hl Hr.
  rewrite (update_offset_middle_run w self D xs start pix2dat (Z.of_nat k)) by done.
  fold new_x. rewrite bind_run, slide_index_fixed by done.
  by rewrite decide_False by (intros H; by apply H).
Qed.

(** X7: on a line with strictly increasing x-data and an index in range, a
    middle-button update returns, and the same update repeated (the mouse
    has not moved) changes nothing more. *)
Theorem slide_update_idempotent (w : World) (self : did) (D : Drag.t) (xs : list (Q * Q))
    (start : Q * Q) (pix2dat : Q * Q → Q * Q) (i0 : Z) (dx dy : Q) (A : Annot.t) :
  draggables w !! self = Some D →
  Drag.button D = Some (BInt 2) →
  Drag.xydata D = Some xs →
  Drag.drag_start_pixels D = Some start →
  Drag.drag_trans_pix2dat D = Some pix2dat →
  Drag.index D = Some i0 →
  annots w !! Drag.ref_artist D = Some A →
  strictly_increasing xs.*1 = true →
  0 ≤ i0 < Z.of_nat (length xs) →
  ∃ w1, update_offset self dx dy w = Ret tt w1
        ∧ update_offset self dx dy w1 = Ret tt w1.
Proof.
  intros HD Hb Hxs Hstart Hpix Hidx HA Hinc Hrange.
  set (new_x := (pix2dat (float_add start.1 dx, float_add start.2 dy)).1).
  destruct (slide_index_run xs new_x (Z.to_nat i0) w) as (k & Hk & Hlt & Hcond); [lia|].
  rewrite Z2Nat.id in Hk by lia.
  destruct (lookup_lt_is_Some_2 xs k Hlt) as [row Hrow].
  destruct (Hcond Hinc) as [Hl Hr].
  assert (Hfix : ∀ w1 D1,
            draggables w1 !! self = Some D1 → Drag.button D1 = Some (BInt 2) →
            Drag.xydata D1 = Some xs → Drag.drag_start_pixels D1 = Some start →
            Drag.drag_trans_pix2dat D1 = Some pix2dat → Drag.index D1 = Some (Z.of_nat k) →
            update_offset self dx dy w1 = Ret tt w1).
  { intros w1 D1 HD1 Hb1 Hxs1 Hstart1 Hpix1 Hidx1.
    rewrite (update_offset_middle_run w1 self D1 xs start pix2dat (Z.of_nat k)) by done.
    fold new_x. rewrite bind_run, slide_index_fixed by done.
    by rewrite decide_False by (intros H; by apply H). }
  rewrite (update_offset_middle_run w self D xs start pix2dat i0) by done.
  fold new_x. rewrite bind_run, Hk.
  destruct (decide (Z.of_nat k = i0)) as [Heq|Hne].
  - rewrite decide_False by (intros H; by apply H). exists w. split; [done|].
    apply (Hfix w D); try done. by rewrite Heq.
  - rewrite decide_True by done.
    rewrite bind_run, (py_index_run _ _ _ _ Hrow).
    rewrite bind_run, (annot_update_run _ _ _ A HA).
    unfold update_drag. rewrite bind_run, modify_run.
    assert (Hw1 : ∃ w1, (match Drag.formatter D with
                         | Some f =>
                             annot_update
                               (Annot.set_text (TFmt f (Drag.line D) (Some (Z.of_nat k))))
                               (Drag.ref_artist D)
                         | None => mret tt
                         end)
                          (with_draggables (alter (Drag.set_index (Some (Z.of_nat k))) self)
                             (with_annots (alter (Annot.set_xy row) (Drag.ref_artist D)) w))
                        = Ret tt w1
                        ∧ draggables w1
                          = alter (Drag.set_index (Some (Z.of_nat k))) self (draggables w)).
    { destruct (Drag.formatter D) as [f|].
      - eexists. split; [|shelve].
        erewrite annot_update_run; [done|]. simpl. by rewrite lookup_alter_eq, HA.
        Unshelve. done.
      - by eexists. }
    destruct Hw1 as (w1 & -> & Hd1). exists w1. split; [done|].
    apply (Hfix w1 (Drag.set_index (Some (Z.of_nat k)) D)); try (by destruct D).
    by rewrite Hd1, list_lookup_alter_eq, HD.
Qed.

(** Reading a sequence and running the two loops change nothing. *)
Lemma preserves_py_index {A} (P : World → Prop) (l : list A) (i : Z) :
  preserves P (py_index l i).
Proof. unfold py_index. pres. Qed.

Lemma preserves_move_left (P : World → Prop) (fuel : nat) (xs : list (Q * Q)) (x : Q)
    (i : Z) :
  preserves P (move_left fuel xs x i).
Proof.
  revert i. induction fuel as [|fuel IH]; intros i; simpl; [by intros w Hw|].
  destruct (0 <? i); [|apply preserves_ret].
  apply preserves_bind; [apply preserves_py_index|]. intros p.
  destruct (Qltb x p.1); [apply IH|apply preserves_ret].
Qed.

Lemma preserves_move_right (P : World → Prop) (fuel : nat) (xs : list (Q * Q)) (x : Q)
    (i : Z) :
  preserves P (move_right fuel xs x i).
Proof.
  revert i. induction fuel as [|fuel IH]; intros i; simpl; [by intros w Hw|].
  destruct (i <? Z.of_nat (length xs) - 1); [|apply preserves_ret].
  apply preserves_bind; [apply preserves_py_index|]. intros p.
  destruct (Qltb p.1 x); [apply IH|apply preserves_ret].
Qed.

Lemma preserves_slide_index (P : World → Prop) (xs : list (Q * Q)) (x : Q) (i : Z) :
  preserves P (slide_index xs x i).
Proof.
  unfold slide_index. apply preserves_bind; [apply preserves_move_left|].
  intros j. apply preserves_move_right.
Qed.

Lemma preserves_annot_update (P : World → Prop) (f : Annot.t → Annot.t) (a : oid) :
  (∀ w, P w → P (with_annots (alter f a) w)) → preserves P (annot_update f a).
Proof.
  intros Hf. unfold annot_update, annot_get. pres. by apply preserves_modify.
Qed.

Lemma text_alter_same (m : gmap nat Annot.t) (f : Annot.t → Annot.t) (a b : oid) :
  (∀ x, Annot.text (f x) = Annot.text x) →
  Annot.text <$> alter f a m !! b = Annot.text <$> m !! b.
Proof.
  intros Hf. destruct (decide (a = b)) as [<-|Hne].
  - rewrite lookup_alter_eq. destruct (m !! a); simpl; [|done]. by rewrite Hf.
  - by rewrite lookup_alter_ne.
Qed.

(** X8: an annotation made through [AnnotationPicker.annotate] with a text
    of the caller's carries that text and an instance without formatter;
    and no [update_offset] on an instance without formatter changes the text
    of any annotation, whatever the button, even when the annotation slides
    to another point, and whether the update returns or raises. *)
Theorem manual_text_is_kept :
  (∀ (w : World) (p : pid) (P : Picker.t) (line : oid) (index : Z) (s : string)
     (ax c : oid) (L AX : Artist.t) (r : Registry.t) (xy : Q * Q),
     controllers w !! p = Some P →
     plotted w line = Some (ax, c) →
     objs w !! line = Some L →
     objs w !! ax = Some AX →
     registries w !! c = Some r →
     0 ≤ index →
     Artist.get_xydata L !! Z.to_nat index = Some xy →
     ∃ w' D A,
       AnnotationPicker_annotate p line index (Some s) w = Ret (length (draggables w)) w'
       ∧ draggables w' !! length (draggables w) = Some D
       ∧ Drag.formatter D = None
       ∧ annots w' !! Drag.ref_artist D = Some A
       ∧ Annot.text A = TStr s)
  ∧ (∀ (w : World) (self : did) (D : Drag.t) (dx dy : Q),
       draggables w !! self = Some D →
       Drag.formatter D = None →
       ∀ a, Annot.text <$> annots (world_after w (update_offset self dx dy w)) !! a
            = Annot.text <$> annots w !! a).
Proof.
  split.
  - intros w p P line index s ax c L AX r xy HP Hpl HL HAX Hr Hidx Hxy.
    eexists _, _, _. split; [by eapply AnnotationPicker_annotate_run|].
    unfold annotated. simpl. split; [apply lookup_snoc|]. split; [done|]. simpl.
    split; [apply lookup_insert_eq|done].
  - intros w self D dx dy HD Hf.
    unfold update_offset. rewrite bind_run, (self_drag_run _ _ D HD). rewrite Hf.
    set (P := λ w', ∀ a, Annot.text <$> annots w' !! a = Annot.text <$> annots w !! a).
    match goal with |- context [world_after w (?m w)] => assert (Hp : preserves P m) end.
    { unfold update_drag.
      repeat first
        [ apply preserves_ret | apply preserves_raise | apply preserves_gets
        | apply preserves_unwrap | apply preserves_slide_index | apply preserves_py_index
        | apply preserves_annot_update; unfold P; intros ? Hkeep ?; simpl;
          rewrite text_alter_same by (by intros []); apply Hkeep
        | apply preserves_modify; unfold P; intros ? Hkeep ?; apply Hkeep
        | apply preserves_bind; [|intros ?]
        | match goal with |- preserves _ (if ?b then _ else _) => destruct b end ]. }
    specialize (Hp w (λ a, eq_refl)).
    match goal with |- context [world_after w ?o] => destruct o end; done.
Qed.

(** ** Connecting and disconnecting the canvas callbacks *)

Lemma disable_callbacks_run (w : World) (canvas : PyVal) (c : oid) (l : list nat)
    (r : Registry.t) :
  disable_target w canvas = Some (PyObj c) →
  attrs w !! c = Some (Callbacks l) →
  registries w !! c = Some r →
  disable_callbacks canvas w =
  Ret tt (with_call (print_str "AnnotationPicker callback removed from canvas.")
            (with_attrs (delete c)
               (with_registries
                  <[c := Registry.mk (Registry.next_cid r)
                           (filter (λ cb, cb.1 ∉ l) (Registry.callbacks r))]> w))).
Proof.
  intros Ht Hattr Hr. unfold disable_callbacks, disable_target in *.
  rewrite bind_run, isinstance_run.
  assert (Hc : (if bool_decide (kind_of w canvas = Some Figure)
                then getattr Artist.canvas canvas else mret canvas) w = Ret (PyObj c) w).
  { case_bool_decide; [by rewrite getattr_run, Ht|by simplify_eq]. }
  rewrite bind_run, Hc, bind_run, gets_run. cbn [attr_lookup]. rewrite Hattr.
  cbn [default from_option id].
  rewrite bind_run, (disconnect_all_run l c w r Hr).
  unfold delattr_attr_name, print. repeat mstep. cbn [attr_lookup]. wsimpl.
  rewrite Hattr. by repeat mstep.
Qed.

(** X9: [disable_callbacks] on a canvas, or on its figure, that carries the
    list of callback ids disconnects exactly the callbacks with those ids,
    removes the attribute from the canvas and prints one line.  Every other
    callback of the canvas stays connected, so existing annotations can
    still be dragged, and the attributes of the artists, the pickers and
    the controllers are left as they were. *)
Theorem disable_disconnects_stored_ids (w : World) (canvas : PyVal) (c : oid)
    (l : list nat) (r : Registry.t) :
  disable_target w canvas = Some (PyObj c) →
  attrs w !! c = Some (Callbacks l) →
  registries w !! c = Some r →
  ∃ w' r',
    disable_callbacks canvas w = Ret tt w'
    ∧ registries w' = <[c := r']> (registries w)
    ∧ (∀ cb, cb ∈ Registry.callbacks r' ↔ cb ∈ Registry.callbacks r ∧ cb.1 ∉ l)
    ∧ attrs w' = delete c (attrs w)
    ∧ pickers w' = pickers w ∧ controllers w' = controllers w
    ∧ draggables w' = draggables w ∧ annots w' = annots w
    ∧ calls w' = calls w ++ [print_str "AnnotationPicker callback removed from canvas."].
Proof.
  intros Ht Hattr Hr. eexists _, _. split; [by eapply disable_callbacks_run|].
  wsimpl. split; [done|]. split; [|done].
  intros cb. cbn [Registry.callbacks]. rewrite list_elem_of_filter. tauto.
Qed.

Lemma filter_all_in {A} (P : A → Prop) `{∀ x, Decision (P x)} (l : list A) :
  (∀ x, x ∈ l → P x) → filter P l = l.
Proof.
  intros HP. induction l as [|x l IH]; [done|].
  rewrite filter_cons_True by (apply HP; by left).
  rewrite IH; [done|]. intros y Hy. apply HP. by right.
Qed.

Lemma disable_callbacks_absent (w : World) (canvas target : PyVal) :
  disable_target w canvas = Some target →
  attr_lookup w target = None →
  disable_callbacks canvas w = Exc AttributeError w.
Proof.
  intros Ht Hattr. unfold disable_callbacks, disable_target in *.
  rewrite bind_run, isinstance_run.
  assert (Hc : (if bool_decide (kind_of w canvas = Some Figure)
                then getattr Artist.canvas canvas else mret canvas) w = Ret target w).
  { case_bool_decide; [by rewrite getattr_run, Ht|by simplify_eq]. }
  rewrite bind_run, Hc, bind_run, gets_run, Hattr. cbn [default from_option id for_each].
  unfold delattr_attr_name. repeat mstep. rewrite Hattr. repeat mstep.
  by destruct target.
Qed.

(** X10: on a canvas without the attribute whose registry has only handed
    out ids below its next one, [enable_callbacks] followed by
    [disable_callbacks] restores the callbacks and the attributes: the
    store differs only in the two used-up ids and the printed line.  A
    second [disable_callbacks] then raises AttributeError and changes
    nothing. *)
Theorem enable_disable_round_trip (w : World) (artist handle : PyVal) (c : oid)
    (r : Registry.t) :
  canvas_target w artist = Some (PyObj c) →
  disable_target w handle = Some (PyObj c) →
  registries w !! c = Some r →
  attrs w !! c = None →
  (∀ cb, cb ∈ Registry.callbacks r → (cb.1 < Registry.next_cid r)%nat) →
  ∃ w1 w2,
    enable_callbacks artist w = Ret tt w1
    ∧ disable_callbacks handle w1 = Ret tt w2
    ∧ w2 = with_call (print_str "AnnotationPicker callback removed from canvas.")
             (with_registries
                <[c := Registry.mk (S (S (Registry.next_cid r))) (Registry.callbacks r)]> w)
    ∧ disable_callbacks handle w2 = Exc AttributeError w2.
Proof.
  intros Hc Ht Hr Hnone Hfresh.
  set (n := Registry.next_cid r).
  eexists _, _. split; [by apply enable_callbacks_fresh|]. fold n.
  split; [|split; [reflexivity|]].
  - erewrite disable_callbacks_run;
      [|exact Ht|simpl; apply lookup_insert_eq|simpl; apply lookup_insert_eq].
    f_equal. apply world_ext; wsimpl; try done.
    + rewrite delete_insert_eq. by apply delete_id.
    + rewrite insert_insert_eq. f_equal. f_equal. cbn [Registry.callbacks].
      rewrite filter_app. rewrite (filter_all_in _ (Registry.callbacks r)).
      * rewrite filter_cons_False, filter_cons_False, filter_nil, app_nil_r; [done|..];
          simpl; rewrite !not_elem_of_cons; tauto.
      * intros cb Hcb. specialize (Hfresh cb Hcb). fold n in Hfresh.
        rewrite !not_elem_of_cons. split; [lia|]. split; [lia|]. apply not_elem_of_nil.
  - eapply disable_callbacks_absent; [exact Ht|]. exact Hnone.
Qed.

(** ** Attaching a controller *)

Lemma set_pickers_run (lines : list oid) (v : PickerVal) (w : World) :
  for_each lines (λ line, set_picker line v) w =
  Ret tt (with_pickers (λ pk, foldl (λ pk l, <[l := v]> pk) pk lines) w).
Proof.
  revert w. induction lines as [|l lines IH]; intros w.
  - simpl. rewrite mret_run. f_equal. by destruct w.
  - cbn [for_each]. rewrite bind_run.
    change (set_picker l v w) with (Ret tt (with_pickers <[l := v]> w)).
    cbn beta iota. by rewrite IH.
Qed.

Lemma lookup_set_pickers (lines : list oid) (v : PickerVal) (pk : gmap nat PickerVal)
    (l : oid) :
  foldl (λ pk l, <[l := v]> pk) pk lines !! l
  = if bool_decide (l ∈ lines) then Some v else pk !! l.
Proof.
  revert pk. induction lines as [|x lines IH]; intros pk; [done|].
  simpl. rewrite IH. destruct (decide (l ∈ lines)) as [Hin|Hnin].
  - rewrite !bool_decide_true; [done| |done]. by right.
  - rewrite (bool_decide_false (l ∈ lines)) by done.
    destruct (decide (x = l)) as [->|Hne].
    + rewrite lookup_insert_eq. rewrite bool_decide_true; [done|by left].
    + rewrite lookup_insert_ne by done. rewrite bool_decide_false; [done|].
      rewrite not_elem_of_cons. by split.
Qed.

Lemma unpickable_lines_run (w : World) (ax : oid) (AX : Artist.t) :
  objs w !! ax = Some AX →
  unpickable_lines ax w
  = Ret (filter (λ line, pickable w line = false) (Artist.get_lines AX)) w.
Proof.
  intros HAX. unfold unpickable_lines.
  by rewrite bind_run, getattr_run, (member_obj _ _ _ AX HAX), gets_run.
Qed.

Lemma figure_lines_run (w : World) (axs : list oid) :
  Forall (λ ax, is_Some (objs w !! ax)) axs →
  foldr (λ ax acc, l ← unpickable_lines ax; r ← acc; mret (l ++ r)) (mret []) axs w
  = Ret (lines_to_enable w axs) w.
Proof.
  induction 1 as [|ax axs [AX HAX] _ IH]; [done|].
  cbn [foldr]. rewrite bind_run, (unpickable_lines_run _ _ AX HAX), bind_run, IH, mret_run.
  unfold lines_to_enable. cbn. by rewrite HAX.
Qed.

Lemma apply_figure_run (w : World) (self : pid) (P : Picker.t) (fig : oid) (FIG : Artist.t)
    (axs : list oid) :
  controllers w !! self = Some P →
  objs w !! fig = Some FIG →
  Artist.kind FIG = Figure →
  Artist.get_axes FIG = Some (PyList axs) →
  Forall (λ ax, is_Some (objs w !! ax)) axs →
  AnnotationPicker_apply self (Single (PyObj fig)) w =
  enable_callbacks (PyObj fig)
    (with_pickers
       (λ pk, foldl (λ pk l, <[l := PTolerance (Picker.tolerance P)]> pk) pk
                (lines_to_enable w axs))
       (with_attrs <[fig := Controller self]> w)).
Proof.
  intros HP HF Hk Hax Hall.
  unfold AnnotationPicker_apply, and_then, setattr_attr_name.
  cbn [_make_iterable for_each last].
  assert (Hkind : ∀ w0, objs w0 = objs w → kind_of w0 (PyObj fig) = Some Figure).
  { intros w0 Hw0. unfold kind_of, obj_of. by rewrite Hw0, HF; simpl; rewrite Hk. }
  repeat first [ mstep | rewrite Hkind by done | rewrite bool_decide_true by done
               | rewrite bool_decide_false by done ].
  erewrite member_obj by (wsimpl; exact HF). rewrite Hax. repeat mstep.
  rewrite figure_lines_run by (wsimpl; exact Hall).
  repeat mstep. rewrite (self_picker_run _ _ P) by (wsimpl; exact HP).
  rewrite set_pickers_run. by repeat mstep.
Qed.

Lemma canvas_target_figure (w : World) (fig c : oid) (FIG : Artist.t) :
  objs w !! fig = Some FIG → Artist.kind FIG = Figure →
  Artist.canvas FIG = Some (PyObj c) →
  canvas_target w (PyObj fig) = Some (PyObj c).
Proof.
  intros HF Hk Hc. unfold canvas_target, kind_of, obj_of. rewrite HF. simpl. rewrite Hk.
  rewrite bool_decide_true by done. by rewrite (member_obj _ _ _ FIG HF).
Qed.

Lemma pickable_has_picker (w : World) (l : oid) :
  pickable w l = true → is_Some (pickers w !! l).
Proof.
  unfold pickable. destruct (objs w !! l) as [o|]; [|done].
  destruct (Artist.figure o) as [[| |]|]; try done. apply bool_decide_eq_true.
Qed.

Lemma elem_of_lines_to_enable (w : World) (axs : list oid) (l : oid) :
  l ∈ lines_to_enable w axs ↔
  ∃ ax AX, ax ∈ axs ∧ objs w !! ax = Some AX ∧ l ∈ Artist.get_lines AX
           ∧ pickable w l = false.
Proof.
  unfold lines_to_enable. rewrite list_elem_of_bind. split.
  - intros (ax & Hl & Hax). apply list_elem_of_filter in Hl as [Hp Hl].
    destruct (objs w !! ax) as [AX|] eqn:HAX; [|by apply elem_of_nil in Hl].
    by exists ax, AX.
  - intros (ax & AX & Hax & HAX & Hl & Hp). exists ax. split; [|done].
    apply list_elem_of_filter. rewrite HAX. done.
Qed.

Lemma apply_figure_spec (w : World) (self : pid) (P : Picker.t) (fig c : oid)
    (FIG : Artist.t) (axs : list oid) (r : Registry.t) :
  controllers w !! self = Some P →
  objs w !! fig = Some FIG →
  Artist.kind FIG = Figure →
  Artist.get_axes FIG = Some (PyList axs) →
  Forall (λ ax, is_Some (objs w !! ax)) axs →
  Artist.canvas FIG = Some (PyObj c) →
  registries w !! c = Some r →
  fig ≠ c →
  ∃ w',
    AnnotationPicker_apply self (Single (PyObj fig)) w = Ret tt w'
    ∧ attrs w' !! fig = Some (Controller self)
    ∧ (∀ l, pickers w' !! l =
            if bool_decide (l ∈ lines_to_enable w axs)
            then Some (PTolerance (Picker.tolerance P)) else pickers w !! l)
    ∧ (∀ ax AX l, ax ∈ axs → objs w !! ax = Some AX → l ∈ Artist.get_lines AX →
                  is_Some (pickers w' !! l))
    ∧ is_Some (attrs w' !! c)
    ∧ (attrs w !! c = None →
       connected w' (PyObj c) "pick_event" H_on_pick_event = true
       ∧ connected w' (PyObj c) "figure_enter_event" H_on_figure_enter_event = true)
    ∧ (∀ o, o ≠ fig → o ≠ c → attrs w' !! o = attrs w !! o)
    ∧ objs w' = objs w ∧ annots w' = annots w ∧ draggables w' = draggables w
    ∧ controllers w' = controllers w.
Proof.
  intros HP HF Hk Hax Hall Hc Hr Hne.
  rewrite (apply_figure_run w self P fig FIG axs) by done.
  set (v := PTolerance (Picker.tolerance P)).
  set (w1 := with_pickers _ _).
  assert (Hlines : ∀ l, pickers w1 !! l =
            if bool_decide (l ∈ lines_to_enable w axs) then Some v else pickers w !! l).
  { intros l. unfold w1. wsimpl. apply lookup_set_pickers. }
  assert (Hevery : ∀ pk : gmap nat PickerVal, (∀ l, pk !! l = pickers w1 !! l) →
            ∀ ax AX l, ax ∈ axs → objs w !! ax = Some AX → l ∈ Artist.get_lines AX →
                       is_Some (pk !! l)).
  { intros pk Hpk ax AX l Hin HAX Hl. rewrite Hpk, Hlines.
    destruct (pickable w l) eqn:Hp.
    - rewrite bool_decide_false; [by apply pickable_has_picker|].
      rewrite elem_of_lines_to_enable. intros (? & ? & ? & ? & ? & ?). congruence.
    - rewrite bool_decide_true; [done|]. apply elem_of_lines_to_enable. eauto 10. }
  assert (Htarget : canvas_target w1 (PyObj fig) = Some (PyObj c))
    by (by apply (canvas_target_figure _ _ _ FIG)).
  destruct (attrs w !! c) as [x|] eqn:Hattr.
  - exists w1. split.
    { apply (enable_callbacks_again _ _ c Htarget). unfold w1. wsimpl.
      rewrite lookup_insert_ne by done. rewrite Hattr. eauto. }
    split; [unfold w1; wsimpl; apply lookup_insert_eq|].
    split; [done|]. split; [by apply Hevery|].
    split; [unfold w1; wsimpl; rewrite lookup_insert_ne by done; rewrite Hattr; eauto|].
    split; [done|].
    split; [|done]. intros o Ho1 Ho2. unfold w1. wsimpl. by rewrite lookup_insert_ne.
  - eexists. split.
    { apply (enable_callbacks_fresh _ _ c r Htarget); unfold w1; wsimpl; [done|].
      by rewrite lookup_insert_ne. }
    wsimpl.
    split; [unfold w1; wsimpl; rewrite lookup_insert_ne by congruence;
            apply lookup_insert_eq|].
    split; [done|]. split; [by apply Hevery|].
    split; [rewrite lookup_insert_eq; eauto|].
    split.
    { intros _. unfold connected. wsimpl. rewrite lookup_insert_eq. cbn [Registry.callbacks].
      rewrite !bool_decide_eq_true, !fmap_app, !elem_of_app. cbn [fmap list_fmap snd].
      rewrite !elem_of_cons. tauto. }
    split; [|done]. intros o Ho1 Ho2. unfold w1. wsimpl.
    by rewrite !lookup_insert_ne by congruence.
Qed.

Lemma pickable_ext (w w' : World) (l : oid) :
  objs w' = objs w → pickers w' !! l = pickers w !! l → pickable w' l = pickable w l.
Proof. intros Ho Hp. unfold pickable. by rewrite Ho, Hp. Qed.

Lemma unpickable_lines_outcome (w : World) (ax : oid) :
  match unpickable_lines ax w with
  | Ret ls w' => w' = w ∧ Forall (λ l, pickable w l = false) ls
  | Exc _ w' => w' = w
  | Diverge => False
  end.
Proof.
  unfold unpickable_lines. rewrite bind_run, getattr_run.
  destruct (member w _ (PyObj ax)) as [ls|]; [|done].
  rewrite gets_run. split; [done|]. apply Forall_forall. intros l Hl.
  by apply list_elem_of_filter in Hl as [? _].
Qed.

Lemma figure_lines_outcome (w : World) (axs : list oid) :
  match foldr (λ ax acc, l ← unpickable_lines ax; r ← acc; mret (l ++ r)) (mret []) axs w
  with
  | Ret ls w' => w' = w ∧ Forall (λ l, pickable w l = false) ls
  | Exc _ w' => w' = w
  | Diverge => False
  end.
Proof.
  induction axs as [|ax axs IH]; [by split|].
  cbn [foldr]. rewrite bind_run.
  pose proof (unpickable_lines_outcome w ax) as H1.
  destruct (unpickable_lines ax w) as [l1 w1|e w1|]; [|done..].
  destruct H1 as [-> H1]. rewrite bind_run. revert IH.
  match goal with |- context [foldr ?f ?a axs w] => destruct (foldr f a axs w) as [l2 w2|e w2|] end;
    [|done..].
  intros [-> H2]. rewrite mret_run. split; [done|]. by apply Forall_app.
Qed.

Lemma apply_loop_frame_refl (self : pid) (artists : list PyVal) (w : World) :
  apply_loop_frame self artists w w.
Proof. unfold apply_loop_frame. repeat split; eauto. Qed.

Lemma apply_loop_frame_setattr (self : pid) (artists : list PyVal) (w w1 : World) (a : oid) :
  PyObj a ∈ artists →
  apply_loop_frame self artists w w1 →
  apply_loop_frame self artists w (with_attrs <[a := Controller self]> w1).
Proof.
  intros Hin (Ho & Ha & Hd & Hc & Hr & Hl & Hn & He & Hcl & Hpk & Hnew & Hat).
  unfold apply_loop_frame. wsimpl. repeat split; try done.
  intros o. destruct (decide (a = o)) as [<-|Hne].
  - right. by rewrite lookup_insert_eq.
  - rewrite lookup_insert_ne by done. apply Hat.
Qed.

Lemma apply_loop_frame_pickers (self : pid) (artists : list PyVal) (w w1 : World)
    (P : Picker.t) (ls : list oid) :
  controllers w1 !! self = Some P →
  Forall (λ l, pickable w1 l = false) ls →
  apply_loop_frame self artists w w1 →
  apply_loop_frame self artists w
    (with_pickers (λ pk, foldl (λ pk l, <[l := PTolerance (Picker.tolerance P)]> pk) pk ls)
       w1).
Proof.
  intros HP Hls (Ho & Ha & Hd & Hc & Hr & Hl & Hn & He & Hcl & Hpk & Hnew & Hat).
  unfold apply_loop_frame. wsimpl. repeat split; try done.
  - intros l Hp. rewrite lookup_set_pickers. rewrite bool_decide_false; [by apply Hpk|].
    intros Hin. rewrite Forall_forall in Hls. specialize (Hls l Hin).
    rewrite (pickable_ext w w1) in Hls; [congruence|done|by apply Hpk].
  - intros l v. rewrite lookup_set_pickers. case_bool_decide.
    + intros [= <-]. right. exists P. by rewrite <- Hc.
    + apply Hnew.
Qed.

Lemma canvas_target_ext (w w' : World) (a : PyVal) :
  objs w' = objs w → canvas_target w' a = canvas_target w a.
Proof.
  intros Ho. unfold canvas_target, kind_of, member, obj_of.
  destruct a as [|o|l]; try done. rewrite Ho.
  destruct (objs w !! o) as [x|]; simpl; [|done].
  destruct (Artist.get_figure x) as [[|f|]|]; simpl; try done.
Qed.

Lemma enable_callbacks_outcome (artist : PyVal) (w : World) :
  match enable_callbacks artist w with
  | Ret _ w' | Exc _ w' =>
      w' = w
      ∨ ∃ c r, canvas_target w artist = Some (PyObj c) ∧ registries w !! c = Some r
               ∧ attrs w !! c = None
               ∧ w' = with_attrs
                        <[c := Callbacks [Registry.next_cid r; S (Registry.next_cid r)]]>
                        (with_registries
                           <[c := Registry.mk (S (S (Registry.next_cid r)))
                                    (Registry.callbacks r ++
                                     [(Registry.next_cid r, ("pick_event", H_on_pick_event));
                                      (S (Registry.next_cid r),
                                       ("figure_enter_event", H_on_figure_enter_event))])]>
                           w)
  | Diverge => False
  end.
Proof.
  destruct (canvas_target w artist) as [t|] eqn:Ht.
  - destruct (attr_lookup w t) as [v|] eqn:Hv.
    + unfold enable_callbacks. rewrite bind_run, canvas_of_run, Ht.
      repeat mstep. rewrite Hv. repeat mstep. by left.
    + destruct t as [|c|l].
      * unfold enable_callbacks. rewrite bind_run, canvas_of_run, Ht. by left.
      * destruct (registries w !! c) as [r|] eqn:Hr.
        -- rewrite (enable_callbacks_fresh w artist c r) by done. right. eauto 10.
        -- unfold enable_callbacks, mpl_connect, registry_of.
           rewrite bind_run, canvas_of_run, Ht. repeat mstep. cbn [attr_lookup]. simpl in Hv.
           rewrite Hv. repeat mstep. cbn [negb]. repeat mstep. rewrite Hr. repeat mstep.
           by left.
      * unfold enable_callbacks. rewrite bind_run, canvas_of_run, Ht. by left.
  - unfold enable_callbacks. rewrite bind_run, canvas_of_run, Ht. by left.
Qed.

Lemma apply_frame (self : pid) (artists : ArtistsArg) (w : World) :
  match AnnotationPicker_apply self artists w with
  | Ret _ w' | Exc _ w' =>
      ∃ w1, apply_loop_frame self (_make_iterable artists) w w1
            ∧ (w' = w1
               ∨ ∃ a c r,
                   last (_make_iterable artists) = Some a
                   ∧ canvas_target w a = Some (PyObj c) ∧ registries w !! c = Some r
                   ∧ attrs w1 !! c = None
                   ∧ w' = with_attrs
                            <[c := Callbacks [Registry.next_cid r; S (Registry.next_cid r)]]>
                            (with_registries
                               <[c := Registry.mk (S (S (Registry.next_cid r)))
                                        (Registry.callbacks r ++
                                         [(Registry.next_cid r,
                                           ("pick_event", H_on_pick_event));
                                          (S (Registry.next_cid r),
                                           ("figure_enter_event",
                                            H_on_figure_enter_event))])]> w1))
  | Diverge => False
  end.
Proof.
  unfold AnnotationPicker_apply. set (l := _make_iterable artists).
  match goal with |- context [for_each l ?b] => set (body := b) end.
  assert (Hbody : ∀ a w1, a ∈ l → apply_loop_frame self l w w1 →
            match body a w1 with
            | Ret _ w2 | Exc _ w2 => apply_loop_frame self l w w2
            | Diverge => False
            end).
  { intros a w1 Hin Hfr. unfold body. destruct a as [|o|ls]; [done| |done].
    unfold setattr_attr_name, and_then. rewrite bind_run, modify_run.
    set (w2 := with_attrs _ w1).
    assert (Hfr2 : apply_loop_frame self l w w2) by (by apply apply_loop_frame_setattr).
    clearbody w2. clear Hfr w1.
    assert (Hfin : ∀ ls, Forall (λ l, pickable w2 l = false) ls →
              match (p ← self_picker self;
                     for_each ls (λ line, set_picker line (PTolerance (Picker.tolerance p))))
                      w2
              with
              | Ret _ w3 | Exc _ w3 => apply_loop_frame self l w w3
              | Diverge => False
              end).
    { intros ls Hls. unfold self_picker. repeat mstep.
      destruct (controllers w2 !! self) as [P|] eqn:HP; repeat mstep; [|done].
      rewrite set_pickers_run. by apply apply_loop_frame_pickers. }
    assert (Hfin' : ∀ ls, Forall (λ l, pickable w2 l = false) ls →
              match
                match self_picker self w2 with
                | Ret p w' =>
                    for_each ls (λ line, set_picker line (PTolerance (Picker.tolerance p))) w'
                | Exc e w' => Exc e w'
                | Diverge => Diverge
                end
              with
              | Ret _ w3 | Exc _ w3 => apply_loop_frame self l w w3
              | Diverge => False
              end).
    { intros ls Hls. specialize (Hfin ls Hls). by rewrite bind_run in Hfin. }
    destruct (kind_of w2 (PyObj o)) as [k|] eqn:Hkind.
    - destruct k;
        repeat first [ mstep | rewrite Hkind | rewrite bool_decide_true by done
                     | rewrite bool_decide_false by done ].
      + destruct (pickable w2 o) eqn:Hp; cbn [negb];
          repeat first [ mstep | rewrite Hkind | rewrite bool_decide_true by done
                       | rewrite bool_decide_false by done ].
        * by apply Hfin'.
        * apply Hfin'. by repeat constructor.
      + pose proof (unpickable_lines_outcome w2 o) as Hl.
        revert Hl. destruct (unpickable_lines o w2) as [ls w3|e w3|]; [|by intros ->|done].
        intros [-> Hl]. by apply Hfin.
      + destruct (member w2 Artist.get_axes (PyObj o)) as [[| |axs]|]; repeat mstep; try done.
        pose proof (figure_lines_outcome w2 axs) as Hl. revert Hl.
        match goal with |- context [foldr ?f ?a axs w2] =>
          destruct (foldr f a axs w2) as [ls w3|e w3|] end; [|by intros ->|done].
        intros [-> Hl]. repeat mstep. first [by apply Hfin'|by apply Hfin].
      + by apply Hfin'.
      + by apply Hfin'.
      + by apply Hfin'.
    - repeat first [ mstep | rewrite Hkind | rewrite bool_decide_true by done
                   | rewrite bool_decide_false by done ].
      by apply Hfin'. }
  assert (Hloop : ∀ l0 w1, (∀ a, a ∈ l0 → a ∈ l) → apply_loop_frame self l w w1 →
            match for_each l0 body w1 with
            | Ret _ w2 | Exc _ w2 => apply_loop_frame self l w w2
            | Diverge => False
            end).
  { induction l0 as [|a l0 IH]; intros w1 Hsub Hfr; [done|].
    cbn [for_each]. rewrite bind_run.
    assert (Hin : a ∈ l) by (apply Hsub; by left).
    pose proof (Hbody a w1 Hin Hfr) as Ha.
    destruct (body a w1) as [[] w2|e w2|]; [|done..].
    apply IH; [|done]. intros b Hb. apply Hsub. by right. }
  rewrite bind_run.
  pose proof (Hloop l w (λ a H, H) (apply_loop_frame_refl _ _ _)) as Hl.
  destruct (for_each l body w) as [[] w1|e w1|]; [| |done].
  - destruct (last l) as [a|] eqn:Hlast.
    + pose proof (enable_callbacks_outcome a w1) as He.
      assert (Ho : objs w1 = objs w) by apply Hl.
      assert (Hr : registries w1 = registries w) by apply Hl.
      destruct (enable_callbacks a w1) as [[] w'|e w'|]; [| |done];
        (exists w1; split; [done|];
         destruct He as [->|(c & r & Hc & Hrc & Hattr & ->)]; [by left|];
         right; exists a, c, r; rewrite <- (canvas_target_ext w w1) by done;
         by rewrite <- Hr).
    + exists w1. split; [done|by left].
  - exists w1. split; [done|by left].
Qed.

(** X12: [apply] on a figure attaches the controller to the figure, gives
    the controller's tolerance as picker to exactly the lines of the
    figure's axes that were not pickable, so that every line of the figure
    has a picker afterwards, and, when the canvas had no callbacks yet,
    connects the pick and figure-enter callbacks. *)
Theorem apply_on_figure (w : World) (self : pid) (P : Picker.t) (fig c : oid)
    (FIG : Artist.t) (axs : list oid) (r : Registry.t) :
  controllers w !! self = Some P →
  objs w !! fig = Some FIG →
  Artist.kind FIG = Figure →
  Artist.get_axes FIG = Some (PyList axs) →
  Forall (λ ax, is_Some (objs w !! ax)) axs →
  Artist.canvas FIG = Some (PyObj c) →
  registries w !! c = Some r →
  fig ≠ c →
  ∃ w',
    AnnotationPicker_apply self (Single (PyObj fig)) w = Ret tt w'
    ∧ attrs w' !! fig = Some (Controller self)
    ∧ (∀ l, pickers w' !! l =
            if bool_decide (l ∈ lines_to_enable w axs)
            then Some (PTolerance (Picker.tolerance P)) else pickers w !! l)
    ∧ (∀ ax AX l, ax ∈ axs → objs w !! ax = Some AX → l ∈ Artist.get_lines AX →
                  is_Some (pickers w' !! l))
    ∧ (attrs w !! c = None →
       connected w' (PyObj c) "pick_event" H_on_pick_event = true
       ∧ connected w' (PyObj c) "figure_enter_event" H_on_figure_enter_event = true).
Proof.
  intros HP HF Hk Hax Hall Hc Hr Hne.
  destruct (apply_figure_spec w self P fig c FIG axs r)
    as (w' & Hrun & Hattr & Hpk & Hall' & _ & Hconn & _); try done.
  exists w'. done.
Qed.

(** X11: [apply] reads the loop variable after the loop to find the canvas:
    on an empty list it raises UnboundLocalError, and so does the
    constructor, after the controller was made; on None or a list holding
    only None it raises AttributeError; each time the store is otherwise
    unchanged.  On any list that ends in None it raises, whatever it did to
    the artists before. *)
Theorem apply_needs_an_artist (self : pid) (artists : ArtistsArg) (w : World)
    (tolerance : Q) (formatter : option Formatter) (button : Button)
    (key : option string) (use_blit : bool) (kwargs : list (string * KwVal)) :
  (_make_iterable artists = [] →
   AnnotationPicker_apply self artists w = Exc UnboundLocalError w
   ∧ AnnotationPicker_init artists tolerance formatter button key use_blit kwargs w
     = Exc UnboundLocalError
         (with_controllers
            (λ l, l ++ [Picker.mk tolerance use_blit button key
                          (default _annotate_line_str formatter)
                          (dict_update default_annotation_kwargs kwargs)]) w))
  ∧ (_make_iterable artists ≠ [] →
     Forall (λ a, a = PyNone) (_make_iterable artists) →
     AnnotationPicker_apply self artists w = Exc AttributeError w)
  ∧ (last (_make_iterable artists) = Some PyNone →
     ∃ e w', AnnotationPicker_apply self artists w = Exc e w').
Proof.
  split; [|split].
  - intros Hnil. destruct artists as [[| |[|]]|[|]]; try done.
  - intros Hne Hall. unfold AnnotationPicker_apply.
    set (l := _make_iterable artists) in *. clearbody l.
    match goal with |- context [for_each l ?b] => set (body := b) end.
    assert (Hloop : for_each l body w = Ret tt w).
    { clear Hne. induction Hall as [|a l -> _ IH]; [done|].
      cbn [for_each]. by rewrite bind_run. }
    assert (Hlast : last l = Some PyNone).
    { clear Hloop. induction Hall as [|a l -> Hall IH]; [done|].
      destruct l as [|b l]; [done|]. rewrite last_cons_cons. by apply IH. }
    by rewrite bind_run, Hloop, Hlast.
  - intros Hlast. pose proof (apply_frame self artists w) as H.
    unfold AnnotationPicker_apply in *. rewrite bind_run in *. rewrite Hlast in *.
    match goal with |- context [for_each ?l ?b w] =>
      destruct (for_each l b w) as [[] w1|e w1|] end; [by eexists _, _|by eexists _, _|done].
Qed.

(** X13: whatever it is given, and whether it returns or raises, [apply]
    terminates, leaves toolkit objects, annotations, draggable instances,
    controllers and the drag lock alone, never replaces the picker of a
    line that was pickable, and sets no picker other than the controller's
    tolerance. *)
Theorem apply_keeps_existing_pickers (self : pid) (artists : ArtistsArg) (w : World) :
  let w' := world_after w (AnnotationPicker_apply self artists w) in
  AnnotationPicker_apply self artists w ≠ Diverge
  ∧ objs w' = objs w ∧ annots w' = annots w ∧ draggables w' = draggables w
  ∧ controllers w' = controllers w ∧ _drag_lock w' = _drag_lock w
  ∧ (∀ l, pickable w l = true → pickers w' !! l = pickers w !! l)
  ∧ (∀ l v, pickers w' !! l = Some v →
            pickers w !! l = Some v
            ∨ ∃ P, controllers w !! self = Some P ∧ v = PTolerance (Picker.tolerance P)).
Proof.
  pose proof (apply_frame self artists w) as H.
  destruct (AnnotationPicker_apply self artists w) as [[] w'|e w'|]; [| |done]; simpl;
    (split; [done|]);
    destruct H as (w1 & (Ho & Ha & Hd & Hc & Hr & Hl & Hn & He & Hcl & Hpk & Hnew & Hat)
                      & [->|(a & c & r & _ & _ & _ & _ & ->)]);
    done.
Qed.

(** X14: [apply] enables the callbacks for the last artist of its list only:
    the callback registry of any canvas that is not the canvas of the last
    artist is left as it was, and so is its attribute unless the canvas is
    itself among the artists. *)
Theorem apply_enables_last_canvas_only (self : pid) (artists : ArtistsArg) (w : World) :
  let w' := world_after w (AnnotationPicker_apply self artists w) in
  ∀ c, (∀ a, last (_make_iterable artists) = Some a → canvas_target w a ≠ Some (PyObj c)) →
       registries w' !! c = registries w !! c
       ∧ (PyObj c ∉ _make_iterable artists → attrs w' !! c = attrs w !! c).
Proof.
  pose proof (apply_frame self artists w) as H. intros w' c Hc. subst w'.
  destruct (AnnotationPicker_apply self artists w) as [[] w'|e w'|]; [| |done]; simpl;
    destruct H as (w1 & (Ho & Ha & Hd & Hct & Hr & Hl & Hn & He & Hcl & Hpk & Hnew & Hat)
                      & [->|(a & c' & r & Hlast & Htgt & _ & _ & ->)]);
    wsimpl; rewrite ?Hr;
    try (assert (c' ≠ c) by (intros ->; by apply (Hc a)));
    rewrite ?lookup_insert_ne by done;
    (split; [done|]); intros Hnin; by destruct (Hat c) as [?|[? _]].
Qed.

(** X15: the attribute that holds the controller of an artist holds the
    callback ids of a canvas: [apply] on a canvas itself attaches the
    controller there, [enable_callbacks] then finds the attribute present
    and connects nothing, and [disable_callbacks] on that canvas raises
    TypeError, a controller being no list of ids. *)
Theorem controller_on_canvas_connects_nothing (w : World) (self : pid) (P : Picker.t)
    (c : oid) (C : Artist.t) :
  controllers w !! self = Some P →
  objs w !! c = Some C →
  Artist.kind C = FigureCanvas →
  Artist.get_figure C = None →
  let w' := with_attrs <[c := Controller self]> w in
  AnnotationPicker_apply self (Single (PyObj c)) w = Ret tt w'
  ∧ registries w' = registries w
  ∧ disable_callbacks (PyObj c) w' = Exc TypeError w'.
Proof.
  intros HP HC Hk Hgf w'.
  assert (Hkind : ∀ w0, objs w0 = objs w → kind_of w0 (PyObj c) = Some FigureCanvas).
  { intros w0 Hw0. unfold kind_of, obj_of. by rewrite Hw0, HC; simpl; rewrite Hk. }
  split; [|split; [done|]].
  - unfold AnnotationPicker_apply, and_then, setattr_attr_name.
    cbn [_make_iterable for_each last].
    repeat first [ mstep | rewrite Hkind by done | rewrite bool_decide_true by done
                 | rewrite bool_decide_false by done ].
    rewrite (self_picker_run _ _ P) by (wsimpl; exact HP). cbn [for_each]. repeat mstep.
    apply (enable_callbacks_again _ _ c).
    + unfold canvas_target. rewrite Hkind by done. rewrite bool_decide_false by done.
      erewrite member_obj by (wsimpl; exact HC). by rewrite Hgf.
    + wsimpl. rewrite lookup_insert_eq. eauto.
  - unfold disable_callbacks.
    repeat first [ mstep | rewrite Hkind by done | rewrite bool_decide_true by done
                 | rewrite bool_decide_false by done ].
    unfold w'. cbn [attr_lookup]. wsimpl. rewrite lookup_insert_eq. done.
Qed.

(** X16: [apply] on a line that is in no figure raises AttributeError when it
    looks for the canvas, after the loop: the controller stays attached to
    the line and the line keeps the tolerance as its picker. *)
Theorem apply_to_line_without_figure (w : World) (self : pid) (P : Picker.t) (line : oid)
    (L : Artist.t) :
  controllers w !! self = Some P →
  objs w !! line = Some L →
  Artist.kind L = Line2D →
  Artist.get_figure L = Some PyNone →
  Artist.figure L = Some PyNone →
  AnnotationPicker_apply self (Single (PyObj line)) w =
  Exc AttributeError
      (with_pickers <[line := PTolerance (Picker.tolerance P)]>
         (with_attrs <[line := Controller self]> w)).
Proof.
  intros HP HL Hk Hgf Hf.
  assert (Hkind : ∀ w0, objs w0 = objs w → kind_of w0 (PyObj line) = Some Line2D).
  { intros w0 Hw0. unfold kind_of, obj_of. by rewrite Hw0, HL; simpl; rewrite Hk. }
  assert (Hp : ∀ w0, objs w0 = objs w → pickable w0 line = false).
  { intros w0 Hw0. unfold pickable. by rewrite Hw0, HL, Hf. }
  unfold AnnotationPicker_apply, and_then, setattr_attr_name.
  cbn [_make_iterable for_each last].
  repeat first [ mstep | rewrite Hkind by done | rewrite bool_decide_true by done
               | rewrite bool_decide_false by done | rewrite Hp by done
               | progress cbn [negb] ].
  rewrite (self_picker_run _ _ P) by (wsimpl; exact HP). cbn [for_each].
  unfold set_picker. repeat mstep.
  unfold enable_callbacks. rewrite bind_run, canvas_of_run.
  unfold canvas_target. rewrite Hkind by done. rewrite bool_decide_false by done.
  erewrite member_obj by (wsimpl; exact HL). rewrite Hgf. done.
Qed.

(** X17: after [apply] on a figure, the controlling instance found for a
    line of that figure is the new controller, unless the line or its axes
    already carry an attribute of their own, which then still wins (the
    line's first). *)
Theorem figure_controller_is_found (w : World) (self : pid) (P : Picker.t)
    (fig line ax c : oid) (L FIG : Artist.t) (axs : list oid) :
  controllers w !! self = Some P →
  plotted w line = Some (ax, c) →
  objs w !! line = Some L →
  Artist.get_figure L = Some (PyObj fig) →
  objs w !! fig = Some FIG →
  Artist.get_axes FIG = Some (PyList axs) →
  Forall (λ ax, is_Some (objs w !! ax)) axs →
  kind_of w (PyObj c) = Some FigureCanvas →
  ∃ w',
    AnnotationPicker_apply self (Single (PyObj fig)) w = Ret tt w'
    ∧ _find_annotations_instance (PyObj line) w' =
      Ret (match attrs w !! line with
           | Some v => Some v
           | None => match attrs w !! ax with
                     | Some v => Some v
                     | None => Some (Controller self)
                     end
           end) w'.
Proof.
  intros HP Hpl HL Hgf HF Hax Hall Hkc.
  destruct (plotted_spec _ _ _ _ Hpl)
    as (L' & AX & fig' & FIG' & r & HL' & HkL & HaxL & Hgf' & HAX & HkAX & Hfig & HFIG & HkF
        & Hc & Hr).
  simplify_eq.
  assert (Hk : ∀ o O k, objs w !! o = Some O → Artist.kind O = k → k ≠ FigureCanvas → o ≠ c).
  { intros o O k HO HkO Hne ->. unfold kind_of, obj_of in Hkc. rewrite HO in Hkc.
    simpl in Hkc. congruence. }
  assert (Hlf : line ≠ fig) by (intros ->; congruence).
  assert (Haf : ax ≠ fig) by (intros ->; congruence).
  destruct (apply_figure_spec w self P fig c FIG axs r)
    as (w' & Hrun & Hattr & _ & _ & _ & _ & Hother & Ho & _); try done.
  { by eapply Hk. }
  exists w'. split; [done|].
  rewrite _find_annotations_instance_run. f_equal.
  unfold nearest_controller, ownership_chain. cbn [omap list_omap].
  rewrite !(member_obj w' _ line L) by (by rewrite Ho). rewrite HaxL, Hgf.
  cbn [omap list_omap attr_lookup].
  rewrite (Hother line), (Hother ax), Hattr; try done; try (by eapply Hk).
  destruct (attrs w !! line); [done|]. by destruct (attrs w !! ax).
Qed.

(** ** Keeping new lines pickable *)

Lemma nearest_controller_ext (w w' : World) (a : PyVal) :
  objs w' = objs w → attrs w' = attrs w →
  nearest_controller w' a = nearest_controller w a.
Proof.
  intros Ho Ha. unfold nearest_controller, ownership_chain, member, obj_of, attr_lookup.
  by rewrite Ho, Ha.
Qed.

Lemma enter_picker_ext (w w' : World) (l : oid) :
  objs w' = objs w → attrs w' = attrs w → controllers w' = controllers w →
  enter_picker w' l = enter_picker w l.
Proof.
  intros Ho Ha Hc. unfold enter_picker. by rewrite (nearest_controller_ext w w'), Hc.
Qed.

Lemma enter_loop_run (w0 : World) (ls : list oid) (w : World) :
  objs w = objs w0 → attrs w = attrs w0 → controllers w = controllers w0 →
  (∀ l v, l ∈ ls → nearest_controller w0 (PyObj l) = Some v →
          ∃ p P, v = Controller p ∧ controllers w0 !! p = Some P) →
  for_each ls (λ line,
    annotations_instance ← _find_annotations_instance (PyObj line);
    match annotations_instance with
    | Some v => tol ← tolerance_of v; set_picker line (PTolerance tol)
    | None => mret tt
    end) w
  = Ret tt (with_pickers
              (λ pk, foldl (λ pk l, from_option (λ v, <[l := v]> pk) pk (enter_picker w0 l))
                       pk ls) w).
Proof.
  revert w. induction ls as [|l ls IH]; intros w Ho Ha Hc Hok.
  - simpl. rewrite mret_run. f_equal. by destruct w.
  - cbn [for_each foldl]. rewrite bind_run, bind_run, _find_annotations_instance_run.
    rewrite (nearest_controller_ext w0 w) by done.
    unfold enter_picker at 2.
    destruct (nearest_controller w0 (PyObj l)) as [v|] eqn:Hn.
    + destruct (Hok l v) as (p & P & -> & HP); [by left|done|].
      unfold tolerance_of, set_picker.
      rewrite bind_run, bind_run, (self_picker_run _ _ P) by (by rewrite Hc).
      repeat mstep. rewrite HP. cbn [fmap option_fmap option_map from_option].
      rewrite IH; [done|done..|]. intros l' v' Hl'. apply Hok. by right.
    + rewrite mret_run. cbn [from_option].
      rewrite IH; [done|done..|]. intros l' v' Hl'. apply Hok. by right.
Qed.

Lemma lookup_enter_pickers (w0 : World) (ls : list oid) (pk : gmap nat PickerVal) (l : oid) :
  foldl (λ pk l, from_option (λ v, <[l := v]> pk) pk (enter_picker w0 l)) pk ls !! l
  = match (if bool_decide (l ∈ ls) then enter_picker w0 l else None) with
    | Some v => Some v
    | None => pk !! l
    end.
Proof.
  revert pk. induction ls as [|x ls IH]; intros pk; [done|].
  cbn [foldl]. rewrite IH. destruct (decide (l ∈ ls)) as [Hin|Hnin].
  - rewrite !bool_decide_true; [|by right|done].
    destruct (enter_picker w0 l) as [v|] eqn:Hv; [done|].
    destruct (enter_picker w0 x) as [vx|] eqn:Hx; [|done]. simpl.
    rewrite lookup_insert_ne; [done|]. intros ->. congruence.
  - rewrite (bool_decide_false (l ∈ ls)) by done.
    destruct (decide (x = l)) as [->|Hne].
    + rewrite bool_decide_true by (by left).
      destruct (enter_picker w0 l) as [v|]; simpl; [by rewrite lookup_insert_eq|done].
    + rewrite bool_decide_false by (rewrite not_elem_of_cons; by split).
      destruct (enter_picker w0 x) as [vx|]; simpl; [|done].
      by rewrite lookup_insert_ne.
Qed.

Lemma figure_enter_run (w : World) (c fig : oid) (C FIG : Artist.t) (axs : list oid) :
  objs w !! c = Some C →
  Artist.figure C = Some (PyObj fig) →
  objs w !! fig = Some FIG →
  Artist.get_axes FIG = Some (PyList axs) →
  Forall (λ ax, is_Some (objs w !! ax)) axs →
  (∀ l v, l ∈ lines_to_enable w axs → nearest_controller w (PyObj l) = Some v →
          ∃ p P, v = Controller p ∧ controllers w !! p = Some P) →
  ∃ pk,
    _on_figure_enter_event (LocationEvent.mk c) w = Ret tt (with_pickers (λ _, pk) w)
    ∧ ∀ l, pk !! l = match (if bool_decide (l ∈ lines_to_enable w axs)
                            then enter_picker w l else None) with
                     | Some v => Some v
                     | None => pickers w !! l
                     end.
Proof.
  intros HC Hf HF Hax Hall Hok. eexists. split.
  - unfold _on_figure_enter_event. cbn [LocationEvent.canvas].
    rewrite bind_run, getattr_run, (member_obj _ _ _ C HC), Hf.
    rewrite bind_run, getattr_run, (member_obj _ _ _ FIG HF), Hax.
    rewrite bind_run, figure_lines_run by done.
    rewrite (enter_loop_run w) by done. reflexivity.
  - intros l. apply lookup_enter_pickers.
Qed.

(** X18: when the mouse enters a figure, every line of the figure's axes
    that is not pickable and has a controlling instance gets that
    controller's tolerance as picker; a line without controlling instance,
    a line that was pickable and a line outside the figure keep what they
    had, and nothing but pickers changes. *)
Theorem figure_enter_sets_pickers (w : World) (c fig : oid) (C FIG : Artist.t)
    (axs : list oid) :
  objs w !! c = Some C →
  Artist.figure C = Some (PyObj fig) →
  objs w !! fig = Some FIG →
  Artist.get_axes FIG = Some (PyList axs) →
  Forall (λ ax, is_Some (objs w !! ax)) axs →
  (∀ l v, l ∈ lines_to_enable w axs → nearest_controller w (PyObj l) = Some v →
          ∃ p P, v = Controller p ∧ controllers w !! p = Some P) →
  ∃ w',
    _on_figure_enter_event (LocationEvent.mk c) w = Ret tt w'
    ∧ (∀ l p P, l ∈ lines_to_enable w axs →
                nearest_controller w (PyObj l) = Some (Controller p) →
                controllers w !! p = Some P →
                pickers w' !! l = Some (PTolerance (Picker.tolerance P)))
    ∧ (∀ l, nearest_controller w (PyObj l) = None → pickers w' !! l = pickers w !! l)
    ∧ (∀ l, pickable w l = true → pickers w' !! l = pickers w !! l)
    ∧ (∀ l, l ∉ lines_to_enable w axs → pickers w' !! l = pickers w !! l)
    ∧ w' = with_pickers (λ _, pickers w') w.
Proof.
  intros HC Hf HF Hax Hall Hok.
  destruct (figure_enter_run w c fig C FIG axs) as (pk & Hrun & Hpk); try done.
  eexists. split; [exact Hrun|]. wsimpl.
  assert (Hout : ∀ l, l ∉ lines_to_enable w axs → pk !! l = pickers w !! l).
  { intros l Hl. by rewrite Hpk, bool_decide_false. }
  split; [|split; [|split; [|split; [done|done]]]].
  - intros l p P Hl Hn HP. rewrite Hpk, bool_decide_true by done.
    unfold enter_picker. by rewrite Hn, HP.
  - intros l Hn. rewrite Hpk. unfold enter_picker. rewrite Hn. by case_bool_decide.
  - intros l Hp. apply Hout. rewrite elem_of_lines_to_enable.
    intros (? & ? & ? & ? & ? & ?). congruence.
Qed.

(** X19: a figure-enter event that follows another one on the same store
    changes nothing. *)
Theorem figure_enter_twice (w : World) (c fig : oid) (C FIG : Artist.t) (axs : list oid) :
  objs w !! c = Some C →
  Artist.figure C = Some (PyObj fig) →
  objs w !! fig = Some FIG →
  Artist.get_axes FIG = Some (PyList axs) →
  Forall (λ ax, is_Some (objs w !! ax)) axs →
  (∀ l v, l ∈ lines_to_enable w axs → nearest_controller w (PyObj l) = Some v →
          ∃ p P, v = Controller p ∧ controllers w !! p = Some P) →
  ∃ w',
    _on_figure_enter_event (LocationEvent.mk c) w = Ret tt w'
    ∧ _on_figure_enter_event (LocationEvent.mk c) w' = Ret tt w'.
Proof.
  intros HC Hf HF Hax Hall Hok.
  destruct (figure_enter_run w c fig C FIG axs) as (pk & Hrun & Hpk); try done.
  set (w' := with_pickers (λ _, pk) w) in *.
  exists w'. split; [done|].
  assert (Hsub : ∀ l, l ∈ lines_to_enable w' axs → l ∈ lines_to_enable w axs).
  { intros l. rewrite !elem_of_lines_to_enable.
    intros (ax & AX & Hin & HAX & Hl & Hp). exists ax, AX. repeat split; try done.
    destruct (pickable w l) eqn:Hpw; [|done].
    rewrite (pickable_ext w w' l) in Hp; [congruence|done|]. unfold w'. wsimpl.
    rewrite Hpk, bool_decide_false; [done|].
    rewrite elem_of_lines_to_enable. intros (? & ? & ? & ? & ? & ?). congruence. }
  destruct (figure_enter_run w' c fig C FIG axs) as (pk' & Hrun' & Hpk'); try done.
  { intros l v Hl. rewrite (nearest_controller_ext w w') by done. apply Hok. by apply Hsub. }
  rewrite Hrun'. f_equal. apply world_ext; try done. wsimpl.
  apply map_eq. intros l. rewrite Hpk'. unfold w' at 2. wsimpl.
  case_bool_decide as Hl; [|done].
  rewrite (enter_picker_ext w w') by done.
  destruct (enter_picker w l) as [v|] eqn:Hv; [|done].
  by rewrite Hpk, bool_decide_true, Hv by (by apply Hsub).
Qed.

(** ** Clearing controllers *)

Lemma with_attrs_id (w : World) (f : gmap nat AttrVal → gmap nat AttrVal) :
  f (attrs w) = attrs w → with_attrs f w = w.
Proof. intros H. destruct w. unfold with_attrs. simpl in *. by rewrite H. Qed.

Lemma lookup_clear (l : list PyVal) (m : gmap nat AttrVal) (o : oid) :
  foldl (λ m a, match a with PyObj o => delete o m | _ => m end) m l !! o
  = if bool_decide (PyObj o ∈ l) then None else m !! o.
Proof.
  revert m. induction l as [|a l IH]; intros m; [done|].
  cbn [foldl]. rewrite IH. destruct (decide (PyObj o ∈ l)) as [Hin|Hnin].
  - rewrite !bool_decide_true; [done|by right|done].
  - rewrite (bool_decide_false (PyObj o ∈ l)) by done.
    destruct (decide (a = PyObj o)) as [->|Hne].
    + rewrite bool_decide_true by (by left). apply lookup_delete_eq.
    + rewrite bool_decide_false by (rewrite not_elem_of_cons; by split).
      destruct a as [|o'|]; try done. rewrite lookup_delete_ne; [done|congruence].
Qed.

(** X20: [_clear_annotations] asks each artist for a member named
    'get chlldren'.  In a toolkit where no object has a member of that name
    the function never descends: it returns for any positive recursion
    depth, removes the attribute from exactly the artists it was given (an
    artist of the list without the attribute, or None, is skipped), leaves
    the attribute of every other object, children included, prints one
    line and changes nothing else. *)
Theorem clear_annotations_spares_children (has_member : Artist.t → string → bool)
    (get_children : Artist.t → PyVal) (fuel : nat) (artists : ArtistsArg) (w : World) :
  (∀ a, has_member a "get chlldren" = false) →
  ∃ w',
    _clear_annotations has_member get_children (S fuel) artists w = Ret tt w'
    ∧ (∀ o, attrs w' !! o =
            if bool_decide (PyObj o ∈ _make_iterable artists) then None else attrs w !! o)
    ∧ w' = with_call (print_str "All annotations in artist and children deleted.")
             (with_attrs (λ _, attrs w') w).
Proof.
  intros Hno. cbn [_clear_annotations].
  match goal with |- context [for_each _ ?b] => set (body := b) end.
  assert (Hbody : ∀ a w1,
            body a w1
            = Ret tt (with_attrs (λ m, match a with PyObj o => delete o m | _ => m end) w1)).
  { intros a w1. unfold body, delattr_attr_name, hasattr_text.
    repeat mstep. destruct a as [|o|l]; cbn [attr_lookup].
    - repeat mstep. by rewrite with_attrs_id.
    - destruct (attrs w1 !! o) as [v|] eqn:Hv; repeat mstep.
      + cbn [attr_lookup]. rewrite Hv. repeat mstep.
        assert (Hmem : match obj_of (with_attrs (delete o) w1) (PyObj o) with
                       | Some a => has_member a "get chlldren"
                       | None => false
                       end = false).
        { destruct (obj_of _ _); [apply Hno|done]. }
        rewrite Hmem. by repeat mstep.
      + rewrite with_attrs_id; [done|]. by apply delete_id.
    - repeat mstep. by rewrite with_attrs_id. }
  assert (Hloop : ∀ l w1,
            for_each l body w1
            = Ret tt (with_attrs
                        (λ m, foldl (λ m a, match a with PyObj o => delete o m | _ => m end)
                                m l) w1)).
  { induction l as [|a l IH]; intros w1.
    - simpl. rewrite mret_run. by rewrite with_attrs_id.
    - cbn [for_each]. rewrite bind_run, Hbody, IH. done. }
  rewrite bind_run, Hloop. unfold print. rewrite modify_run.
  eexists. split; [done|]. wsimpl. split; [|done].
  intros o. apply lookup_clear.
Qed.

(** ** Creating annotations: indices, controllers, ids *)

Lemma py_index_out_of_range_run {A} (l : list A) (i : Z) (w : World) :
  ¬ (- Z.of_nat (length l) ≤ i < Z.of_nat (length l)) →
  py_index l i w = Exc IndexError w.
Proof.
  intros Hout. unfold py_index.
  destruct ((0 <=? i) && (i <? Z.of_nat (length l))) eqn:H1.
  { apply andb_true_iff in H1 as [?%Z.leb_le ?%Z.ltb_lt]. lia. }
  destruct ((- Z.of_nat (length l) <=? i) && (i <? 0)) eqn:H2; [|done].
  apply andb_true_iff in H2 as [?%Z.leb_le ?%Z.ltb_lt]. lia.
Qed.

Lemma AnnotationPicker_annotate_out_of_range (w : World) (p : pid) (P : Picker.t)
    (line ax c : oid) (L : Artist.t) (index : Z) (text : option string) :
  controllers w !! p = Some P →
  plotted w line = Some (ax, c) →
  objs w !! line = Some L →
  ¬ (- Z.of_nat (length (Artist.get_xydata L)) ≤ index
     < Z.of_nat (length (Artist.get_xydata L))) →
  AnnotationPicker_annotate p line index text w = Exc IndexError w.
Proof.
  intros HP Hpl HL Hout.
  destruct (plotted_spec _ _ _ _ Hpl)
    as (L' & AX & fig & FIG & r & HL' & HkL & Hax & Hgf & HAX & HkAX & Hfig & HFIG & HkF
        & Hc & Hr).
  simplify_eq.
  unfold AnnotationPicker_annotate.
  rewrite bind_run, (self_picker_run _ _ _ HP).
  rewrite bind_run, getattr_run, (member_obj _ _ _ L HL), Hax.
  rewrite bind_run, isinstance_run. unfold kind_of, obj_of. rewrite HAX. simpl.
  rewrite HkAX, bool_decide_true by done.
  rewrite bind_run, mret_run.
  rewrite bind_run, getattr_run, (member_obj _ _ _ L HL).
  by rewrite bind_run, py_index_out_of_range_run.
Qed.

Lemma annotate_controlled_run (w : World) (p : pid) (line : oid) (index : Z)
    (text : option string) :
  nearest_controller w (PyObj line) = Some (Controller p) →
  annotate line index text w =
  match AnnotationPicker_annotate p line index text w with
  | Ret _ w' => Ret tt w'
  | Exc e w' => Exc e w'
  | Diverge => Diverge
  end.
Proof.
  intros Hn. unfold annotate, call_annotate.
  rewrite bind_run, _find_annotations_instance_run, Hn.
  by rewrite bind_run, mret_run, bind_run.
Qed.

Lemma annotate_default_setup (w : World) (line ax c : oid) (index : Z)
    (text : option string) :
  nearest_controller w (PyObj line) = None →
  plotted w line = Some (ax, c) →
  ∃ w2,
    annotate line index text w =
    match AnnotationPicker_annotate (length (controllers w)) line index text w2 with
    | Ret _ w' => Ret tt w'
    | Exc e w' => Exc e w'
    | Diverge => Diverge
    end
    ∧ objs w2 = objs w
    ∧ controllers w2 = controllers w ++ [default_picker]
    ∧ draggables w2 = draggables w
    ∧ attrs w2 !! line = Some (Controller (length (controllers w)))
    ∧ plotted w2 line = Some (ax, c).
Proof.
  intros Hnone Hpl.
  destruct (default_picker_run w line ax c Hpl) as (w1 & Hinit & Ho & Hctl & Hd & Hreg).
  unfold annotate, setattr_attr_name, call_annotate.
  rewrite bind_run, _find_annotations_instance_run, Hnone.
  rewrite !bind_run, Hinit. repeat mstep.
  eexists. split; [reflexivity|]. wsimpl. split; [done|]. split; [done|]. split; [done|].
  split; [apply lookup_insert_eq|]. by apply (plotted_frame w).
Qed.

(** X21: an index outside [-len, len) makes [AnnotationPicker.annotate]
    raise IndexError before anything is created, and so the module-level
    [annotate] of a controlled line; on a line without controlling instance
    the module-level [annotate] raises too, but leaves the default
    controller it made attached to the line, with no annotation. *)
Theorem annotate_out_of_range (w : World) (line ax c : oid) (L : Artist.t) (index : Z)
    (text : option string) :
  plotted w line = Some (ax, c) →
  objs w !! line = Some L →
  ¬ (- Z.of_nat (length (Artist.get_xydata L)) ≤ index
     < Z.of_nat (length (Artist.get_xydata L))) →
  (∀ p P, controllers w !! p = Some P →
          AnnotationPicker_annotate p line index text w = Exc IndexError w
          ∧ (nearest_controller w (PyObj line) = Some (Controller p) →
             annotate line index text w = Exc IndexError w))
  ∧ (nearest_controller w (PyObj line) = None →
     ∃ w1, annotate line index text w = Exc IndexError w1
           ∧ controllers w1 = controllers w ++ [default_picker]
           ∧ attrs w1 !! line = Some (Controller (length (controllers w)))
           ∧ objs w1 = objs w ∧ draggables w1 = draggables w).
Proof.
  intros Hpl HL Hout. split.
  - intros p P HP.
    pose proof (AnnotationPicker_annotate_out_of_range w p P line ax c L index text
                  HP Hpl HL Hout) as Hrun.
    split; [done|]. intros Hn. by rewrite (annotate_controlled_run w p), Hrun.
  - intros Hnone.
    destruct (annotate_default_setup w line ax c index text Hnone Hpl)
      as (w2 & Hrun & Ho & Hctl & Hd & Hattr & Hpl2).
    exists w2. rewrite Hrun.
    rewrite (AnnotationPicker_annotate_out_of_range w2 _ default_picker line ax c L);
      try done.
    + rewrite Hctl. apply lookup_snoc.
    + by rewrite Ho.
Qed.

Lemma plotted_grow (w w' : World) (line ax c : oid) :
  (∀ o O, objs w !! o = Some O → objs w' !! o = Some O) →
  is_Some (registries w' !! c) →
  plotted w line = Some (ax, c) → plotted w' line = Some (ax, c).
Proof.
  intros Hsub Hr Hpl.
  destruct (plotted_spec _ _ _ _ Hpl)
    as (L & AX & fig & FIG & r & HL & HkL & Hax & Hgf & HAX & HkAX & Hfig & HFIG & HkF
        & Hc & _).
  unfold plotted.
  rewrite (Hsub _ _ HL), Hax, Hgf, (Hsub _ _ HAX), (Hsub _ _ HFIG), Hc.
  by rewrite !bool_decide_true by done.
Qed.

Lemma nearest_controller_own (w : World) (o : oid) (v : AttrVal) :
  attrs w !! o = Some v → nearest_controller w (PyObj o) = Some v.
Proof.
  intros H. unfold nearest_controller, ownership_chain. cbn [omap list_omap attr_lookup].
  by rewrite H.
Qed.

(** X22: two module-level [annotate] calls on a line that had no controlling
    instance make one default controller, attached to the line by the first
    call and found by the second, and two annotations, each with its own
    artist. *)
Theorem annotate_twice_one_controller (w : World) (line ax c : oid) (L : Artist.t)
    (i1 i2 : Z) (t1 t2 : option string) (xy1 xy2 : Q * Q) :
  nearest_controller w (PyObj line) = None →
  plotted w line = Some (ax, c) →
  objs w !! line = Some L →
  0 ≤ i1 → Artist.get_xydata L !! Z.to_nat i1 = Some xy1 →
  0 ≤ i2 → Artist.get_xydata L !! Z.to_nat i2 = Some xy2 →
  ∃ w' D1 D2,
    (annotate line i1 t1;; annotate line i2 t2) w = Ret tt w'
    ∧ controllers w' = controllers w ++ [default_picker]
    ∧ attrs w' !! line = Some (Controller (length (controllers w)))
    ∧ draggables w' = draggables w ++ [D1; D2]
    ∧ Drag.line D1 = Some line ∧ Drag.index D1 = Some i1
    ∧ Drag.line D2 = Some line ∧ Drag.index D2 = Some i2
    ∧ Drag.ref_artist D1 ≠ Drag.ref_artist D2.
Proof.
  intros Hnone Hpl HL Hi1 Hxy1 Hi2 Hxy2.
  destruct (annotate_default_setup w line ax c i1 t1 Hnone Hpl)
    as (w2 & Hrun & Ho & Hctl & Hd & Hattr & Hpl2).
  destruct (plotted_spec _ _ _ _ Hpl2)
    as (L' & AX & fig & FIG & r & HL' & _ & _ & _ & HAX & _ & _ & _ & _ & _ & Hr).
  rewrite Ho in HL'. simplify_eq.
  assert (HP2 : controllers w2 !! length (controllers w) = Some default_picker)
    by (rewrite Hctl; apply lookup_snoc).
  rewrite bind_run, Hrun.
  rewrite (AnnotationPicker_annotate_run w2 _ default_picker line i1 t1 ax c L AX r xy1)
    by (try done; by rewrite Ho).
  set (w3 := annotated w2 default_picker line i1 t1 ax AX c r xy1).
  rewrite (annotate_controlled_run w3 (length (controllers w)))
    by (by apply nearest_controller_own).
  assert (Hsub : ∀ o O, objs w2 !! o = Some O → objs w3 !! o = Some O).
  { intros o O HO. unfold w3, annotated. simpl. by apply lookup_app_l_Some. }
  erewrite (AnnotationPicker_annotate_run w3 _ default_picker line i2 t2 ax c L AX _ xy2);
    try done.
  - eexists _, _, _. split; [done|]. unfold annotated. simpl.
    rewrite Hctl, Hd, <- app_assoc. simpl.
    repeat split; try done. rewrite length_app. simpl. lia.
  - apply (plotted_grow w2); [done| |done]. unfold w3, annotated. simpl.
    rewrite lookup_insert_eq. eauto.
  - apply Hsub. by rewrite Ho.
  - by apply Hsub.
  - unfold w3, annotated. simpl. apply lookup_insert_eq.
Qed.

(** X23: a new annotation gets the id [(_counter + 1) mod 2^31], which is
    also the counter's new value: the id lies in [0, 2^31), differs from
    the id before it and wraps from 2^31 - 1 to 0. *)
Theorem annotation_ids (w : World) (p : pid) (P : Picker.t) (line : oid) (index : Z)
    (text : option string) (ax c : oid) (L AX : Artist.t) (r : Registry.t) (xy : Q * Q) :
  controllers w !! p = Some P →
  plotted w line = Some (ax, c) →
  objs w !! line = Some L →
  objs w !! ax = Some AX →
  registries w !! c = Some r →
  0 ≤ index →
  Artist.get_xydata L !! Z.to_nat index = Some xy →
  ∃ w' D,
    AnnotationPicker_annotate p line index text w = Ret (length (draggables w)) w'
    ∧ draggables w' !! length (draggables w) = Some D
    ∧ Drag.id D = (_counter w + 1) `mod` 2 ^ 31
    ∧ _counter w' = Drag.id D
    ∧ 0 ≤ Drag.id D < 2 ^ 31
    ∧ (0 ≤ _counter w < 2 ^ 31 → Drag.id D ≠ _counter w)
    ∧ (_counter w = 2 ^ 31 - 1 → Drag.id D = 0).
Proof.
  intros HP Hpl HL HAX Hr Hidx Hxy.
  eexists _, _. split; [by eapply AnnotationPicker_annotate_run|].
  unfold annotated. simpl. split; [apply lookup_snoc|]. simpl.
  split; [done|]. split; [done|].
  split; [apply Z.mod_pos_bound; lia|]. split.
  - intros Hc Heq.
    destruct (decide (_counter w = 2 ^ 31 - 1)) as [Hlast|Hlast].
    + rewrite Hlast in Heq. replace (2 ^ 31 - 1 + 1) with (2 ^ 31) in Heq by lia.
      rewrite Z_mod_same_full in Heq. lia.
    + rewrite Z.mod_small in Heq by lia. lia.
  - intros ->. replace (2 ^ 31 - 1 + 1) with (2 ^ 31) by lia. apply Z_mod_same_full.
Qed.

(** ** Making controllers and figures *)

Lemma dict_get_cons (e : string * KwVal) (d : list (string * KwVal)) (k : string) :
  dict_get (e :: d) k = if decide (e.1 = k) then Some e.2 else dict_get d k.
Proof.
  unfold dict_get. cbn [list_find]. destruct (decide (e.1 = k)); [done|].
  destruct (list_find _ d) as [[i x]|]; done.
Qed.

Lemma dict_get_None (d : list (string * KwVal)) (k : string) :
  k ∉ d.*1 → dict_get d k = None.
Proof.
  induction d as [|e d IH]; [done|]. rewrite fmap_cons, not_elem_of_cons.
  intros [Hne Hnin]. rewrite dict_get_cons, decide_False by done. by apply IH.
Qed.

Lemma dict_get_snoc (d : list (string * KwVal)) (kv : string * KwVal) (k : string) :
  dict_get (d ++ [kv]) k
  = match dict_get d k with
    | Some v => Some v
    | None => if decide (kv.1 = k) then Some kv.2 else None
    end.
Proof.
  induction d as [|e d IH]; simpl.
  - by rewrite dict_get_cons.
  - rewrite !dict_get_cons. by destruct (decide (e.1 = k)).
Qed.

Lemma dict_get_replace (d : list (string * KwVal)) (kv : string * KwVal) (k : string) :
  dict_get ((λ e : string * KwVal, if decide (e.1 = kv.1) then kv else e) <$> d) k
  = if decide (kv.1 = k)
    then (if bool_decide (kv.1 ∈ d.*1) then Some kv.2 else None)
    else dict_get d k.
Proof.
  induction d as [|e d IH]; [by destruct (decide (kv.1 = k))|].
  rewrite !fmap_cons, !dict_get_cons, IH.
  destruct (decide (e.1 = kv.1)) as [He|He].
  - destruct (decide (kv.1 = k)) as [Hk|Hk].
    + rewrite bool_decide_true; [done|]. rewrite He. by left.
    + rewrite decide_False by congruence. done.
  - destruct (decide (kv.1 = k)) as [Hk|Hk].
    + rewrite decide_False by congruence.
      destruct (decide (kv.1 ∈ d.*1)) as [Hin|Hnin].
      * rewrite !bool_decide_true; [done|by right|done].
      * rewrite !bool_decide_false; [done| |done].
        rewrite not_elem_of_cons. split; [congruence|done].
    + done.
Qed.

Lemma dict_get_set (d : list (string * KwVal)) (kv : string * KwVal) (k : string) :
  dict_get (dict_set d kv) k = if decide (kv.1 = k) then Some kv.2 else dict_get d k.
Proof.
  unfold dict_set. destruct (bool_decide (kv.1 ∈ d.*1)) eqn:Hin.
  - rewrite dict_get_replace, Hin. done.
  - apply bool_decide_eq_false in Hin.
    rewrite dict_get_snoc. destruct (decide (kv.1 = k)) as [<-|Hne].
    + by rewrite dict_get_None.
    + by destruct (dict_get d k).
Qed.

Lemma dict_get_update (d kwargs : list (string * KwVal)) (k : string) :
  dict_get (dict_update d kwargs) k
  = match dict_get (reverse kwargs) k with
    | Some v => Some v
    | None => dict_get d k
    end.
Proof.
  unfold dict_update. revert d. induction kwargs as [|kv kwargs IH]; intros d; [done|].
  cbn [foldl]. rewrite IH, reverse_cons, dict_get_snoc, dict_get_set.
  destruct (dict_get (reverse kwargs) k); [done|]. by destruct (decide (kv.1 = k)).
Qed.

Lemma dict_get_elem (d : list (string * KwVal)) (k : string) (v : KwVal) :
  NoDup d.*1 → (k, v) ∈ d → dict_get d k = Some v.
Proof.
  induction d as [|e d IH]; [by intros _ ?%elem_of_nil|].
  rewrite fmap_cons, NoDup_cons, elem_of_cons. intros [Hnin Hnd] [<-|Hin].
  - rewrite dict_get_cons. by rewrite decide_True.
  - rewrite dict_get_cons, decide_False; [by apply IH|].
    intros He. apply Hnin. rewrite He. apply list_elem_of_fmap. by exists (k, v).
Qed.

(** X24: the constructor called without artists only adds the controller to
    the store; the controller has the given tolerance, blitting flag, button
    and key, the given formatter or [_annotate_line_str], and annotation
    keywords in which every keyword of the caller has the caller's value
    and every other keyword its default. *)
Theorem keywords_override_defaults (w : World) (tolerance : Q)
    (formatter : option Formatter) (button : Button) (key : option string)
    (use_blit : bool) (kwargs : list (string * KwVal)) :
  ∃ P,
    AnnotationPicker_init (Single PyNone) tolerance formatter button key use_blit kwargs w
    = Ret (length (controllers w)) (with_controllers (λ l, l ++ [P]) w)
    ∧ Picker.tolerance P = tolerance ∧ Picker.use_blit P = use_blit
    ∧ Picker.button P = button ∧ Picker.key P = key
    ∧ Picker.formatter P = default _annotate_line_str formatter
    ∧ (NoDup kwargs.*1 →
       ∀ k v, (k, v) ∈ kwargs → dict_get (Picker.annotation_kwargs P) k = Some v)
    ∧ (∀ k, k ∉ kwargs.*1 →
            dict_get (Picker.annotation_kwargs P) k = dict_get default_annotation_kwargs k).
Proof.
  eexists. split; [reflexivity|]. cbn [Picker.tolerance Picker.use_blit Picker.button
    Picker.key Picker.formatter Picker.annotation_kwargs].
  repeat (split; [done|]). split.
  - intros Hnd k v Hin. rewrite dict_get_update.
    rewrite (dict_get_elem (reverse kwargs) k v); [done| |by apply elem_of_reverse].
    by rewrite fmap_reverse, reverse_Permutation.
  - intros k Hk. rewrite dict_get_update, dict_get_None; [done|].
    by rewrite fmap_reverse, elem_of_reverse.
Qed.

(** X25: [subplots] returns what [plt.subplots] returned, unchanged, with
    the figure controlled by the given controller or, when none is given,
    by a new one with every default, and with the pick and figure-enter
    callbacks connected to the figure's canvas. *)
Theorem subplots_controls_the_figure (plt_subplots : M (PyVal * PyVal)) (anno : option pid)
    (w w1 : World) (fig c : oid) (ax_list : PyVal) (FIG : Artist.t) (axs : list oid)
    (r : Registry.t) :
  plt_subplots w = Ret (PyObj fig, ax_list) w1 →
  objs w1 !! fig = Some FIG →
  Artist.kind FIG = Figure →
  Artist.get_axes FIG = Some (PyList axs) →
  Forall (λ ax, is_Some (objs w1 !! ax)) axs →
  Artist.canvas FIG = Some (PyObj c) →
  registries w1 !! c = Some r →
  fig ≠ c →
  attrs w1 !! c = None →
  (∀ a, anno = Some a → is_Some (controllers w1 !! a)) →
  ∃ w',
    subplots plt_subplots anno w = Ret (PyObj fig, ax_list) w'
    ∧ attrs w' !! fig = Some (Controller (default (length (controllers w1)) anno))
    ∧ controllers w' = match anno with
                       | Some _ => controllers w1
                       | None => controllers w1 ++ [default_picker]
                       end
    ∧ connected w' (PyObj c) "pick_event" H_on_pick_event = true
    ∧ connected w' (PyObj c) "figure_enter_event" H_on_figure_enter_event = true.
Proof.
  intros Hplt HF Hk Hax Hall Hc Hr Hne Hnone Hanno.
  unfold subplots. rewrite bind_run, Hplt. cbn beta iota.
  destruct anno as [a|].
  - destruct (Hanno a eq_refl) as [P HP].
    destruct (apply_figure_spec w1 a P fig c FIG axs r)
      as (w' & Hrun & Hattr & _ & _ & _ & Hconn & _ & _ & _ & _ & Hctl); try done.
    exists w'. rewrite bind_run, Hrun, mret_run. destruct (Hconn Hnone). done.
  - unfold AnnotationPicker_init. repeat mstep.
    set (w2 := with_controllers _ w1).
    destruct (apply_figure_spec w2 (length (controllers w1)) default_picker fig c FIG axs r)
      as (w' & Hrun & Hattr & _ & _ & _ & Hconn & _ & _ & _ & _ & Hctl); try done.
    { unfold w2. wsimpl. apply lookup_snoc. }
    exists w'. rewrite Hrun. repeat mstep. destruct (Hconn Hnone). done.
Qed.

(** ** The further properties at work on the example stores *)

Lemma artist_picker_hit_iff_witness :
  artist_picker 0%nat 4%nat (left_press 4%nat) three_annotations =
  Ret (true, Some [])
      (with_draggables (alter (Drag.set_button (BInt 1)) 0%nat)
         (with_drag_lock true three_annotations)).
Proof.
  apply (proj1 (artist_picker_hit_iff three_annotations 0%nat
                  (instance three_annotations 0%nat) 4%nat (left_press 4%nat)
                  ltac:(vm_compute; reflexivity))).
  split; [by left|]. split; [|reflexivity]. vm_compute. by left.
Defined.

Lemma left_drag_moves_text_witness :
  ∃ w1 w2,
    save_offset 0%nat float_left_drag = Ret tt w1
    ∧ update_offset 0%nat 3%Q (-2)%Q w1 = Ret tt w2
    ∧ Annot.position <$> annots w2 !! 4%nat
      = Some (float_add 20 (float_mul 3 float_0_72),
              float_add 20 (float_mul (-2) float_0_72)).
Proof.
  pose proof (left_drag_moves_text float_left_drag 0%nat (instance float_left_drag 0%nat)
                (annotation float_left_drag 4%nat) (toolkit_object float_left_drag 4%nat)
                3%Q (-2)%Q) as H.
  assert (H1 : draggables float_left_drag !! 0%nat = Some (instance float_left_drag 0%nat))
    by (vm_compute; reflexivity).
  assert (H2 : Drag.button (instance float_left_drag 0%nat) = Some (BInt 1))
    by (vm_compute; reflexivity).
  assert (H3 : annots float_left_drag !! Drag.ref_artist (instance float_left_drag 0%nat)
               = Some (annotation float_left_drag 4%nat))
    by (vm_compute; reflexivity).
  assert (H4 : objs float_left_drag !! Drag.ref_artist (instance float_left_drag 0%nat)
               = Some (toolkit_object float_left_drag 4%nat))
    by (vm_compute; reflexivity).
  specialize (H H1 H2 H3 H4). cbv zeta in H.
  match type of H with
  | ?range → _ => assert (H5 : range) by (vm_compute; reflexivity)
  end.
  destruct (H H5) as (w1 & w2 & Hsave & _ & Hupd & Hann & _).
  exists w1, w2. split; [exact Hsave|]. split; [exact Hupd|].
  rewrite Hann. vm_compute. reflexivity.
Defined.

Lemma left_drag_not_cumulative_witness :
  ∃ w',
    (save_offset 0%nat;; update_offset 0%nat 3%Q (-2)%Q;; update_offset 0%nat 1%Q 1%Q)
      left_drag = Ret tt w'
    ∧ (save_offset 0%nat;; update_offset 0%nat 1%Q 1%Q) left_drag = Ret tt w'.
Proof.
  apply (left_drag_not_cumulative left_drag 0%nat (instance left_drag 0%nat)
           (annotation left_drag 4%nat) (toolkit_object left_drag 4%nat));
    vm_compute; reflexivity.
Defined.

Lemma right_drag_only_deletes_witness :
  save_offset 0%nat right_drag = Ret tt right_drag
  ∧ update_offset 0%nat 9%Q 9%Q right_drag = Ret tt right_drag
  ∧ (save_offset 0%nat;; update_offset 0%nat 9%Q 9%Q;; finalize_offset 0%nat) right_drag
    = remove 0%nat right_drag.
Proof.
  apply (right_drag_only_deletes right_drag 0%nat (instance right_drag 0%nat));
    vm_compute; reflexivity.
Defined.

Lemma slide_stays_between_neighbours_witness :
  update_offset 1%nat (1 # 2)%Q 0%Q middle_drag = Ret tt middle_drag.
Proof.
  apply (slide_stays_between_neighbours middle_drag 1%nat (instance middle_drag 1%nat)
           (Artist.get_xydata ex_line) (1, 1)%Q identity_transform 1%nat);
    try (vm_compute; reflexivity).
  - simpl. lia.
  - right. exists (0, 0)%Q. split; [reflexivity|]. by vm_compute.
  - right. exists (2, 4)%Q. split; [reflexivity|]. by vm_compute.
Defined.

Lemma slide_update_idempotent_witness :
  ∃ w1, update_offset 1%nat 2%Q 0%Q middle_drag = Ret tt w1
        ∧ update_offset 1%nat 2%Q 0%Q w1 = Ret tt w1.
Proof.
  apply (slide_update_idempotent middle_drag 1%nat (instance middle_drag 1%nat)
           (Artist.get_xydata ex_line) (1, 1)%Q identity_transform 1 2%Q 0%Q
           (annotation middle_drag 5%nat)); try (vm_compute; reflexivity).
  simpl. lia.
Defined.

Lemma release_prints_with_formatter_witness :
  finalize_offset 1%nat middle_drag =
  Ret tt (with_call (print_annotation_text "My Line" (Some 1)
                       (TFmt _annotate_line_str (Some 3%nat) (Some 1))) middle_drag).
Proof.
  apply (proj2 (proj2 (release_prints_with_formatter middle_drag 1%nat
                         (instance middle_drag 1%nat) (BInt 2)
                         ltac:(vm_compute; reflexivity) ltac:(vm_compute; reflexivity)))
               eq_refl ltac:(vm_compute; discriminate) 3%nat ex_line
               (annotation middle_drag 5%nat));
    vm_compute; reflexivity.
Defined.

Lemma manual_text_is_kept_witness :
  Drag.index (instance (world_after manual_note_drag
                          (update_offset 0%nat 2%Q 0%Q manual_note_drag)) 0%nat) = Some 2
  ∧ ∀ a, Annot.text <$> annots (world_after manual_note_drag
                                  (update_offset 0%nat 2%Q 0%Q manual_note_drag)) !! a
         = Annot.text <$> annots manual_note_drag !! a.
Proof.
  split; [vm_compute; reflexivity|].
  apply (proj2 manual_text_is_kept manual_note_drag 0%nat (instance manual_note_drag 0%nat));
    vm_compute; reflexivity.
Defined.

Lemma annotation_ids_witness :
  ∃ w' D,
    AnnotationPicker_annotate 0%nat 3%nat 1 None ex_controlled = Ret 0%nat w'
    ∧ draggables w' !! 0%nat = Some D
    ∧ Drag.id D = 1.
Proof.
  destruct (annotation_ids ex_controlled 0%nat default_picker 3%nat 1 None 2%nat 1%nat
              ex_line ex_axes (Registry.mk 0 []) (1, 1)%Q)
    as (w' & D & Hrun & HD & Hid & _); try (vm_compute; reflexivity).
  { lia. }
  exists w', D. split; [exact Hrun|]. split; [exact HD|]. rewrite Hid. reflexivity.
Defined.

Lemma keywords_override_defaults_witness :
  ∃ P,
    AnnotationPicker_init (Single PyNone) 5%Q None (BInt 1) (Some "control") true
      [("fontsize", KwRepr "14")] ex_world
    = Ret 0%nat (with_controllers (λ l, l ++ [P]) ex_world)
    ∧ dict_get (Picker.annotation_kwargs P) "fontsize" = Some (KwRepr "14")
    ∧ dict_get (Picker.annotation_kwargs P) "xytext" = Some (KwPoint (20, 20)%Q).
Proof.
  destruct (keywords_override_defaults ex_world 5%Q None (BInt 1) (Some "control") true
              [("fontsize", KwRepr "14")])
    as (P & Hrun & _ & _ & _ & _ & _ & Hset & Hkeep).
  exists P. split; [exact Hrun|]. split.
  - apply Hset; [apply NoDup_singleton|by left].
  - rewrite Hkeep; [reflexivity|]. simpl. rewrite list_elem_of_singleton. discriminate.
Defined.

Lemma apply_needs_an_artist_witness :
  AnnotationPicker_apply 0%nat (Several []) ex_with_picker
  = Exc UnboundLocalError ex_with_picker
  ∧ AnnotationPicker_apply 0%nat (Several [PyNone; PyNone]) ex_with_picker
    = Exc AttributeError ex_with_picker
  ∧ ∃ e w', AnnotationPicker_apply 0%nat (Several [PyObj 3%nat; PyNone]) ex_with_picker
            = Exc e w'.
Proof.
  split; [|split].
  - apply (proj1 (apply_needs_an_artist 0%nat (Several []) ex_with_picker 5%Q None (BInt 1)
                    None true [])). reflexivity.
  - apply (proj1 (proj2 (apply_needs_an_artist 0%nat (Several [PyNone; PyNone])
                           ex_with_picker 5%Q None (BInt 1) None true []))).
    + discriminate.
    + repeat constructor.
  - apply (proj2 (proj2 (apply_needs_an_artist 0%nat (Several [PyObj 3%nat; PyNone])
                           ex_with_picker 5%Q None (BInt 1) None true []))).
    reflexivity.
Defined.

Lemma apply_to_line_without_figure_witness :
  AnnotationPicker_apply 0%nat (Single (PyObj 4%nat)) ex_loose =
  Exc AttributeError
      (with_pickers <[4%nat := PTolerance 5%Q]>
         (with_attrs <[4%nat := Controller 0%nat]> ex_loose)).
Proof.
  apply (apply_to_line_without_figure ex_loose 0%nat default_picker 4%nat loose_line);
    reflexivity.
Defined.

Lemma apply_on_figure_witness :
  ∃ w',
    AnnotationPicker_apply 0%nat (Single (PyObj 0%nat)) ex_with_picker = Ret tt w'
    ∧ attrs w' !! 0%nat = Some (Controller 0%nat)
    ∧ pickers w' !! 3%nat = Some (PTolerance 5%Q)
    ∧ connected w' (PyObj 1%nat) "pick_event" H_on_pick_event = true.
Proof.
  destruct (apply_on_figure ex_with_picker 0%nat default_picker 0%nat 1%nat ex_figure
              [2%nat] (Registry.mk 0 []))
    as (w' & Hrun & Hattr & Hpk & _ & Hconn); try reflexivity.
  { repeat constructor. by eexists. }
  { discriminate. }
  exists w'. split; [exact Hrun|]. split; [exact Hattr|]. split.
  - rewrite Hpk. reflexivity.
  - apply Hconn. reflexivity.
Defined.

Lemma apply_enables_last_canvas_only_witness :
  let w' := world_after two_figures_with_picker
              (AnnotationPicker_apply 0%nat (Several [PyObj 3%nat; PyObj 7%nat])
                 two_figures_with_picker) in
  registries w' !! 1%nat = registries two_figures_with_picker !! 1%nat
  ∧ attrs w' !! 1%nat = None
  ∧ attrs w' !! 3%nat = Some (Controller 0%nat)
  ∧ attrs w' !! 5%nat = Some (Callbacks [0%nat; 1%nat]).
Proof.
  intros w'.
  destruct (apply_enables_last_canvas_only 0%nat (Several [PyObj 3%nat; PyObj 7%nat])
              two_figures_with_picker 1%nat) as [Hreg Hattr].
  { intros a [= <-]. vm_compute. discriminate. }
  split; [exact Hreg|]. split.
  - unfold w'. rewrite Hattr; [reflexivity|].
    simpl. rewrite !not_elem_of_cons. repeat split; try discriminate. apply not_elem_of_nil.
  - split; vm_compute; reflexivity.
Defined.

Lemma figure_controller_is_found_witness :
  ∃ w',
    AnnotationPicker_apply 0%nat (Single (PyObj 0%nat)) ex_with_picker = Ret tt w'
    ∧ _find_annotations_instance (PyObj 3%nat) w' = Ret (Some (Controller 0%nat)) w'.
Proof.
  apply (figure_controller_is_found ex_with_picker 0%nat default_picker 0%nat 3%nat 2%nat
           1%nat ex_line ex_figure [2%nat]); try reflexivity.
  repeat constructor. by eexists.
Defined.

Lemma controller_on_canvas_connects_nothing_witness :
  let w' := with_attrs <[1%nat := Controller 0%nat]> ex_with_picker in
  AnnotationPicker_apply 0%nat (Single (PyObj 1%nat)) ex_with_picker = Ret tt w'
  ∧ registries w' = registries ex_with_picker
  ∧ disable_callbacks (PyObj 1%nat) w' = Exc TypeError w'.
Proof.
  apply (controller_on_canvas_connects_nothing ex_with_picker 0%nat default_picker 1%nat
           ex_canvas); reflexivity.
Defined.

Lemma disable_disconnects_stored_ids_witness :
  ∃ w' r',
    disable_callbacks (PyObj 0%nat) three_annotations = Ret tt w'
    ∧ registries w' !! 1%nat = Some r'
    ∧ ((2%nat, ("pick_event", H_on_pick 0%nat)) ∈ Registry.callbacks r')
    ∧ ¬ ((0%nat, ("pick_event", H_on_pick_event)) ∈ Registry.callbacks r')
    ∧ attrs w' !! 1%nat = None
    ∧ attrs w' !! 3%nat = Some (Controller 0%nat).
Proof.
  destruct (disable_disconnects_stored_ids three_annotations (PyObj 0%nat) 1%nat
              [0%nat; 1%nat] (registry three_annotations 1%nat))
    as (w' & r' & Hrun & Hreg & Hcb & Hattr & _); try (vm_compute; reflexivity).
  exists w', r'. split; [exact Hrun|]. split; [by rewrite Hreg, lookup_insert_eq|].
  split; [|split; [|split]].
  - apply Hcb. split; [vm_compute; repeat constructor|]. simpl.
    rewrite !not_elem_of_cons. split; [discriminate|]. split; [discriminate|].
    apply not_elem_of_nil.
  - intros [_ Hno]%Hcb. apply Hno. simpl. by left.
  - rewrite Hattr. apply lookup_delete_eq.
  - rewrite Hattr. vm_compute. reflexivity.
Defined.

Lemma enable_disable_round_trip_witness :
  ∃ w1 w2,
    enable_callbacks (PyObj 3%nat) annotations_only = Ret tt w1
    ∧ disable_callbacks (PyObj 0%nat) w1 = Ret tt w2
    ∧ Registry.callbacks (registry w2 1%nat)
      = Registry.callbacks (registry annotations_only 1%nat)
    ∧ attrs w2 = attrs annotations_only.
Proof.
  destruct (enable_disable_round_trip annotations_only (PyObj 3%nat) (PyObj 0%nat) 1%nat
              (registry annotations_only 1%nat))
    as (w1 & w2 & Hen & Hdis & Hw2 & _); try (vm_compute; reflexivity).
  { apply Forall_forall. vm_compute. repeat constructor. }
  exists w1, w2. split; [exact Hen|]. split; [exact Hdis|].
  rewrite Hw2. split; vm_compute; reflexivity.
Defined.

Lemma annotate_out_of_range_witness :
  ∃ w1, annotate 3%nat 3 None ex_world = Exc IndexError w1
        ∧ controllers w1 = controllers ex_world ++ [default_picker]
        ∧ attrs w1 !! 3%nat = Some (Controller 0%nat)
        ∧ draggables w1 = [].
Proof.
  destruct (proj2 (annotate_out_of_range ex_world 3%nat 2%nat 1%nat ex_line 3 None
                     ltac:(reflexivity) ltac:(reflexivity) ltac:(simpl; lia))
                  ltac:(reflexivity))
    as (w1 & Hrun & Hctl & Hattr & _ & Hd).
  exists w1. split; [exact Hrun|]. split; [exact Hctl|]. split; [exact Hattr|exact Hd].
Defined.

Lemma annotate_twice_one_controller_witness :
  ∃ w' D1 D2,
    (annotate 3%nat 0 None;; annotate 3%nat 2 (Some "peak")) ex_world = Ret tt w'
    ∧ controllers w' = [default_picker]
    ∧ draggables w' = [D1; D2]
    ∧ Drag.index D1 = Some 0 ∧ Drag.index D2 = Some 2.
Proof.
  destruct (annotate_twice_one_controller ex_world 3%nat 2%nat 1%nat ex_line 0 2 None
              (Some "peak") (0, 0)%Q (2, 4)%Q)
    as (w' & D1 & D2 & Hrun & Hctl & _ & Hd & _ & Hi1 & _ & Hi2 & _);
    try reflexivity; try lia.
  exists w', D1, D2. split; [exact Hrun|]. split; [exact Hctl|]. split; [exact Hd|].
  split; [exact Hi1|exact Hi2].
Defined.

Lemma figure_enter_sets_pickers_witness :
  pickable ex_controlled 3%nat = false
  ∧ ∃ w',
      _on_figure_enter_event (LocationEvent.mk 1%nat) ex_controlled = Ret tt w'
      ∧ pickers w' !! 3%nat = Some (PTolerance 5%Q)
      ∧ pickable w' 3%nat = true.
Proof.
  split; [reflexivity|].
  destruct (figure_enter_sets_pickers ex_controlled 1%nat 0%nat ex_canvas ex_figure
              [2%nat])
    as (w' & Hrun & Hset & _ & _ & _ & Hw'); try reflexivity.
  { repeat constructor. by eexists. }
  { intros l v Hl Hn. change (l ∈ [3%nat]) in Hl. apply list_elem_of_singleton in Hl as ->.
    exists 0%nat, default_picker. vm_compute in Hn. by injection Hn as <-. }
  assert (Hpk : pickers w' !! 3%nat = Some (PTolerance 5%Q)).
  { apply (Hset 3%nat 0%nat default_picker); [|reflexivity..]. vm_compute. by left. }
  exists w'. split; [exact Hrun|]. split; [exact Hpk|].
  rewrite Hw'. unfold pickable. simpl. by rewrite Hpk.
Defined.

Lemma figure_enter_twice_witness :
  ∃ w',
    _on_figure_enter_event (LocationEvent.mk 1%nat) ex_controlled = Ret tt w'
    ∧ _on_figure_enter_event (LocationEvent.mk 1%nat) w' = Ret tt w'.
Proof.
  apply (figure_enter_twice ex_controlled 1%nat 0%nat ex_canvas ex_figure [2%nat]);
    try reflexivity.
  - repeat constructor. by eexists.
  - intros l v Hl Hn. change (l ∈ [3%nat]) in Hl. apply list_elem_of_singleton in Hl as ->.
    exists 0%nat, default_picker. vm_compute in Hn. by injection Hn as <-.
Defined.

Lemma clear_annotations_spares_children_witness :
  ∃ w',
    _clear_annotations toolkit_members toolkit_children 1 (Single (PyObj 0%nat))
      both_controlled = Ret tt w'
    ∧ attrs w' !! 0%nat = None
    ∧ attrs w' !! 3%nat = Some (Controller 0%nat).
Proof.
  destruct (clear_annotations_spares_children toolkit_members toolkit_children 0
              (Single (PyObj 0%nat)) both_controlled)
    as (w' & Hrun & Hattr & _).
  { intros a. reflexivity. }
  exists w'. split; [exact Hrun|]. rewrite !Hattr. split; reflexivity.
Defined.

Lemma subplots_controls_the_figure_witness :
  ∃ w',
    subplots new_figure None ex_world = Ret (PyObj 4%nat, PyObj 6%nat) w'
    ∧ attrs w' !! 4%nat = Some (Controller 0%nat)
    ∧ controllers w' = [default_picker]
    ∧ connected w' (PyObj 5%nat) "pick_event" H_on_pick_event = true
    ∧ connected w' (PyObj 5%nat) "figure_enter_event" H_on_figure_enter_event = true.
Proof.
  apply (subplots_controls_the_figure new_figure None ex_world
           (world_after ex_world (new_figure ex_world)) 4%nat 5%nat (PyObj 6%nat)
           (a_figure 5 [6%nat]) [6%nat] (Registry.mk 0 [])); try reflexivity.
  - repeat constructor. by eexists.
  - discriminate.
  - intros a. discriminate.
Defined.
